(** * debellator.core: framing protocol, channels and command execution

    A shallow embedding of [src/debellator/core.py].  Python objects are
    modelled by the data they carry: [bytes] values are lists of bytes,
    [int] is [Z], a [float] is the 64 bit pattern that [struct] writes for
    it, a [str] is the sequence of bytes of its UTF-8 encoding, dictionaries
    are finite maps, or the lists of their items where the keys are uids,
    and [asyncio] queues are lists (oldest item first).
    Functions that can raise return a [result]; functions that mutate
    objects thread a [world] explicitly. *)

From Stdlib Require Import ZArith List Lia Bool.
From Stdlib Require Strings.Byte.
From stdpp Require Import gmap strings list fin_maps.
Import ListNotations.

Local Open Scope Z_scope.

(** ** Exceptions and results *)

Inductive exn : Type :=
| struct_error
| AssertionError (msg : string)
| IncompleteReadError
| UnicodeDecodeError
| zlib_error
| codec_error
| InvalidStateError
| RuntimeError (msg : string)
| CancelledError
| AttributeError
| TypeError
| NotImplementedError
| KeyError (key : string).

Inductive result (A : Type) : Type :=
| Ok (a : A)
| Raise (e : exn).
Arguments Ok {A} a.
Arguments Raise {A} e.

Definition is_Ok {A} (r : result A) : bool :=
  match r with Ok _ => true | Raise _ => false end.

(** ** Bytes *)

Abbreviation byte := Byte.byte.
Abbreviation pybytes := (list Byte.byte).

Definition Z_of_byte (b : byte) : Z := Z.of_N (Byte.to_N b).

Definition byte_of_Z (z : Z) : byte :=
  match Byte.of_N (Z.to_N (z mod 256)) with
  | Some b => b
  | None => Byte.x00
  end.

#[global] Instance byte_eq_dec : EqDecision byte := Byte.byte_eq_dec.

#[global] Instance byte_countable : Countable byte :=
  inj_countable Byte.to_N Byte.of_N Byte.of_to_N.

(** [bytes] objects are truthy exactly when they are not empty. *)
Definition truthy {A} (b : list A) : bool :=
  match b with [] => false | _ :: _ => true end.

(** ** [struct]: big-endian fields

    [pack_be n v] is the [n] byte big-endian image of [v]; [unpack_be] reads
    one back.  [struct.pack] refuses an integer that does not fit its field. *)

Fixpoint pack_be (n : nat) (v : Z) : pybytes :=
  match n with
  | O => []
  | S k => byte_of_Z (Z.shiftr v (8 * Z.of_nat k)) :: pack_be k v
  end.

Fixpoint unpack_be (bs : pybytes) : Z :=
  match bs with
  | [] => 0
  | b :: r => Z.shiftl (Z_of_byte b) (8 * Z.of_nat (length r)) + unpack_be r
  end.

Definition fits (n : nat) (v : Z) : bool :=
  (0 <=? v) && (v <? 2 ^ (8 * Z.of_nat n)).

Definition pack_uint (n : nat) (v : Z) : result pybytes :=
  if fits n v then Ok (pack_be n v) else Raise struct_error.

(** ** Floats

    A [float] is represented by its IEEE 754 binary64 pattern, a number
    below [2 ^ 64]: sign bit 63, exponent bits 62..52, fraction bits 51..0.
    [struct] writes and reads that pattern unchanged.  Python's [==] on
    floats is the IEEE comparison: a NaN differs from everything, itself
    included, and the two zeros are equal. *)

Definition is_float64 (t : Z) : Prop := 0 <= t < 2 ^ 64.

Definition f64_exponent (t : Z) : Z := Z.land (Z.shiftr t 52) 0x7FF.
Definition f64_fraction (t : Z) : Z := Z.land t (2 ^ 52 - 1).

Definition f64_is_nan (t : Z) : bool :=
  (f64_exponent t =? 0x7FF) && negb (f64_fraction t =? 0).

Definition f64_is_zero (t : Z) : bool := Z.land t (2 ^ 63 - 1) =? 0.

Definition f64_eqb (a b : Z) : bool :=
  negb (f64_is_nan a) && negb (f64_is_nan b)
  && ((a =? b) || (f64_is_zero a && f64_is_zero b)).

(** ** Uid *)

Record Uid : Type := mkUid {
  Uid_bytes : pybytes;
  Uid_time : Z;
  Uid_id : Z;
  Uid_tid : Z;
  Uid_seq : Z
}.

(** The thread-local counter [Uid._uid] and what [_create_uid] reads from
    its surroundings: the clock and the identity of the current thread. *)
Record uid_local : Type := mkUidLocal {
  ul_id : Z;
  ul_tid : Z;
  ul_uid : Z
}.

Record thread : Type := mkThread {
  thread_ident : Z;      (* threading.current_thread().ident *)
  thread_addr : Z        (* id(thread) *)
}.

Definition _create_uid (now : Z) (th : thread) (l : option uid_local)
  : (Z * Z * Z * Z) * option uid_local :=
  let l0 :=
    match l with
    | None => {| ul_id := thread_addr th; ul_tid := thread_ident th; ul_uid := 0 |}
    | Some l0 => l0
    end in
  let l1 := {| ul_id := ul_id l0; ul_tid := ul_tid l0; ul_uid := ul_uid l0 + 1 |} in
  ((now, ul_id l1, ul_tid l1, ul_uid l1), Some l1).

(** [struct.pack("!dQQQ", time, id, tid, seq)] *)
Definition pack_dQQQ (time id tid seq : Z) : result pybytes :=
  if fits 8 id && fits 8 tid && fits 8 seq
  then Ok (pack_be 8 time ++ pack_be 8 id ++ pack_be 8 tid ++ pack_be 8 seq)
  else Raise struct_error.

(** [struct.unpack("!dQQQ", bytes)] *)
Definition unpack_dQQQ (b : pybytes) : result (Z * Z * Z * Z) :=
  if (length b =? 32)%nat
  then Ok (unpack_be (take 8 b),
           unpack_be (take 8 (drop 8 b)),
           unpack_be (take 8 (drop 16 b)),
           unpack_be (take 8 (drop 24 b)))
  else Raise struct_error.

(** [Uid.__init__(time, id, tid, seq, bytes)]; an omitted argument is [None]. *)
Definition Uid_init (time id tid seq : option Z) (bytes : option pybytes)
    (now : Z) (th : thread) (l : option uid_local)
  : result Uid * option uid_local :=
  let fields :=
    match time, id, tid, seq with
    | Some t, Some i, Some d, Some s => (Ok (t, i, d, s), l)
    | _, _, _, _ =>
        match bytes with
        | Some ((_ :: _) as b) => (unpack_dQQQ b, l)
        | _ => let '(f, l') := _create_uid now th l in (Ok f, l')
        end
    end in
  match fields with
  | (Raise e, l') => (Raise e, l')
  | (Ok (t, i, d, s), l') =>
      match bytes with
      | Some ((_ :: _) as b) => (Ok (mkUid b t i d s), l')
      | _ =>
          match pack_dQQQ t i d s with
          | Ok b => (Ok (mkUid b t i d s), l')
          | Raise e => (Raise e, l')
          end
      end
  end.

(** [Uid.__eq__] against another [Uid] held in a different object. *)
Definition Uid_eq (u v : Uid) : bool :=
  f64_eqb (Uid_time u) (Uid_time v)
  && (Uid_id u =? Uid_id v) && (Uid_tid u =? Uid_tid v) && (Uid_seq u =? Uid_seq v).

Definition Uid___msgpack_encode__ (u : Uid) : pybytes := Uid_bytes u.

Definition Uid___msgpack_decode__ (encoded : pybytes)
    (now : Z) (th : thread) (l : option uid_local) : result Uid * option uid_local :=
  Uid_init None None None None (Some encoded) now th l.

(** ** ChunkFlags *)

Record ChunkFlags : Type := mkChunkFlags {
  eom : bool;
  send_ack : bool;
  recv_ack : bool;
  compression : bool
}.

(** [ChunkFlags()] with no keyword given: every flag is [False]. *)
Definition ChunkFlags_default : ChunkFlags := mkChunkFlags false false false false.

(** [_masks]: the mask and the shift of each flag ([int] and [bool] are the
    conversions [Z.b2z] and "is not zero"). *)
Definition _masks : list (string * (Z * Z)) :=
  [("eom", (1, 0)); ("send_ack", (1, 1)); ("recv_ack", (1, 2)); ("compression", (1, 3))]%string.

Definition _masks_get (k : string) : Z * Z :=
  match List.find (fun e => String.eqb (fst e) k) _masks with
  | Some e => snd e
  | None => (0, 0)
  end.

Definition ChunkFlags_items (f : ChunkFlags) : list (string * bool) :=
  [("eom", eom f); ("send_ack", send_ack f); ("recv_ack", recv_ack f);
   ("compression", compression f)]%string.

Definition _mask_value (k : string) (v : bool) : Z :=
  let '(mask, shift) := _masks_get k in
  Z.shiftl (Z.land (Z.b2z v) mask) shift.

Definition ChunkFlags_encode (f : ChunkFlags) : Z :=
  fold_right Z.add 0 (map (fun kv => _mask_value (fst kv) (snd kv)) (ChunkFlags_items f)).

Definition _unmask_value (value : Z) (v : Z * Z) : bool :=
  let '(mask, shift) := v in
  negb (Z.land (Z.shiftr value shift) mask =? 0).

Definition ChunkFlags_decode (value : Z) : ChunkFlags :=
  {| eom := _unmask_value value (_masks_get "eom");
     send_ack := _unmask_value value (_masks_get "send_ack");
     recv_ack := _unmask_value value (_masks_get "recv_ack");
     compression := _unmask_value value (_masks_get "compression") |}.

(** ** [hashlib.md5]

    The digest of RFC 1321 on lists of bytes: 32 bit words as numbers below
    [2 ^ 32], little-endian words, 64 byte blocks. *)

Definition w32 (x : Z) : Z := x mod 2 ^ 32.
Definition not32 (x : Z) : Z := Z.lxor x 0xFFFFFFFF.
Definition rotl32 (x s : Z) : Z := w32 (Z.lor (Z.shiftl x s) (Z.shiftr x (32 - s))).

Definition pack_le (n : nat) (v : Z) : pybytes := rev (pack_be n v).
Definition unpack_le (bs : pybytes) : Z := unpack_be (rev bs).

Definition md5_s : list Z :=
  [7; 12; 17; 22; 7; 12; 17; 22; 7; 12; 17; 22; 7; 12; 17; 22;
   5; 9; 14; 20; 5; 9; 14; 20; 5; 9; 14; 20; 5; 9; 14; 20;
   4; 11; 16; 23; 4; 11; 16; 23; 4; 11; 16; 23; 4; 11; 16; 23;
   6; 10; 15; 21; 6; 10; 15; 21; 6; 10; 15; 21; 6; 10; 15; 21].

Definition md5_K : list Z :=
  [0xd76aa478; 0xe8c7b756; 0x242070db; 0xc1bdceee; 0xf57c0faf; 0x4787c62a; 0xa8304613; 0xfd469501;
   0x698098d8; 0x8b44f7af; 0xffff5bb1; 0x895cd7be; 0x6b901122; 0xfd987193; 0xa679438e; 0x49b40821;
   0xf61e2562; 0xc040b340; 0x265e5a51; 0xe9b6c7aa; 0xd62f105d; 0x02441453; 0xd8a1e681; 0xe7d3fbc8;
   0x21e1cde6; 0xc33707d6; 0xf4d50d87; 0x455a14ed; 0xa9e3e905; 0xfcefa3f8; 0x676f02d9; 0x8d2a4c8a;
   0xfffa3942; 0x8771f681; 0x6d9d6122; 0xfde5380c; 0xa4beea44; 0x4bdecfa9; 0xf6bb4b60; 0xbebfbc70;
   0x289b7ec6; 0xeaa127fa; 0xd4ef3085; 0x04881d05; 0xd9d4d039; 0xe6db99e5; 0x1fa27cf8; 0xc4ac5665;
   0xf4292244; 0x432aff97; 0xab9423a7; 0xfc93a039; 0x655b59c3; 0x8f0ccc92; 0xffeff47d; 0x85845dd1;
   0x6fa87e4f; 0xfe2ce6e0; 0xa3014314; 0x4e0811a1; 0xf7537e82; 0xbd3af235; 0x2ad7d2bb; 0xeb86d391].

Definition md5_pad (msg : pybytes) : pybytes :=
  let len := Z.of_nat (length msg) in
  msg ++ [byte_of_Z 0x80]
      ++ repeat (byte_of_Z 0) (Z.to_nat ((55 - len) mod 64))
      ++ pack_le 8 ((8 * len) mod 2 ^ 64).

Fixpoint md5_words (n : nat) (block : pybytes) : list Z :=
  match n with
  | O => []
  | S k => unpack_le (take 4 block) :: md5_words k (drop 4 block)
  end.

Definition md5_step (M : list Z) (st : Z * Z * Z * Z) (i : nat) : Z * Z * Z * Z :=
  let '(A, B, C, D) := st in
  let iz := Z.of_nat i in
  let '(F, g) :=
    if (i <? 16)%nat then (Z.lor (Z.land B C) (Z.land (not32 B) D), iz)
    else if (i <? 32)%nat then (Z.lor (Z.land D B) (Z.land (not32 D) C), (5 * iz + 1) mod 16)
    else if (i <? 48)%nat then (Z.lxor (Z.lxor B C) D, (3 * iz + 5) mod 16)
    else (Z.lxor C (Z.lor B (not32 D)), (7 * iz) mod 16) in
  let F' := w32 (F + A + nth i md5_K 0 + nth (Z.to_nat g) M 0) in
  (D, w32 (B + rotl32 F' (nth i md5_s 0)), B, C).

Definition md5_block (st : Z * Z * Z * Z) (block : pybytes) : Z * Z * Z * Z :=
  let '(a0, b0, c0, d0) := st in
  let '(A, B, C, D) := fold_left (md5_step (md5_words 16 block)) (seq 0 64) st in
  (w32 (a0 + A), w32 (b0 + B), w32 (c0 + C), w32 (d0 + D)).

Fixpoint md5_blocks (n : nat) (data : pybytes) (st : Z * Z * Z * Z) : Z * Z * Z * Z :=
  match n with
  | O => st
  | S k => md5_blocks k (drop 64 data) (md5_block st (take 64 data))
  end.

(** [hashlib.md5(data).digest()] *)
Definition md5 (data : pybytes) : pybytes :=
  let padded := md5_pad data in
  let '(a, b, c, d) :=
    md5_blocks (length padded / 64) padded (0x67452301, 0xefcdab89, 0x98badcfe, 0x10325476) in
  pack_le 4 a ++ pack_le 4 b ++ pack_le 4 c ++ pack_le 4 d.

(** ** Frame header *)

(** [HEADER_FMT = '!32sQHI'] and [struct.calcsize(HEADER_FMT)]. *)
Definition HEADER_FMT : list nat := [32; 8; 2; 4]%nat.
Definition HEADER_SIZE : nat := fold_right Nat.add 0%nat HEADER_FMT.

(** A field [Ns] holds the first [N] bytes of its value, padded with nulls. *)
Definition pack_s (n : nat) (b : pybytes) : pybytes := take n (b ++ repeat Byte.x00 n).

(** [struct.pack(HEADER_FMT, uid_bytes, flags, channel_name_length, data_length)] *)
Definition pack_header (uid_bytes : pybytes) (flags cnl dl : Z) : result pybytes :=
  if fits 8 flags && fits 2 cnl && fits 4 dl
  then Ok (pack_s 32 uid_bytes ++ pack_be 8 flags ++ pack_be 2 cnl ++ pack_be 4 dl)
  else Raise struct_error.

(** [struct.unpack(HEADER_FMT, b)] *)
Definition unpack_header (b : pybytes) : result (pybytes * Z * Z * Z) :=
  if (length b =? HEADER_SIZE)%nat
  then Ok (take 32 b,
           unpack_be (take 8 (drop 32 b)),
           unpack_be (take 2 (drop 40 b)),
           unpack_be (take 4 (drop 42 b)))
  else Raise struct_error.

(** [str.encode()]: a [str] is kept as the bytes of its UTF-8 encoding. *)
Definition str_encode (s : string) : pybytes := String.list_byte_of_string s.

(** [Channel._encode_header(uid, channel_name, data, flags=flags)]; the
    two lengths are its local variables of the same names. *)
Definition channel_name_length_of (channel_name : option string) : Z :=
  match channel_name with
  | Some s => if truthy (str_encode s) then Z.of_nat (length (str_encode s)) else 0
  | None => 0
  end.

Definition data_length_of (data : option pybytes) : Z :=
  match data with
  | Some d => if truthy d then Z.of_nat (length d) else 0
  | None => 0
  end.

Definition _encode_header (uid : Uid) (channel_name : option string)
    (data : option pybytes) (flags : ChunkFlags) : result pybytes :=
  match pack_header (Uid_bytes uid) (ChunkFlags_encode flags)
          (channel_name_length_of channel_name) (data_length_of data) with
  | Ok header => Ok (header ++ md5 header)
  | Raise e => Raise e
  end.

(** [Channel._decode_header(header)]; [header[:-16]] and [header[-16:]] are
    the slices around the last 16 bytes. *)
Definition _decode_header (header : pybytes) (now : Z) (th : thread) (l : option uid_local)
  : result (Uid * ChunkFlags * Z * Z) * option uid_local :=
  let body := take (length header - 16)%nat header in
  let check := drop (length header - 16)%nat header in
  if bool_decide (md5 body = check) then
    match unpack_header body with
    | Ok (uid_bytes, flags_encoded, channel_name_length, data_length) =>
        match Uid_init None None None None (Some uid_bytes) now th l with
        | (Ok uid, l') =>
            (Ok (uid, ChunkFlags_decode flags_encoded, channel_name_length, data_length), l')
        | (Raise e, l') => (Raise e, l')
        end
    | Raise e => (Raise e, l)
    end
  else (Raise (AssertionError "Header checksum mismatch!"), l).

(** A [Uid] as the constructors of this module build it: a timestamp that
    is a float, and [bytes] that are the packed fields. *)
Definition Uid_wf (u : Uid) : Prop :=
  is_float64 (Uid_time u)
  /\ pack_dQQQ (Uid_time u) (Uid_id u) (Uid_tid u) (Uid_seq u) = Ok (Uid_bytes u).

(** ** Data of the examples *)

Definition hex_of_bytes (b : pybytes) : list Z := map Z_of_byte b.

(** The main thread of the examples and two timestamps: 1.5 and a NaN. *)
Definition th0 : thread := {| thread_ident := 140; thread_addr := 94 |}.
Definition t_1_5 : Z := 0x3FF8000000000000.
Definition t_nan : Z := 0x7FF8000000000000.

Definition uid_1_5 : Uid :=
  mkUid (pack_be 8 t_1_5 ++ pack_be 8 94 ++ pack_be 8 140 ++ pack_be 8 1) t_1_5 94 140 1.

Definition uid_nan : Uid :=
  mkUid (pack_be 8 t_nan ++ pack_be 8 1 ++ pack_be 8 2 ++ pack_be 8 3) t_nan 1 2 3.

(** Flags of the examples. *)
Definition flags_eom : ChunkFlags := mkChunkFlags true false false false.

(** ** Chunker *)

(** [split_data(data, size)]: the slices the generator yields, in order.
    The loop runs while [start < len(data)]; with [size = 0] it never
    advances, which is the result [None].  The fuel [S (length data)] is
    enough for every run that ends (lemma [split_data_total]). *)
Fixpoint split_data_from (fuel : nat) (data : pybytes) (size start : nat)
  : option (list pybytes) :=
  match fuel with
  | O => None
  | S fuel' =>
      if (start <? length data)%nat then
        let end_ := Nat.min (start + size) (length data) in
        match split_data_from fuel' data size end_ with
        | Some rest => Some (take (end_ - start) (drop start data) :: rest)
        | None => None
        end
      else Some []
  end.

Definition split_data (data : pybytes) (size : nat) : option (list pybytes) :=
  split_data_from (S (length data)) data size 0.

(** ** UTF-8

    [bytes.decode()] accepts the well-formed UTF-8 sequences only. *)

Definition utf8_cont (b : Z) : bool := (0x80 <=? b) && (b <=? 0xBF).

Fixpoint utf8_valid_Z (l : list Z) : bool :=
  match l with
  | [] => true
  | b0 :: r =>
      if b0 <=? 0x7F then utf8_valid_Z r
      else match r with
      | [] => false
      | b1 :: r1 =>
          if (0xC2 <=? b0) && (b0 <=? 0xDF) then utf8_cont b1 && utf8_valid_Z r1
          else match r1 with
          | [] => false
          | b2 :: r2 =>
              if (0xE0 <=? b0) && (b0 <=? 0xEF) then
                (if b0 =? 0xE0 then (0xA0 <=? b1) && (b1 <=? 0xBF)
                 else if b0 =? 0xED then (0x80 <=? b1) && (b1 <=? 0x9F)
                 else utf8_cont b1)
                && utf8_cont b2 && utf8_valid_Z r2
              else match r2 with
              | [] => false
              | b3 :: r3 =>
                  (0xF0 <=? b0) && (b0 <=? 0xF4)
                  && (if b0 =? 0xF0 then (0x90 <=? b1) && (b1 <=? 0xBF)
                      else if b0 =? 0xF4 then (0x80 <=? b1) && (b1 <=? 0x8F)
                      else utf8_cont b1)
                  && utf8_cont b2 && utf8_cont b3 && utf8_valid_Z r3
              end
          end
      end
  end.

Definition utf8_valid (b : pybytes) : bool := utf8_valid_Z (map Z_of_byte b).

(** [b.decode()] *)
Definition bytes_decode (b : pybytes) : result string :=
  if utf8_valid b then Ok (String.string_of_list_byte b) else Raise UnicodeDecodeError.

(** ** Futures *)

Inductive future (A : Type) : Type :=
| Pending
| Done (a : A)
| Failed (e : exn)
| Cancelled.
Arguments Pending {A}.
Arguments Done {A} a.
Arguments Failed {A} e.
Arguments Cancelled {A}.

(** [fut.set_result(a)], [fut.set_exception(e)] and [fut.cancel()] *)
Definition future_set_result {A} (f : future A) (a : A) : result (future A) :=
  match f with Pending => Ok (Done a) | _ => Raise InvalidStateError end.

Definition future_set_exception {A} (f : future A) (e : exn) : result (future A) :=
  match f with Pending => Ok (Failed e) | _ => Raise InvalidStateError end.

Definition future_cancel {A} (f : future A) : future A :=
  match f with Pending => Cancelled | _ => f end.

Definition future_done {A} (f : future A) : bool :=
  match f with Pending => false | _ => true end.

(** ** Collaborators

    What the module takes from outside: the msgpack codec on the objects
    that travel ([value]), zlib, the clock ([time_time k] is the [k]-th
    reading of [time.time()]) and the subtraction of floats. *)

Class Environment : Type := {
  value : Type;
  encode : value -> result pybytes;
  decode : pybytes -> result value;
  zlib_compress : pybytes -> Z -> result pybytes;
  zlib_decompress : pybytes -> result pybytes;
  time_time : nat -> Z;
  float_sub : Z -> Z -> Z
}.

(** What is assumed of them: zlib gives back what it compressed and never
    produces an empty string; the clock reads ordinary floats. *)
Class EnvironmentLaws (Env : Environment) : Prop := {
  zlib_roundtrip : forall b level c, zlib_compress b level = Ok c -> zlib_decompress c = Ok b;
  zlib_not_empty : forall b level c, zlib_compress b level = Ok c -> c <> [];
  time_is_float : forall k, is_float64 (time_time k);
  time_not_nan : forall k, f64_is_nan (time_time k) = false
}.

(** ** Uid as a dictionary key

    A [dict] finds an item for a key object when the key of the item is
    that very object, or when it has the hash of the object and is [==] to
    it.  [Uid.__hash__] is the hash of the bytes and [Uid.__eq__] compares
    the four fields.  Two uid objects with the same bytes have the same
    hash (and different bytes are taken to have different hashes); made by
    this module, they have the same fields and are [==] unless the
    timestamp is a NaN.  So a uid that is read from the
    wire, which is a new object each time, finds the item of another object
    with the same bytes only when the timestamp is not a NaN. *)

Definition Uid_key_eqb (k u : Uid) : bool :=
  bool_decide (Uid_bytes k = Uid_bytes u) && Uid_eq k u.

(** A dictionary whose keys are uids: the list of its items, in the order
    in which they were put in.  Several items can have keys with the same
    bytes when these do not match each other. *)
Definition uid_dict (V : Type) : Type := list (Uid * V).

(** [d.get(u)], [u in d] and [d[u]] for an object [u] that is not itself a
    key of [d]: the first item whose key matches. *)
Fixpoint uid_dict_get {V} (u : Uid) (d : uid_dict V) : option V :=
  match d with
  | [] => None
  | (k, v) :: rest => if Uid_key_eqb k u then Some v else uid_dict_get u rest
  end.

(** A change of the value that such a lookup finds. *)
Fixpoint uid_dict_alter {V} (f : V -> V) (u : Uid) (d : uid_dict V) : uid_dict V :=
  match d with
  | [] => []
  | (k, v) :: rest =>
      if Uid_key_eqb k u then (k, f v) :: rest else (k, v) :: uid_dict_alter f u rest
  end.

(** [d[u] = v]: the item that is found keeps its key and gets the value;
    when none is found a new item is put at the end, with [u] as its key. *)
Definition uid_dict_set {V} (u : Uid) (v : V) (d : uid_dict V) : uid_dict V :=
  match uid_dict_get u d with
  | Some _ => uid_dict_alter (fun _ => v) u d
  | None => d ++ [(u, v)]
  end.

(** [del d[u]], for a key that is found. *)
Fixpoint uid_dict_del {V} (u : Uid) (d : uid_dict V) : uid_dict V :=
  match d with
  | [] => []
  | (k, v) :: rest => if Uid_key_eqb k u then rest else (k, v) :: uid_dict_del u rest
  end.

#[global] Instance uid_dict_empty {V} : Empty (uid_dict V) := [].
#[global] Instance uid_dict_lookup {V} : Lookup Uid V (uid_dict V) := uid_dict_get.
#[global] Instance uid_dict_insert {V} : Insert Uid V (uid_dict V) := uid_dict_set.
#[global] Instance uid_dict_delete {V} : Delete Uid (uid_dict V) := uid_dict_del.

(** The same operations for the uid object [u] of the frame that is being
    read.  When this frame has put [u] itself in the dictionary ([own]), [u]
    is the key of the last item and is found there, by identity; otherwise
    [u] is no key of the dictionary and the lookup is the one above. *)
Definition own_get {V} (own : bool) (u : Uid) (d : uid_dict V) : option V :=
  if own then snd <$> last d else d !! u.

Definition own_alter {V} (f : V -> V) (own : bool) (u : Uid) (d : uid_dict V) : uid_dict V :=
  if own then
    match last d with
    | Some (k, v) => removelast d ++ [(k, f v)]
    | None => d
    end
  else uid_dict_alter f u d.

Definition own_del {V} (own : bool) (u : Uid) (d : uid_dict V) : uid_dict V :=
  if own then removelast d else delete u d.

(** The table of the live command instances is kept as a finite map: its
    keys are pairs of a command name and the uid of the instance, and an
    instance is looked up with its own [fqin], which holds the uid object
    of the key itself. *)
#[global] Instance Uid_eq_dec : EqDecision Uid.
Proof. solve_decision. Defined.

Definition Uid_to_tuple (u : Uid) : pybytes * Z * Z * Z * Z :=
  (Uid_bytes u, Uid_time u, Uid_id u, Uid_tid u, Uid_seq u).

Definition Uid_of_tuple (x : pybytes * Z * Z * Z * Z) : Uid :=
  let '(b, t, i, d, s) := x in mkUid b t i d s.

Lemma Uid_of_to_tuple (u : Uid) : Uid_of_tuple (Uid_to_tuple u) = u.
Proof. destruct u; reflexivity. Qed.

#[global] Instance Uid_countable : Countable Uid :=
  inj_countable' Uid_to_tuple Uid_of_tuple Uid_of_to_tuple.

(** ** One endpoint *)

(** What is put on the outgoing queue: a tuple of byte strings, or one. *)
Inductive out_item : Type :=
| Tuple (parts : list pybytes)
| Bytes (b : pybytes).

(** How the incoming stream ends once its bytes are used up: the pipe is
    at end of file, or the reading task is cancelled while it waits. *)
Inductive stream_end : Type := EndOfFile | Cancellation.

Section Endpoint.
Context {Env : Environment}.

(** The objects one endpoint works on: the [IoQueues] (one outgoing queue,
    one incoming queue per channel name), the stream the reader loop reads,
    its reassembly buffer, the table [Channel.acknowledgements], and what
    [Uid()] reads. *)
Record process : Type := mkProcess {
  io_send : list out_item;
  io_receive : gmap string (list value);
  reader : pybytes;
  reader_end : stream_end;
  buffer : uid_dict pybytes;
  acknowledgements : uid_dict (future (Uid * Z));
  clock : nat;
  uid_counter : option uid_local;
  current_thread : thread
}.

Definition set_io_send (v : list out_item) (p : process) : process :=
  mkProcess v (io_receive p) (reader p) (reader_end p) (buffer p)
    (acknowledgements p) (clock p) (uid_counter p) (current_thread p).
Definition set_io_receive (v : gmap string (list value)) (p : process) : process :=
  mkProcess (io_send p) v (reader p) (reader_end p) (buffer p)
    (acknowledgements p) (clock p) (uid_counter p) (current_thread p).
Definition set_reader (v : pybytes) (p : process) : process :=
  mkProcess (io_send p) (io_receive p) v (reader_end p) (buffer p)
    (acknowledgements p) (clock p) (uid_counter p) (current_thread p).
Definition set_buffer (v : uid_dict pybytes) (p : process) : process :=
  mkProcess (io_send p) (io_receive p) (reader p) (reader_end p) v
    (acknowledgements p) (clock p) (uid_counter p) (current_thread p).
Definition set_acknowledgements (v : uid_dict (future (Uid * Z))) (p : process) : process :=
  mkProcess (io_send p) (io_receive p) (reader p) (reader_end p) (buffer p)
    v (clock p) (uid_counter p) (current_thread p).
Definition set_clock (v : nat) (p : process) : process :=
  mkProcess (io_send p) (io_receive p) (reader p) (reader_end p) (buffer p)
    (acknowledgements p) v (uid_counter p) (current_thread p).
Definition set_uid_counter (v : option uid_local) (p : process) : process :=
  mkProcess (io_send p) (io_receive p) (reader p) (reader_end p) (buffer p)
    (acknowledgements p) (clock p) v (current_thread p).

(** Computations on a process that may raise; what was done before an
    exception stays done. *)
Definition M (A : Type) : Type := process -> result A * process.

Definition ret {A} (a : A) : M A := fun p => (Ok a, p).
Definition raise {A} (e : exn) : M A := fun p => (Raise e, p).
Definition lift {A} (r : result A) : M A := fun p => (r, p).
Definition bind {A B} (c : M A) (k : A -> M B) : M B :=
  fun p =>
    match c p with
    | (Ok a, p') => k a p'
    | (Raise e, p') => (Raise e, p')
    end.

End Endpoint.

Declare Scope M_scope.
Delimit Scope M_scope with M.
Notation "x <- c ;; k" := (bind c (fun x => k))
  (at level 100, c at next level, right associativity) : M_scope.
Notation "c ;; k" := (bind c (fun _ => k))
  (at level 100, right associativity) : M_scope.

Section Channel.
Context {Env : Environment}.
Local Open Scope M_scope.

(** [time.time()] *)
Definition time_now : M Z :=
  fun p => (Ok (time_time (clock p)), set_clock (S (clock p)) p).

(** [Uid()] *)
Definition Uid_new : M Uid :=
  fun p =>
    let '(r, l) := Uid_init None None None None None
                     (time_time (clock p)) (current_thread p) (uid_counter p) in
    (r, set_uid_counter l (set_clock (S (clock p)) p)).

(** [reader.readexactly(n)] *)
Definition readexactly (n : nat) : M pybytes :=
  fun p =>
    if (n <=? length (reader p))%nat
    then (Ok (take n (reader p)), set_reader (drop n (reader p)) p)
    else (Raise match reader_end p with
                | EndOfFile => IncompleteReadError
                | Cancellation => CancelledError
                end,
          set_reader [] p).

(** [queue.put(item)] on the outgoing queue, which is unbounded. *)
Definition put_outgoing (item : out_item) : M unit :=
  fun p => (Ok tt, set_io_send (io_send p ++ [item]) p).

(** [io_queues[channel_name].put(msg)]; the queue of a name is made on its
    first use. *)
Definition put_incoming (channel_name : string) (msg : value) : M unit :=
  fun p =>
    let queue := default [] (io_receive p !! channel_name) in
    (Ok tt, set_io_receive (<[channel_name := queue ++ [msg]]> (io_receive p)) p).

(** [del io_queues[channel_name]]; a missing queue is ignored. *)
Definition IoQueues___delitem__ (channel_name : string) : M unit :=
  fun p => (Ok tt, set_io_receive (delete channel_name (io_receive p)) p).

Definition decode_header (raw_header : pybytes) : M (Uid * ChunkFlags * Z * Z) :=
  fun p =>
    let '(r, l) := _decode_header raw_header (time_time (clock p))
                     (current_thread p) (uid_counter p) in
    (r, set_uid_counter l p).

Definition flags_ack : ChunkFlags :=
  {| eom := true; send_ack := false; recv_ack := true; compression := false |}.

(** [Channel._send_ack(io_queues, uid)] *)
Definition _send_ack (uid : Uid) : M unit :=
  header <- lift (_encode_header uid None None flags_ack) ;;
  put_outgoing (Bytes header).

(** [Channel._receive_single_message(io_queues, reader, buffer)].  The uid
    of the header is a new object; [own] tells whether the frame has put
    it in the buffer as a new key. *)
Definition _receive_single_message : M unit :=
  raw_header <- readexactly (HEADER_SIZE + 16) ;;
  fields <- decode_header raw_header ;;
  let '(uid, flags, channel_name_length, data_length) := fields in
  channel_name <-
    (if channel_name_length =? 0 then ret None
     else raw <- readexactly (Z.to_nat channel_name_length) ;;
          name <- lift (bytes_decode raw) ;;
          ret (Some name)) ;;
  own <-
    (if data_length =? 0 then ret false
     else
       own <- (fun p => match buffer p !! uid with
                        | None => (Ok true, set_buffer (<[uid := []]> (buffer p)) p)
                        | Some _ => (Ok false, p)
                        end) ;;
       part <- readexactly (Z.to_nat data_length) ;;
       part <- (if compression flags then lift (zlib_decompress part) else ret part) ;;
       (fun p => (Ok tt, set_buffer
                           (own_alter (fun data => data ++ part) own uid (buffer p)) p)) ;;
       ret own) ;;
  (if send_ack flags then _send_ack uid else ret tt) ;;
  (if eom flags then
     (fun p =>
        match own_get own uid (buffer p), channel_name with
        | Some data, Some name =>
            (msg <- lift (decode data) ;;
             put_incoming name msg ;;
             (fun p => (Ok tt, set_buffer (own_del own uid (buffer p)) p))) p
        | _, _ => (Ok tt, p)
        end) ;;
     (fun p =>
        match acknowledgements p !! uid with
        | Some ack_future =>
            if recv_ack flags then
              (now <- time_now ;;
               fut <- lift (future_set_result ack_future (uid, float_sub now (Uid_time uid))) ;;
               (fun p => (Ok tt, set_acknowledgements
                                   (<[uid := fut]> (acknowledgements p)) p))) p
            else (Ok tt, p)
        | None => (Ok tt, p)
        end)
   else ret tt).

(** [Channel._receive_reader(io_queues, reader)]: the loop, and what its
    handlers do with what ends it.  End of file and cancellation are
    logged and end the loop; any other exception is logged and raised
    again.  A message that is read takes at least the bytes of a header
    from the stream, so [S (length (reader p))] rounds are enough. *)
Fixpoint _receive_loop (fuel : nat) (p : process) : option (result unit * process) :=
  match fuel with
  | O => None
  | S fuel' =>
      match _receive_single_message p with
      | (Ok _, p') => _receive_loop fuel' p'
      | (Raise IncompleteReadError, p') => Some (Ok tt, p')
      | (Raise CancelledError, p') => Some (Ok tt, p')
      | (Raise e, p') => Some (Raise e, p')
      end
  end.

Definition _receive_reader (p : process) : option (result unit * process) :=
  _receive_loop (S (length (reader p))) (set_buffer ∅ p).

(** What [Channel._send_writer] writes for an item of the queue. *)
Definition written (item : out_item) : pybytes :=
  match item with
  | Tuple parts => concat parts
  | Bytes b => b
  end.

(** What [Channel.send] is left with: it returned [None], or it waits for
    the acknowledgement future it stored under the uid of the message. *)
Inductive send_outcome : Type :=
| Returned
| AwaitingAck (uid : Uid).

(** The loop of [Channel.send] over the parts. *)
Fixpoint send_parts (uid : Uid) (name : string) (compress : Z) (parts : list pybytes)
  : M unit :=
  match parts with
  | [] => ret tt
  | part :: rest =>
      part <- (if compress =? 0 then ret part else lift (zlib_compress part compress)) ;;
      header <- lift (_encode_header uid (Some name) (Some part)
                        {| eom := false; send_ack := false; recv_ack := false;
                           compression := negb (compress =? 0) |}) ;;
      put_outgoing (Tuple [header; str_encode name; part]) ;;
      send_parts uid name compress rest
  end.

(** [Channel.send(data, ack, compress)] on the channel [name] whose class
    attribute [chunk_size] is given, up to the point where it returns or
    waits for the acknowledgement.  [None]: the loop over the parts never
    ends. *)
Definition Channel_send (name : string) (chunk_size : nat) (data : value)
    (ack : bool) (compress : Z) (p : process) : option (result send_outcome * process) :=
  match Uid_new p with
  | (Raise e, p1) => Some (Raise e, p1)
  | (Ok uid, p1) =>
      match encode data with
      | Raise e => Some (Raise e, p1)
      | Ok encoded_data =>
          match split_data encoded_data chunk_size with
          | None => None
          | Some parts =>
              Some ((send_parts uid name compress parts ;;
                     header <- lift (_encode_header uid (Some name) None
                                       {| eom := true; send_ack := ack; recv_ack := false;
                                          compression := false |}) ;;
                     put_outgoing (Tuple [header; str_encode name]) ;;
                     if ack then
                       (fun p => (Ok (AwaitingAck uid),
                                  set_acknowledgements
                                    (<[uid := Pending]> (acknowledgements p)) p))
                     else ret Returned) p1)
          end
      end
  end.


End Channel.

Section Frames.
Context {Env : Environment}.

(** What [Channel.send] puts on the queue for one part: the header, the
    name of the channel and the part as it travels (compressed unless
    [compress] is zero). *)
Definition data_item (uid : Uid) (name : string) (compress : Z) (part : pybytes)
    (item : out_item) : Prop :=
  exists wire header,
    (if compress =? 0 then Ok part else zlib_compress part compress) = Ok wire
    /\ _encode_header uid (Some name) (Some wire)
         {| eom := false; send_ack := false; recv_ack := false;
            compression := negb (compress =? 0) |} = Ok header
    /\ item = Tuple [header; str_encode name; wire].

(** The entry of a uid in the reassembly buffer after the parts came. *)
Definition buffer_after (buf : uid_dict pybytes) (uid : Uid) (parts : list pybytes)
  : uid_dict pybytes :=
  match parts with
  | [] => buf
  | _ :: _ => <[uid := default [] (buf !! uid) ++ concat parts]> buf
  end.

End Frames.

(** An environment to run the examples in: objects are byte strings that
    the codec leaves as they are, compression puts one byte in front, and
    the clock stands still at 1.5 (so that elapsed times are 0.0). *)
Definition env0 : Environment := {|
  value := pybytes;
  encode := fun v => Ok v;
  decode := fun b => Ok b;
  zlib_compress := fun b _ => Ok (byte_of_Z 120 :: b);
  zlib_decompress := fun c => match c with [] => Raise zlib_error | _ :: b => Ok b end;
  time_time := fun _ => t_1_5;
  float_sub := fun _ _ => 0
|}.

Definition process0 (e : Environment) (rd : pybytes) : @process e :=
  @mkProcess e [] ∅ rd EndOfFile ∅ ∅ 0%nat None th0.

Section Preservation.
Context {Env : Environment}.

(** A computation leaves a component of the process as it is, whatever it
    returns or raises. *)
Definition preserves {A F : Type} (f : process -> F) (c : M A) : Prop :=
  forall p r p', c p = (r, p') -> f p' = f p.

End Preservation.

(** The payload, the send and its outcome in the examples. *)
Definition payload_123 : pybytes := map byte_of_Z [1; 2; 3].

Definition sent_outcome {Env : Environment}
    (x : option (result send_outcome * process)) : send_outcome :=
  match x with
  | Some (Ok o, _) => o
  | _ => Returned
  end.

Definition sent_process {Env : Environment}
    (x : option (result send_outcome * process)) (d : process) : process :=
  match x with
  | Some (_, p) => p
  | None => d
  end.

Definition sent_123 : option (result send_outcome * @process env0) :=
  @Channel_send env0 "x" 2 payload_123 true 6 (process0 env0 []).

Definition sent_ok {Env : Environment}
    (x : option (result send_outcome * process)) : bool :=
  match x with
  | Some (Ok _, _) => true
  | _ => false
  end.

(** Frames of the examples: the frame that ends a message on channel ["x"],
    alone, without and with a request for an acknowledgement. *)
Definition flags_eom_send_ack : ChunkFlags := mkChunkFlags true true false false.

Definition frame_of (uid : Uid) (name : string) (flags : ChunkFlags) : pybytes :=
  match _encode_header uid (Some name) None flags with
  | Ok header => header ++ str_encode name
  | Raise _ => []
  end.

Definition frame_x_eom : pybytes := frame_of uid_1_5 "x" flags_eom.
Definition frame_x_eom_send_ack : pybytes := frame_of uid_1_5 "x" flags_eom_send_ack.

(** What the examples look at in a run of the reader loop. *)
Definition delivered {Env : Environment} (x : option (result unit * process)) (name : string)
  : option (list value) :=
  match x with
  | Some (Ok _, p) => Some (default [] (io_receive p !! name))
  | _ => None
  end.



(** ** Commands: the registry *)

(** Which [execute] a class has: the one of [Command], inherited, the one
    of [Execute], or the one of [InvokeImport], made by [exclusive]. *)
Inductive execute_method : Type :=
| Command_execute_method
| Execute_execute_method
| InvokeImport_execute_method.

(** A class made by [_CommandMeta.__new__]: its [command_name], its
    [execute], and the order number of its definition, which tells apart
    two classes of the same name. *)
Record class_object : Type := mkClass {
  command_name : string;
  class_execute : execute_method;
  class_serial : nat
}.

(** The class attributes of [_CommandMeta]: [base] and [commands]. *)
Record CommandMeta : Type := mkMeta {
  base : option class_object;
  commands : gmap string class_object;
  classes_defined : nat
}.

Definition CommandMeta_empty : CommandMeta := mkMeta None ∅ 0.

(** [_CommandMeta.__new__(mcs, name, bases, dct)], with [dct['__module__']]
    and the [execute] that the class defines or inherits. *)
Definition _CommandMeta___new__ (name module_name : string) (execute : execute_method)
    (mcs : CommandMeta) : class_object * CommandMeta :=
  let command_name := (module_name ++ ":" ++ name)%string in
  let cls := mkClass command_name execute (classes_defined mcs) in
  match base mcs with
  | None => (cls, mkMeta (Some cls) (commands mcs) (S (classes_defined mcs)))
  | Some _ =>
      (cls, mkMeta (base mcs) (<[command_name := cls]> (commands mcs))
              (S (classes_defined mcs)))
  end.

(** The classes of the module, in the order of their definitions. *)
Definition core : string := "debellator.core".

Definition Command_class : class_object :=
  fst (_CommandMeta___new__ "Command" core Command_execute_method CommandMeta_empty).
Definition meta_1 : CommandMeta :=
  snd (_CommandMeta___new__ "Command" core Command_execute_method CommandMeta_empty).
Definition Execute_class : class_object :=
  fst (_CommandMeta___new__ "Execute" core Execute_execute_method meta_1).
Definition meta_2 : CommandMeta :=
  snd (_CommandMeta___new__ "Execute" core Execute_execute_method meta_1).
Definition InvokeImport_class : class_object :=
  fst (_CommandMeta___new__ "InvokeImport" core InvokeImport_execute_method meta_2).
Definition meta_3 : CommandMeta :=
  snd (_CommandMeta___new__ "InvokeImport" core InvokeImport_execute_method meta_2).
Definition meta_core : CommandMeta :=
  snd (_CommandMeta___new__ "FindModule" core Command_execute_method meta_3).

(** ** Commands: instances and [execute] *)

Section Commands.
Context {Env : Environment}.

(** An instance of a command class: its class, its uid, its parameters,
    and for an instance of [Execute] the command it runs. *)
Inductive Command : Type :=
| mkCommand (cls : class_object) (uid : Uid) (params : list (string * value))
| mkExecute (cls : class_object) (uid : Uid) (params : list (string * value))
    (command : Command).

Definition Command_cls (c : Command) : class_object :=
  match c with mkCommand cls _ _ | mkExecute cls _ _ _ => cls end.
Definition Command_uid (c : Command) : Uid :=
  match c with mkCommand _ uid _ | mkExecute _ uid _ _ => uid end.
Definition Command_params (c : Command) : list (string * value) :=
  match c with mkCommand _ _ params | mkExecute _ _ params _ => params end.
Definition Command_command (c : Command) : option Command :=
  match c with mkCommand _ _ _ => None | mkExecute _ _ _ command => Some command end.

(** [fqin] *)
Definition fqin (c : Command) : string * Uid := (command_name (Command_cls c), Command_uid c).

(** The objects that travel on the channel of [Execute]. *)
Inductive message : Type :=
| ExecuteArgs (fqin : string * Uid) (params : list (string * value))
| ExecuteResult (fqin : string) (result : value)
| ExecuteException (fqin : string) (exception : exn) (tb : string).

End Commands.

(** The messages are objects among the others, and [str] of a uid is a
    string. *)
Class Messages (Env : Environment) : Type := {
  message_value : message -> value;
  Uid_str : Uid -> string
}.

Section Execute.
Context {Env : Environment} {Msg : Messages Env}.
Local Open Scope M_scope.

(** The state the commands work on: the endpoint, the live instances
    ([command_instances]), the table [Execute.pending_commands], which maps
    a channel name to a future, the futures themselves, by number, and the
    lock that [exclusive] made for [InvokeImport.execute]. *)
Record runtime : Type := mkRuntime {
  rt_process : process;
  command_instances : gmap (string * Uid) Command;
  pending_commands : list (string * nat);
  futures : gmap nat (future value);
  import_lock : bool
}.

Definition set_rt_process (v : process) (rt : runtime) : runtime :=
  mkRuntime v (command_instances rt) (pending_commands rt) (futures rt) (import_lock rt).
Definition set_command_instances (v : gmap (string * Uid) Command) (rt : runtime) : runtime :=
  mkRuntime (rt_process rt) v (pending_commands rt) (futures rt) (import_lock rt).
Definition set_pending_commands (v : list (string * nat)) (rt : runtime) : runtime :=
  mkRuntime (rt_process rt) (command_instances rt) v (futures rt) (import_lock rt).
Definition set_futures (v : gmap nat (future value)) (rt : runtime) : runtime :=
  mkRuntime (rt_process rt) (command_instances rt) (pending_commands rt) v (import_lock rt).
Definition set_import_lock (v : bool) (rt : runtime) : runtime :=
  mkRuntime (rt_process rt) (command_instances rt) (pending_commands rt) (futures rt) v.

(** [Command.__init__(io_queues, command_uid, **params)] for an instance of
    [cls]; [Execute.__init__] adds [command]. *)
Definition Command___init__ (cls : class_object) (command_uid : option Uid)
    (params : list (string * value)) (command : option Command) (rt : runtime)
  : result Command * runtime :=
  let '(r, p) :=
    match command_uid with
    | Some uid => (Ok uid, rt_process rt)
    | None => Uid_new (rt_process rt)
    end in
  match r with
  | Raise e => (Raise e, set_rt_process p rt)
  | Ok uid =>
      let inst :=
        match command with
        | Some c => mkExecute cls uid params c
        | None => mkCommand cls uid params
        end in
      (Ok inst,
       set_command_instances (<[(command_name cls, uid) := inst]> (command_instances rt))
         (set_rt_process p rt))
  end.

(** [channel_name]: an instance of [Execute] talks on the channel of its
    class, any other command on the channel of its [fqin]. *)
Definition channel_name (c : Command) : string :=
  match class_execute (Command_cls c) with
  | Execute_execute_method => command_name (Command_cls c)
  | _ => (command_name (Command_cls c) ++ "/" ++ Uid_str (Command_uid c))%string
  end.

(** [Channel(name, io_queues=io_queues)]: looking up the incoming queue of
    the name makes it. *)
Definition Channel___init__ (name : string) : M unit :=
  fun p =>
    match io_receive p !! name with
    | Some _ => (Ok tt, p)
    | None => (Ok tt, set_io_receive (<[name := []]> (io_receive p)) p)
    end.

Definition chunk_size : nat := Z.to_nat 0x8000.

(** Where a call of [execute] stands when it first gives way: the
    instance of [Execute] it made has sent the [ExecuteArgs] and is where
    the [send] is (with [ack=True], waiting for the acknowledgement), or
    the call waits for the lock. *)
Inductive execute_outcome : Type :=
| ExecuteSent (execute : Command) (sent : send_outcome)
| ExecuteAwaitingLock.

(** [Execute.local()] up to its first wait: entering [remote_future()]
    sends the [ExecuteArgs] of the command with [ack=True]. *)
Definition Execute_local (e : Command) (rt : runtime)
  : option (result execute_outcome * runtime) :=
  match Command_command e with
  | None => Some (Raise AttributeError, rt)
  | Some command =>
      let '(_, p) := Channel___init__ (channel_name e) (rt_process rt) in
      match Channel_send (channel_name e) chunk_size
              (message_value (ExecuteArgs (fqin command) (Command_params command)))
              true 6 p with
      | None => None
      | Some (Ok sent, p') => Some (Ok (ExecuteSent e sent), set_rt_process p' rt)
      | Some (Raise err, p') => Some (Raise err, set_rt_process p' rt)
      end
  end.

(** [Command.execute()] *)
Definition Command_execute (c : Command) (rt : runtime)
  : option (result execute_outcome * runtime) :=
  match Command___init__ Execute_class None [] (Some c) rt with
  | (Raise e, rt') => Some (Raise e, rt')
  | (Ok execute, rt') => Execute_local execute rt'
  end.

(** [c.execute()], by the class of [c]. *)
Definition execute (c : Command) (rt : runtime) : option (result execute_outcome * runtime) :=
  match class_execute (Command_cls c) with
  | Execute_execute_method =>
      Some (Raise (RuntimeError
        "Do not invoke `await Execute()` directly, instead use `await Command(**params)`)"),
            rt)
  | InvokeImport_execute_method =>
      if import_lock rt then Some (Ok ExecuteAwaitingLock, rt)
      else Command_execute c (set_import_lock true rt)
  | Command_execute_method => Command_execute c rt
  end.

End Execute.

Section Teardown.
Context {Env : Environment}.

(** [del d[key]] on a dictionary kept as the list of its items, in the
    order of insertion. *)
Definition dict_del {V} (key : string) (d : list (string * V)) : list (string * V) :=
  List.filter (fun kv => negb (String.eqb (fst kv) key)) d.

(** The loop at the end of [Execute.execute_io_queues]:
    [for fqin, fut in cls.pending_commands.items(): fut.cancel(); del
    cls.pending_commands[fqin]].  [items] is what the iterator has still to
    give and [di_used] the size of the dictionary when the iterator was
    made; before it gives an item or ends, the iterator compares this size
    with the present one and raises when they differ. *)
Fixpoint teardown_loop (items : list (string * nat)) (di_used : nat) (rt : runtime)
  : result unit * runtime :=
  if negb (length (pending_commands rt) =? di_used)%nat
  then (Raise (RuntimeError "dictionary changed size during iteration"), rt)
  else
    match items with
    | [] => (Ok tt, rt)
    | (fqin, fut) :: rest =>
        let rt1 := set_futures (alter future_cancel fut (futures rt)) rt in
        let rt2 := set_pending_commands (dict_del fqin (pending_commands rt1)) rt1 in
        teardown_loop rest di_used rt2
    end.

(** [Execute.execute_io_queues] from the point where its listener is
    cancelled: the [CancelledError] is passed over and the loop above runs. *)
Definition execute_io_queues_teardown (rt : runtime) : result unit * runtime :=
  teardown_loop (pending_commands rt) (length (pending_commands rt)) rt.

End Teardown.

(** Objects of the examples: messages as byte strings, two commands in
    flight, each with its pending future, and an instance of [Execute]. *)
Definition msg0 : Messages env0 := {|
  message_value := fun m : @message env0 =>
    match m with
    | ExecuteArgs (n, u) ps =>
        str_encode n ++ Uid_bytes u
          ++ concat (map (fun kv : string * @value env0 => str_encode (fst kv) ++ snd kv) ps)
    | ExecuteResult f r => str_encode f ++ r
    | ExecuteException f e tb => str_encode f ++ str_encode tb
    end;
  Uid_str := fun u => "uid"%string
|}.

Definition runtime0 (pending : list (string * nat)) (futs : gmap nat (future (@value env0)))
  : @runtime env0 :=
  @mkRuntime env0 (process0 env0 []) ∅ pending futs false.

Definition two_pending : @runtime env0 :=
  runtime0 [("a"%string, 0%nat); ("b"%string, 1%nat)] (<[0%nat := Pending]> (<[1%nat := Pending]> ∅)).

Definition echo_class : class_object :=
  fst (_CommandMeta___new__ "Echo" "plugin" Command_execute_method meta_core).

Definition echo_0 : @Command env0 := mkCommand echo_class uid_1_5 [].
Definition execute_0 : @Command env0 := mkExecute Execute_class uid_1_5 [] echo_0.

Section Respect.
Context {Env : Environment}.



End Respect.

(** Streams of the examples: 62 null bytes, which no digest matches. *)
Definition stream_zeros : pybytes := repeat Byte.x00 62.

(** Headers of the examples without a channel name. *)
Definition bare_header (uid : Uid) (flags : ChunkFlags) : pybytes :=
  match _encode_header uid None None flags with
  | Ok h => h
  | Raise _ => []
  end.

Definition flags_recv_ack_only : ChunkFlags := mkChunkFlags false false true false.

(** A data frame of the examples: the payload in one part, not compressed. *)
Definition header_123 : pybytes :=
  match _encode_header uid_1_5 (Some "x"%string) (Some payload_123) ChunkFlags_default with
  | Ok h => h
  | Raise _ => []
  end.

Definition item_123 : out_item := Tuple [header_123; str_encode "x"; payload_123].

Section Dispatch.
Context {Env : Environment}.



(** [d.get(key)] on a dictionary kept as the list of its items. *)
Definition dict_get {V} (key : string) (d : list (string * V)) : option V :=
  option_map snd (List.find (fun kv => String.eqb (fst kv) key) d).

(** [Execute.pending_commands[fqin]]: the table is a
    [defaultdict(asyncio.Future)], which makes a new pending future, and
    keeps it, for a key it does not hold. *)
Definition pending_commands_getitem (key : string) (rt : runtime) : nat * runtime :=
  match dict_get key (pending_commands rt) with
  | Some fut => (fut, rt)
  | None =>
      let fut := fresh (dom (futures rt)) in
      (fut, set_futures (<[fut := Pending]> (futures rt))
              (set_pending_commands (pending_commands rt ++ [(key, fut)]) rt))
  end.

(** [ExecuteResult.__call__] and [ExecuteException.__call__]: the future
    of the command is looked up in the table and gets the result, or the
    exception. *)
Definition ExecuteResult___call__ (key : string) (v : value) (rt : runtime)
  : result unit * runtime :=
  let '(fut, rt1) := pending_commands_getitem key rt in
  match future_set_result (default Pending (futures rt1 !! fut)) v with
  | Ok f => (Ok tt, set_futures (<[fut := f]> (futures rt1)) rt1)
  | Raise e => (Raise e, rt1)
  end.

Definition ExecuteException___call__ (key : string) (exception : exn) (rt : runtime)
  : result unit * runtime :=
  let '(fut, rt1) := pending_commands_getitem key rt in
  match future_set_exception (default Pending (futures rt1 !! fut)) exception with
  | Ok f => (Ok tt, set_futures (<[fut := f]> (futures rt1)) rt1)
  | Raise e => (Raise e, rt1)
  end.

(** The futures of the table are among the futures there are. *)
Definition pending_wf (rt : runtime) : Prop :=
  forall key fut, dict_get key (pending_commands rt) = Some fut -> is_Some (futures rt !! fut).

End Dispatch.




(** Two messages of the examples whose frames alternate: the parts [1 2 3]
    and [6] of one on the channel ["x"], the part [4 5] of another on the
    channel ["y"]. *)
Definition uid_1_5_next : Uid :=
  mkUid (pack_be 8 t_1_5 ++ pack_be 8 94 ++ pack_be 8 140 ++ pack_be 8 2) t_1_5 94 140 2.

Definition frame_header (uid : Uid) (name : string) (data : option pybytes)
    (flags : ChunkFlags) : pybytes :=
  match _encode_header uid (Some name) data flags with
  | Ok h => h
  | Raise _ => []
  end.

Definition payload_45 : pybytes := map byte_of_Z [4; 5].
Definition payload_6 : pybytes := map byte_of_Z [6].

Definition stream_interleaved : pybytes :=
  frame_header uid_1_5 "x" (Some payload_123) ChunkFlags_default
    ++ str_encode "x" ++ payload_123
    ++ frame_header uid_1_5_next "y" (Some payload_45) ChunkFlags_default
    ++ str_encode "y" ++ payload_45
    ++ frame_header uid_1_5 "x" (Some payload_6) ChunkFlags_default
    ++ str_encode "x" ++ payload_6
    ++ frame_header uid_1_5_next "y" None flags_eom ++ str_encode "y"
    ++ frame_header uid_1_5 "x" None flags_eom ++ str_encode "x".

(** The class statements of a program, one after the other: each of them
    goes through [_CommandMeta.__new__], with the name of the class, its
    module and its [execute]. *)
Definition define_classes (defs : list (string * string * execute_method))
    (mcs : CommandMeta) : CommandMeta :=
  fold_left (fun m '(name, module_name, ex) => snd (_CommandMeta___new__ name module_name ex m))
    defs mcs.

(** The [command_name] a class statement gives. *)
Definition defined_name (d : string * string * execute_method) : string :=
  let '(name, module_name, _) := d in (module_name ++ ":" ++ name)%string.

(** A frame of the examples that asks for an acknowledgement and is one
    itself, for a future that is done already. *)
Definition flags_send_recv_ack : ChunkFlags := mkChunkFlags true true true false.

Definition process_ack_done : @process env0 :=
  @mkProcess env0 [] ∅ (bare_header uid_1_5 flags_send_recv_ack) EndOfFile ∅
    [(uid_1_5, Done (uid_1_5, 0))] 0%nat None th0.

Section Kept.
Context {Env : Environment}.




End Kept.


(** * Properties *)

(** ** Bytes and big-endian fields *)

Lemma Z_of_byte_range (b : byte) : 0 <= Z_of_byte b < 256.
Proof.
  unfold Z_of_byte. pose proof (Byte.to_N_bounded b) as Hb.
  apply N.lt_succ_r in Hb. lia.
Qed.

Lemma Z_of_byte_of_Z (z : Z) : Z_of_byte (byte_of_Z z) = z mod 256.
Proof.
  unfold byte_of_Z, Z_of_byte.
  pose proof (Z.mod_pos_bound z 256 ltac:(lia)) as Hz.
  destruct (Byte.of_N (Z.to_N (z mod 256))) as [b|] eqn:E.
  - apply Byte.to_of_N in E. rewrite E. lia.
  - apply Byte.of_N_None_iff in E. lia.
Qed.

Lemma byte_of_Z_of_byte (b : byte) : byte_of_Z (Z_of_byte b) = b.
Proof.
  unfold byte_of_Z. rewrite Z.mod_small by apply Z_of_byte_range.
  unfold Z_of_byte. rewrite N2Z.id, Byte.of_to_N. reflexivity.
Qed.

Lemma byte_of_Z_mod (z w : Z) : z mod 256 = w mod 256 -> byte_of_Z z = byte_of_Z w.
Proof. unfold byte_of_Z. intros ->. reflexivity. Qed.

Lemma length_pack_be (n : nat) (v : Z) : length (pack_be n v) = n.
Proof. induction n as [|k IH]; simpl; [reflexivity | now rewrite IH]. Qed.

Lemma unpack_be_range (bs : pybytes) : 0 <= unpack_be bs < 2 ^ (8 * Z.of_nat (length bs)).
Proof.
  induction bs as [|b r IH]; simpl length; cbn [unpack_be]; [simpl; lia|].
  pose proof (Z_of_byte_range b) as Hb.
  rewrite Z.shiftl_mul_pow2 by lia.
  replace (8 * Z.of_nat (S (length r))) with (8 + 8 * Z.of_nat (length r)) by lia.
  rewrite Z.pow_add_r by lia. change (2 ^ 8) with 256. nia.
Qed.

Lemma unpack_pack_be (n : nat) (v : Z) : unpack_be (pack_be n v) = v mod 2 ^ (8 * Z.of_nat n).
Proof.
  induction n as [|k IH]; cbn [pack_be unpack_be].
  - simpl. now rewrite Z.mod_1_r.
  - rewrite length_pack_be, IH, Z_of_byte_of_Z.
    rewrite Z.shiftl_mul_pow2, Z.shiftr_div_pow2 by lia.
    replace (8 * Z.of_nat (S k)) with (8 * Z.of_nat k + 8) by lia.
    rewrite Z.pow_add_r by lia. change (2 ^ 8) with 256.
    rewrite Z.rem_mul_r by lia. lia.
Qed.

Lemma pack_be_mod (n : nat) (v w : Z) :
  v mod 2 ^ (8 * Z.of_nat n) = w mod 2 ^ (8 * Z.of_nat n) -> pack_be n v = pack_be n w.
Proof.
  induction n as [|k IH]; cbn [pack_be]; [reflexivity|]. intros H.
  replace (8 * Z.of_nat (S k)) with (8 * Z.of_nat k + 8) in H by lia.
  rewrite Z.pow_add_r in H by lia. change (2 ^ 8) with 256 in H.
  rewrite !Z.rem_mul_r in H by lia.
  set (p := 2 ^ (8 * Z.of_nat k)) in *.
  assert (Hp : 0 < p) by (apply Z.pow_pos_nonneg; lia).
  pose proof (Z.mod_pos_bound v p Hp) as Bv. pose proof (Z.mod_pos_bound w p Hp) as Bw.
  pose proof (Z.mod_pos_bound (v / p) 256 ltac:(lia)) as Bv'.
  pose proof (Z.mod_pos_bound (w / p) 256 ltac:(lia)) as Bw'.
  assert (v mod p = w mod p /\ (v / p) mod 256 = (w / p) mod 256) as [E1 E2].
  { generalize dependent (v mod p). generalize dependent (w mod p).
    generalize dependent ((v / p) mod 256). generalize dependent ((w / p) mod 256).
    intros d Bd c Bc b Bb a H Ba.
    destruct (Z.lt_trichotomy c d) as [L|[L|L]]; [nia | split; nia | nia]. }
  f_equal.
  - apply byte_of_Z_mod. now rewrite !Z.shiftr_div_pow2 by lia.
  - now apply IH.
Qed.

Lemma pack_unpack_be (bs : pybytes) : pack_be (length bs) (unpack_be bs) = bs.
Proof.
  induction bs as [|b r IH]; [reflexivity|].
  simpl length. cbn [pack_be unpack_be].
  pose proof (unpack_be_range r) as Hr. pose proof (Z_of_byte_range b) as Hb.
  set (p := 2 ^ (8 * Z.of_nat (length r))) in *.
  assert (Hp : 0 < p) by (apply Z.pow_pos_nonneg; lia).
  rewrite Z.shiftl_mul_pow2, Z.shiftr_div_pow2 by lia. fold p.
  f_equal.
  - rewrite Z.div_add_l by lia. rewrite Z.div_small by lia.
    rewrite Z.add_0_r. apply byte_of_Z_of_byte.
  - transitivity (pack_be (length r) (unpack_be r)); [|exact IH].
    apply pack_be_mod. fold p.
    rewrite Z.add_comm, Z.mod_add by lia. reflexivity.
Qed.

Lemma unpack_pack_be_fits (n : nat) (v : Z) : fits n v = true -> unpack_be (pack_be n v) = v.
Proof.
  unfold fits. intros H. apply andb_true_iff in H as [H1 H2].
  rewrite unpack_pack_be. apply Z.mod_small. lia.
Qed.

(** ** MD5 test vectors (RFC 1321, appendix A.5) *)

Example md5_empty :
  hex_of_bytes (md5 []) =
  [0xd4; 0x1d; 0x8c; 0xd9; 0x8f; 0x00; 0xb2; 0x04; 0xe9; 0x80; 0x09; 0x98; 0xec; 0xf8; 0x42; 0x7e].
Proof. vm_compute. reflexivity. Qed.

Example md5_abc :
  hex_of_bytes (md5 (str_encode "abc")) =
  [0x90; 0x01; 0x50; 0x98; 0x3c; 0xd2; 0x4f; 0xb0; 0xd6; 0x96; 0x3f; 0x7d; 0x28; 0xe1; 0x7f; 0x72].
Proof. vm_compute. reflexivity. Qed.

Example md5_two_blocks :
  hex_of_bytes (md5 (repeat (byte_of_Z 97) 70)) =
  [0x0f; 0x5c; 0x6c; 0x4e; 0x74; 0x0b; 0xfc; 0xc0; 0x8c; 0x3c; 0x26; 0xcc; 0xb2; 0x67; 0x3d; 0x46].
Proof. vm_compute. reflexivity. Qed.

(** ** Uid *)

Lemma fits_range (n : nat) (v : Z) : fits n v = true <-> 0 <= v < 2 ^ (8 * Z.of_nat n).
Proof. unfold fits. rewrite andb_true_iff, Z.leb_le, Z.ltb_lt. reflexivity. Qed.

Lemma fits_unpack_be (bs : pybytes) : fits (length bs) (unpack_be bs) = true.
Proof. apply fits_range, unpack_be_range. Qed.

Lemma fits_unpack_be' (n : nat) (bs : pybytes) : length bs = n -> fits n (unpack_be bs) = true.
Proof. intros <-. apply fits_unpack_be. Qed.

Lemma pack_unpack_be' (n : nat) (bs : pybytes) : length bs = n -> pack_be n (unpack_be bs) = bs.
Proof. intros <-. apply pack_unpack_be. Qed.

Lemma pack_dQQQ_Ok (t i d s : Z) (b : pybytes) :
  pack_dQQQ t i d s = Ok b ->
  fits 8 i = true /\ fits 8 d = true /\ fits 8 s = true
  /\ b = pack_be 8 t ++ pack_be 8 i ++ pack_be 8 d ++ pack_be 8 s.
Proof.
  unfold pack_dQQQ.
  destruct (fits 8 i), (fits 8 d), (fits 8 s); simpl; intros H; inversion H; auto.
Qed.

Lemma length_pack_dQQQ (t i d s : Z) (b : pybytes) :
  pack_dQQQ t i d s = Ok b -> length b = 32%nat.
Proof.
  intros H. apply pack_dQQQ_Ok in H as (_ & _ & _ & ->).
  rewrite !length_app, !length_pack_be. reflexivity.
Qed.

Lemma Uid_wf_length (u : Uid) : Uid_wf u -> length (Uid_bytes u) = 32%nat.
Proof. intros [_ H]. eapply length_pack_dQQQ, H. Qed.

Lemma take_drop_fields (a b c d : pybytes) :
  length a = 8%nat -> length b = 8%nat -> length c = 8%nat -> length d = 8%nat ->
  take 8 (a ++ b ++ c ++ d) = a
  /\ take 8 (drop 8 (a ++ b ++ c ++ d)) = b
  /\ take 8 (drop 16 (a ++ b ++ c ++ d)) = c
  /\ take 8 (drop 24 (a ++ b ++ c ++ d)) = d.
Proof.
  intros Ha Hb Hc Hd. repeat split.
  - rewrite take_app_length'; auto.
  - rewrite drop_app_length' by auto. rewrite take_app_length'; auto.
  - rewrite (app_assoc a b), drop_app_length' by (rewrite length_app; lia).
    rewrite take_app_length'; auto.
  - rewrite (app_assoc a b), (app_assoc (a ++ b) c).
    rewrite drop_app_length' by (rewrite !length_app; lia).
    rewrite take_ge by lia. reflexivity.
Qed.

Lemma split_fields (b : pybytes) :
  length b = 32%nat ->
  take 8 b ++ take 8 (drop 8 b) ++ take 8 (drop 16 b) ++ take 8 (drop 24 b) = b.
Proof.
  intros H.
  rewrite (take_ge (drop 24 b)) by (rewrite length_drop; lia).
  change (drop 24 b) with (drop (16 + 8) b). rewrite <- drop_drop, take_drop.
  change (drop 16 b) with (drop (8 + 8) b). rewrite <- drop_drop, take_drop.
  apply take_drop.
Qed.

Lemma unpack_pack_dQQQ (t i d s : Z) (b : pybytes) :
  is_float64 t -> pack_dQQQ t i d s = Ok b -> unpack_dQQQ b = Ok (t, i, d, s).
Proof.
  intros Ht H. unfold unpack_dQQQ. rewrite (length_pack_dQQQ _ _ _ _ _ H). simpl.
  apply pack_dQQQ_Ok in H as (Hi & Hd & Hs & ->).
  destruct (take_drop_fields (pack_be 8 t) (pack_be 8 i) (pack_be 8 d) (pack_be 8 s))
    as (-> & -> & -> & ->); try apply length_pack_be.
  rewrite !unpack_pack_be_fits; auto. apply fits_range. exact Ht.
Qed.

Lemma pack_unpack_dQQQ (b : pybytes) (t i d s : Z) :
  unpack_dQQQ b = Ok (t, i, d, s) -> is_float64 t /\ pack_dQQQ t i d s = Ok b.
Proof.
  unfold unpack_dQQQ. destruct (length b =? 32)%nat eqn:E; [|discriminate].
  apply Nat.eqb_eq in E. intros H. inversion H; subst; clear H.
  assert (L1 : length (take 8 b) = 8%nat) by (rewrite length_take; lia).
  assert (L2 : length (take 8 (drop 8 b)) = 8%nat) by (rewrite length_take, length_drop; lia).
  assert (L3 : length (take 8 (drop 16 b)) = 8%nat) by (rewrite length_take, length_drop; lia).
  assert (L4 : length (take 8 (drop 24 b)) = 8%nat) by (rewrite length_take, length_drop; lia).
  split.
  - pose proof (unpack_be_range (take 8 b)) as R. rewrite L1 in R. exact R.
  - unfold pack_dQQQ.
    rewrite !fits_unpack_be' by assumption. cbn [andb]. f_equal.
    rewrite !pack_unpack_be' by assumption.
    apply split_fields, E.
Qed.

(** Decoding: [Uid(bytes=b)] for a [b] that is not empty reads the clock
    and the counter of the thread not at all. *)
Lemma Uid_init_bytes (b : pybytes) (now : Z) (th : thread) (l : option uid_local) :
  b <> [] ->
  Uid_init None None None None (Some b) now th l =
  (match unpack_dQQQ b with
   | Ok (t, i, d, s) => Ok (mkUid b t i d s)
   | Raise e => Raise e
   end, l).
Proof.
  intros Hb. destruct b as [|x r]; [congruence|]. unfold Uid_init.
  destruct (unpack_dQQQ (x :: r)) as [[[[t i] d] s]|e]; reflexivity.
Qed.

Lemma Uid_init_bytes_wf (u : Uid) (now : Z) (th : thread) (l : option uid_local) :
  Uid_wf u -> Uid_init None None None None (Some (Uid_bytes u)) now th l = (Ok u, l).
Proof.
  intros Hwf. pose proof (Uid_wf_length u Hwf) as Hlen. destruct Hwf as [Ht Hp].
  rewrite Uid_init_bytes by (intros E; rewrite E in Hlen; discriminate).
  rewrite (unpack_pack_dQQQ _ _ _ _ _ Ht Hp). destruct u; reflexivity.
Qed.

(** Every constructor call of the module yields a well-formed [Uid]:
    [Uid()] from the clock and the thread, and [Uid(bytes=b)]. *)
Lemma Uid_init_create_wf (now : Z) (th : thread) (l l' : option uid_local) (u : Uid) :
  is_float64 now ->
  Uid_init None None None None None now th l = (Ok u, l') -> Uid_wf u /\ Uid_time u = now.
Proof.
  intros Hn. unfold Uid_init, _create_uid.
  match goal with |- context [pack_dQQQ ?t ?i ?d ?s] => destruct (pack_dQQQ t i d s) eqn:E end;
    intros H; inversion H; subst; clear H.
  split; [split|]; auto.
Qed.

Lemma Uid_init_decode_wf (b : pybytes) (now : Z) (th : thread) (l l' : option uid_local) (u : Uid) :
  b <> [] ->
  Uid_init None None None None (Some b) now th l = (Ok u, l') -> Uid_wf u /\ Uid_bytes u = b.
Proof.
  intros Hb. rewrite Uid_init_bytes by exact Hb.
  destruct (unpack_dQQQ b) as [[[[t i] d] s]|e] eqn:E; intros H; inversion H; subst; clear H.
  apply pack_unpack_dQQQ in E. split; [exact E | reflexivity].
Qed.

Lemma f64_eqb_refl (t : Z) : f64_eqb t t = negb (f64_is_nan t).
Proof.
  unfold f64_eqb. rewrite Z.eqb_refl.
  destruct (f64_is_nan t); reflexivity.
Qed.

(** C7, as the code has it: decoding the encoded bytes of a [Uid] gives
    back its bytes and its four fields exactly, and the decoded [Uid]
    compares equal ([Uid.__eq__]) to the original one exactly when the
    timestamp is not a NaN. *)
Theorem Uid_decode_encode (u : Uid) (now : Z) (th : thread) (l : option uid_local) :
  Uid_wf u ->
  exists u',
    Uid___msgpack_decode__ (Uid___msgpack_encode__ u) now th l = (Ok u', l)
    /\ Uid_bytes u' = Uid_bytes u
    /\ Uid_time u' = Uid_time u /\ Uid_id u' = Uid_id u
    /\ Uid_tid u' = Uid_tid u /\ Uid_seq u' = Uid_seq u
    /\ Uid_eq u' u = negb (f64_is_nan (Uid_time u)).
Proof.
  intros Hwf. exists u. unfold Uid___msgpack_decode__, Uid___msgpack_encode__.
  rewrite Uid_init_bytes_wf by exact Hwf.
  repeat split. unfold Uid_eq. rewrite f64_eqb_refl, !Z.eqb_refl.
  now rewrite !andb_true_r.
Qed.

Lemma uid_1_5_created : Uid_init None None None None None t_1_5 th0 None
                        = (Ok uid_1_5, Some (mkUidLocal 94 140 1)).
Proof. reflexivity. Qed.

Lemma uid_1_5_wf : Uid_wf uid_1_5.
Proof. split; [vm_compute; split; [discriminate | reflexivity] | reflexivity]. Qed.

Lemma uid_nan_constructed :
  Uid_init (Some t_nan) (Some 1) (Some 2) (Some 3) None 0 th0 None = (Ok uid_nan, None).
Proof. reflexivity. Qed.

Lemma Uid_decode_encode_witness :
  exists u',
    Uid___msgpack_decode__ (Uid___msgpack_encode__ uid_1_5) 0 th0 None = (Ok u', None)
    /\ Uid_bytes u' = Uid_bytes uid_1_5
    /\ Uid_time u' = Uid_time uid_1_5 /\ Uid_id u' = Uid_id uid_1_5
    /\ Uid_tid u' = Uid_tid uid_1_5 /\ Uid_seq u' = Uid_seq uid_1_5
    /\ Uid_eq u' uid_1_5 = negb (f64_is_nan (Uid_time uid_1_5)).
Proof. apply (Uid_decode_encode uid_1_5 0 th0 None). exact uid_1_5_wf. Defined.

(** C7 as stated fails for a timestamp that is a NaN: the [Uid] built by
    [Uid(nan, 1, 2, 3)] decodes from its own bytes to a [Uid] with the same
    fields that [==] tells apart from it. *)
Lemma Uid_nan_roundtrip_not_equal :
  Uid_wf uid_nan
  /\ exists u',
       Uid___msgpack_decode__ (Uid___msgpack_encode__ uid_nan) 0 th0 None = (Ok u', None)
       /\ Uid_eq u' uid_nan = false.
Proof.
  split.
  - split; [vm_compute; split; [discriminate | reflexivity] | reflexivity].
  - exists uid_nan. split; vm_compute; reflexivity.
Qed.

(** ** ChunkFlags *)

(** C8: every one of the sixteen sets of flags is read back from its
    packed integer. *)
Theorem ChunkFlags_decode_encode (f : ChunkFlags) : ChunkFlags_decode (ChunkFlags_encode f) = f.
Proof. destruct f as [[] [] [] []]; reflexivity. Qed.

Lemma ChunkFlags_encode_range (f : ChunkFlags) : 0 <= ChunkFlags_encode f < 16.
Proof. destruct f as [[] [] [] []]; vm_compute; split; congruence. Qed.

Lemma ChunkFlags_encode_bits (f : ChunkFlags) :
  ChunkFlags_encode f
  = Z.b2z (eom f) + 2 * Z.b2z (send_ack f) + 4 * Z.b2z (recv_ack f) + 8 * Z.b2z (compression f).
Proof. destruct f as [[] [] [] []]; reflexivity. Qed.

Lemma ChunkFlags_encode_fits (f : ChunkFlags) : fits 8 (ChunkFlags_encode f) = true.
Proof. destruct f as [[] [] [] []]; reflexivity. Qed.

(** ** Frame header *)

Lemma length_pack_le (n : nat) (v : Z) : length (pack_le n v) = n.
Proof. unfold pack_le. rewrite length_rev. apply length_pack_be. Qed.

Lemma length_md5 (data : pybytes) : length (md5 data) = 16%nat.
Proof.
  unfold md5.
  destruct (md5_blocks _ _ _) as [[[a b] c] d].
  rewrite !length_app, !length_pack_le. reflexivity.
Qed.

Lemma HEADER_SIZE_eq : HEADER_SIZE = 46%nat.
Proof. reflexivity. Qed.

Lemma pack_s_exact (n : nat) (b : pybytes) : length b = n -> pack_s n b = b.
Proof. intros <-. unfold pack_s. apply take_app_length. Qed.

Lemma length_pack_s (n : nat) (b : pybytes) : length (pack_s n b) = n.
Proof.
  unfold pack_s. rewrite length_take, length_app, repeat_length. lia.
Qed.

Lemma pack_header_Ok (u : pybytes) (f c d : Z) (h : pybytes) :
  pack_header u f c d = Ok h ->
  fits 8 f = true /\ fits 2 c = true /\ fits 4 d = true
  /\ h = pack_s 32 u ++ pack_be 8 f ++ pack_be 2 c ++ pack_be 4 d.
Proof.
  unfold pack_header.
  destruct (fits 8 f), (fits 2 c), (fits 4 d); simpl; intros H; inversion H; auto.
Qed.

Lemma pack_header_fits (u : pybytes) (f c d : Z) :
  fits 8 f = true -> fits 2 c = true -> fits 4 d = true ->
  pack_header u f c d = Ok (pack_s 32 u ++ pack_be 8 f ++ pack_be 2 c ++ pack_be 4 d).
Proof. unfold pack_header. intros -> -> ->. reflexivity. Qed.

Lemma length_pack_header (u : pybytes) (f c d : Z) (h : pybytes) :
  pack_header u f c d = Ok h -> length h = HEADER_SIZE.
Proof.
  intros H. apply pack_header_Ok in H as (_ & _ & _ & ->).
  rewrite !length_app, length_pack_s, !length_pack_be. reflexivity.
Qed.

Lemma header_fields (a b c d : pybytes) :
  length a = 32%nat -> length b = 8%nat -> length c = 2%nat -> length d = 4%nat ->
  take 32 (a ++ b ++ c ++ d) = a
  /\ take 8 (drop 32 (a ++ b ++ c ++ d)) = b
  /\ take 2 (drop 40 (a ++ b ++ c ++ d)) = c
  /\ take 4 (drop 42 (a ++ b ++ c ++ d)) = d.
Proof.
  intros Ha Hb Hc Hd. repeat split.
  - rewrite take_app_length'; auto.
  - rewrite drop_app_length' by auto. rewrite take_app_length'; auto.
  - rewrite (app_assoc a b), drop_app_length' by (rewrite length_app; lia).
    rewrite take_app_length'; auto.
  - rewrite (app_assoc a b), (app_assoc (a ++ b) c).
    rewrite drop_app_length' by (rewrite !length_app; lia).
    rewrite take_ge by lia. reflexivity.
Qed.

Lemma unpack_pack_header (u : pybytes) (f c d : Z) (h : pybytes) :
  length u = 32%nat -> pack_header u f c d = Ok h -> unpack_header h = Ok (u, f, c, d).
Proof.
  intros Hu H. unfold unpack_header. rewrite (length_pack_header _ _ _ _ _ H), Nat.eqb_refl.
  apply pack_header_Ok in H as (Hf & Hc & Hd & ->).
  rewrite (pack_s_exact 32 u Hu).
  destruct (header_fields u (pack_be 8 f) (pack_be 2 c) (pack_be 4 d))
    as (-> & -> & -> & ->); try apply length_pack_be; auto.
  rewrite !unpack_pack_be_fits; auto.
Qed.

Lemma take_drop_checksum (h c : pybytes) :
  length c = 16%nat ->
  take (length (h ++ c) - 16) (h ++ c) = h /\ drop (length (h ++ c) - 16) (h ++ c) = c.
Proof.
  intros Hc. rewrite length_app, Hc.
  replace (length h + 16 - 16)%nat with (length h) by lia.
  split; [apply take_app_length | apply drop_app_length].
Qed.

(** Decoding an encoded header gives back the [Uid], the flags and the two
    lengths, and touches nothing. *)
Lemma decode_encode_header (uid : Uid) (channel_name : option string) (data : option pybytes)
    (flags : ChunkFlags) (h : pybytes) (now : Z) (th : thread) (l : option uid_local) :
  Uid_wf uid ->
  _encode_header uid channel_name data flags = Ok h ->
  _decode_header h now th l
  = (Ok (uid, flags, channel_name_length_of channel_name, data_length_of data), l).
Proof.
  intros Hwf. unfold _encode_header.
  destruct (pack_header _ _ _ _) as [hd|e] eqn:E; intros H; inversion H; subst; clear H.
  unfold _decode_header.
  destruct (take_drop_checksum hd (md5 hd) (length_md5 hd)) as [-> ->].
  rewrite bool_decide_eq_true_2 by reflexivity.
  rewrite (unpack_pack_header _ _ _ _ _ (Uid_wf_length uid Hwf) E).
  rewrite Uid_init_bytes_wf by exact Hwf.
  assert (Hf : ChunkFlags_decode (ChunkFlags_encode flags) = flags)
    by (destruct flags as [[] [] [] []]; reflexivity).
  rewrite Hf. reflexivity.
Qed.

Lemma length_encode_header (uid : Uid) (channel_name : option string) (data : option pybytes)
    (flags : ChunkFlags) (h : pybytes) :
  _encode_header uid channel_name data flags = Ok h -> length h = (HEADER_SIZE + 16)%nat.
Proof.
  unfold _encode_header.
  destruct (pack_header _ _ _ _) as [hd|e] eqn:E; intros H; inversion H; subst; clear H.
  rewrite length_app, length_md5, (length_pack_header _ _ _ _ _ E). reflexivity.
Qed.

(** C2, as the code has it: the header is 46 bytes of fields followed by
    the 16 byte MD5 digest of these 46 bytes, 62 bytes whatever the name and
    the payload are.  The uid takes 32 bytes (four big-endian fields of 8
    bytes: the float and three unsigned integers), the flags 8 bytes, the
    length of the channel name 2 bytes and the length of the payload 4. *)
Theorem encode_header_layout (uid : Uid) (channel_name : option string)
    (data : option pybytes) (flags : ChunkFlags) :
  Uid_wf uid ->
  fits 2 (channel_name_length_of channel_name) = true ->
  fits 4 (data_length_of data) = true ->
  exists h,
    _encode_header uid channel_name data flags = Ok h
    /\ length h = 62%nat
    /\ take 46 h =
         (pack_be 8 (Uid_time uid) ++ pack_be 8 (Uid_id uid)
            ++ pack_be 8 (Uid_tid uid) ++ pack_be 8 (Uid_seq uid))
         ++ pack_be 8 (ChunkFlags_encode flags)
         ++ pack_be 2 (channel_name_length_of channel_name)
         ++ pack_be 4 (data_length_of data)
    /\ drop 46 h = md5 (take 46 h).
Proof.
  intros Hwf Hc Hd. unfold _encode_header.
  rewrite pack_header_fits by auto using ChunkFlags_encode_fits.
  rewrite (pack_s_exact 32 _ (Uid_wf_length uid Hwf)).
  destruct Hwf as [_ Hp]. apply pack_dQQQ_Ok in Hp as (_ & _ & _ & ->).
  eexists. split; [reflexivity|].
  set (hd := _ ++ pack_be 8 (ChunkFlags_encode flags) ++ _).
  assert (Hlen : length hd = 46%nat)
    by (unfold hd; rewrite !length_app, !length_pack_be; reflexivity).
  split; [|split].
  - rewrite length_app, length_md5, Hlen. reflexivity.
  - rewrite take_app_length'; auto.
  - rewrite drop_app_length', take_app_length'; auto.
Qed.

Lemma encode_header_layout_witness :
  exists h,
    _encode_header uid_1_5 (Some "x"%string) None flags_eom = Ok h
    /\ length h = 62%nat
    /\ take 46 h =
         (pack_be 8 (Uid_time uid_1_5) ++ pack_be 8 (Uid_id uid_1_5)
            ++ pack_be 8 (Uid_tid uid_1_5) ++ pack_be 8 (Uid_seq uid_1_5))
         ++ pack_be 8 (ChunkFlags_encode flags_eom)
         ++ pack_be 2 (channel_name_length_of (Some "x"%string))
         ++ pack_be 4 (data_length_of None)
    /\ drop 46 h = md5 (take 46 h).
Proof.
  apply (encode_header_layout uid_1_5 (Some "x"%string) None flags_eom).
  - exact uid_1_5_wf.
  - reflexivity.
  - reflexivity.
Defined.

(** A length that does not fit its field makes [struct.pack] fail. *)
Lemma encode_header_too_long (uid : Uid) (channel_name : option string)
    (data : option pybytes) (flags : ChunkFlags) :
  fits 2 (channel_name_length_of channel_name) && fits 4 (data_length_of data) = false ->
  _encode_header uid channel_name data flags = Raise struct_error.
Proof.
  intros H. unfold _encode_header, pack_header.
  rewrite ChunkFlags_encode_fits. simpl.
  destruct (fits 2 _), (fits 4 _); simpl in *; congruence.
Qed.

(** C2 as stated fails: the header of an [eom] frame on channel ["x"] is
    not 24 + 2 + 2 + 4 + 16 bytes long, its uid takes 32 bytes, and the two
    bytes after the first 24 are not the flags, which are the 8 bytes after
    the first 32. *)
Lemma encode_header_not_24_2_2_4 :
  exists h,
    _encode_header uid_1_5 (Some "x"%string) None flags_eom = Ok h
    /\ length h <> (24 + 2 + 2 + 4 + 16)%nat
    /\ length (Uid_bytes uid_1_5) = 32%nat
    /\ take 32 h = Uid_bytes uid_1_5
    /\ take 2 (drop 24 h) <> pack_be 2 (ChunkFlags_encode flags_eom)
    /\ take 8 (drop 32 h) = pack_be 8 (ChunkFlags_encode flags_eom).
Proof.
  eexists. split; [vm_compute; reflexivity|].
  repeat split; vm_compute; congruence.
Qed.

Lemma decode_header_mismatch (header : pybytes) (now : Z) (th : thread)
    (l : option uid_local) :
  md5 (take (length header - 16)%nat header) <> drop (length header - 16)%nat header ->
  _decode_header header now th l = (Raise (AssertionError "Header checksum mismatch!"), l).
Proof.
  intros H. unfold _decode_header. rewrite bool_decide_eq_false_2 by exact H. reflexivity.
Qed.

Lemma checksum_match_length (header : pybytes) :
  md5 (take (length header - 16)%nat header) = drop (length header - 16)%nat header ->
  (16 <= length header)%nat
  /\ length (take (length header - 16)%nat header) = (length header - 16)%nat.
Proof.
  intros Hm. apply (f_equal length) in Hm.
  rewrite length_md5, length_drop in Hm. rewrite length_take. lia.
Qed.

Lemma decode_header_wrong_size (header : pybytes) (now : Z) (th : thread)
    (l : option uid_local) :
  md5 (take (length header - 16)%nat header) = drop (length header - 16)%nat header ->
  length header <> (HEADER_SIZE + 16)%nat ->
  _decode_header header now th l = (Raise struct_error, l).
Proof.
  intros Hm Hl. destruct (checksum_match_length header Hm) as [H16 Hb].
  unfold _decode_header. rewrite bool_decide_eq_true_2 by exact Hm.
  unfold unpack_header. rewrite Hb.
  replace (length header - 16 =? HEADER_SIZE)%nat with false; [reflexivity|].
  symmetry. apply Nat.eqb_neq. lia.
Qed.

Lemma decode_header_right_size (header : pybytes) (now : Z) (th : thread)
    (l : option uid_local) :
  md5 (take (length header - 16)%nat header) = drop (length header - 16)%nat header ->
  length header = (HEADER_SIZE + 16)%nat ->
  exists uid,
    _decode_header header now th l
    = (Ok (uid,
           ChunkFlags_decode (unpack_be (take 8 (drop 32 header))),
           unpack_be (take 2 (drop 40 header)),
           unpack_be (take 4 (drop 42 header))), l)
    /\ Uid_wf uid /\ Uid_bytes uid = take 32 header.
Proof.
  intros Hm Hl. rewrite HEADER_SIZE_eq in Hl.
  unfold _decode_header. rewrite bool_decide_eq_true_2 by exact Hm.
  rewrite Hl. change (46 + 16 - 16)%nat with 46%nat.
  set (body := take 46 header).
  assert (Hb : length body = 46%nat) by (unfold body; rewrite length_take; lia).
  unfold unpack_header. rewrite Hb, HEADER_SIZE_eq, Nat.eqb_refl.
  assert (T32 : take 32 body = take 32 header)
    by (unfold body; rewrite take_take; f_equal).
  assert (T8 : take 8 (drop 32 body) = take 8 (drop 32 header)).
  { unfold body. rewrite skipn_firstn_comm, take_take. reflexivity. }
  assert (T2 : take 2 (drop 40 body) = take 2 (drop 40 header)).
  { unfold body. rewrite skipn_firstn_comm, take_take. reflexivity. }
  assert (T4 : take 4 (drop 42 body) = take 4 (drop 42 header)).
  { unfold body. rewrite skipn_firstn_comm, take_take. reflexivity. }
  rewrite T32, T8, T2, T4.
  assert (Hu : take 32 header <> []).
  { intros E. apply (f_equal length) in E. rewrite length_take, Hl in E. discriminate E. }
  rewrite Uid_init_bytes by exact Hu.
  assert (Hun : exists t i d s, unpack_dQQQ (take 32 header) = Ok (t, i, d, s)).
  { unfold unpack_dQQQ. rewrite length_take, Hl. cbn [Nat.min Nat.eqb]. eauto. }
  destruct Hun as (t & i & d & s & Hun). rewrite Hun.
  eexists. split; [reflexivity|]. split; [|reflexivity].
  apply pack_unpack_dQQQ in Hun. exact Hun.
Qed.

(** [_decode_header] on a byte string of any length.  The assertion fails
    exactly when the digest of all but the last 16 bytes differs from these
    16 bytes.  The call returns exactly when the digest matches and the
    input is 62 bytes long, and then the four values are read from the
    fixed positions; an input of another length whose digest matches would
    fail in [struct.unpack]. *)
Lemma decode_header_checksum (header : pybytes) (now : Z) (th : thread)
    (l : option uid_local) :
  let body := take (length header - 16)%nat header in
  let check := drop (length header - 16)%nat header in
  (_decode_header header now th l = (Raise (AssertionError "Header checksum mismatch!"), l)
   <-> md5 body <> check)
  /\ ((exists uid,
         _decode_header header now th l
         = (Ok (uid,
                ChunkFlags_decode (unpack_be (take 8 (drop 32 header))),
                unpack_be (take 2 (drop 40 header)),
                unpack_be (take 4 (drop 42 header))), l)
         /\ Uid_wf uid /\ Uid_bytes uid = take 32 header)
      <-> md5 body = check /\ length header = (HEADER_SIZE + 16)%nat)
  /\ (_decode_header header now th l = (Raise struct_error, l)
      <-> md5 body = check /\ length header <> (HEADER_SIZE + 16)%nat).
Proof.
  intros body check.
  assert (K : forall P Q : Prop, P -> Q -> (P <-> Q)) by tauto.
  assert (N : forall P Q : Prop, ~ P -> ~ Q -> (P <-> Q)) by tauto.
  destruct (decide (md5 body = check)) as [Hm|Hm].
  - destruct (decide (length header = (HEADER_SIZE + 16)%nat)) as [Hl|Hl].
    + destruct (decode_header_right_size header now th l Hm Hl) as (uid & E & Hw & Hb).
      rewrite E. split; [|split].
      * apply N; [discriminate | tauto].
      * apply K; eauto.
      * apply N; [discriminate | tauto].
    + rewrite (decode_header_wrong_size header now th l Hm Hl). split; [|split].
      * apply N; [discriminate | tauto].
      * apply N; [intros (uid & E & _); discriminate E | tauto].
      * apply K; auto.
  - rewrite (decode_header_mismatch header now th l Hm). split; [|split].
    + apply K; auto.
    + apply N; [intros (uid & E & _); discriminate E | tauto].
    + apply N; [discriminate | tauto].
Qed.

Example decode_header_example :
  exists h,
    _encode_header uid_1_5 (Some "x"%string) None flags_eom = Ok h
    /\ _decode_header h 0 th0 None = (Ok (uid_1_5, flags_eom, 1, 0), None).
Proof. eexists. split; [vm_compute; reflexivity|]. vm_compute. reflexivity. Qed.

(** C6: [_decode_header] on the 62 bytes that the reader hands to it (see
    [readexactly_length]).  It fails with the checksum assertion, which is
    the integrity error of the module, exactly when the digest of the
    first 46 bytes differs from the last 16; when the digest matches it
    returns the uid, the flags and the two lengths, read from their fixed
    positions, and does not fail in any other way. *)
Theorem decode_header_integrity (header : pybytes) (now : Z) (th : thread)
    (l : option uid_local) :
  length header = (HEADER_SIZE + 16)%nat ->
  (_decode_header header now th l = (Raise (AssertionError "Header checksum mismatch!"), l)
   <-> md5 (take HEADER_SIZE header) <> drop HEADER_SIZE header)
  /\ (is_Ok (fst (_decode_header header now th l)) = true
      <-> md5 (take HEADER_SIZE header) = drop HEADER_SIZE header)
  /\ (md5 (take HEADER_SIZE header) = drop HEADER_SIZE header ->
      exists uid,
        _decode_header header now th l
        = (Ok (uid,
               ChunkFlags_decode (unpack_be (take 8 (drop 32 header))),
               unpack_be (take 2 (drop 40 header)),
               unpack_be (take 4 (drop 42 header))), l)
        /\ Uid_bytes uid = take 32 header /\ Uid_wf uid).
Proof.
  intros Hl.
  assert (E : (length header - 16)%nat = HEADER_SIZE) by (rewrite Hl; lia).
  destruct (decide (md5 (take HEADER_SIZE header) = drop HEADER_SIZE header)) as [Hm|Hm].
  - assert (Hm' := Hm). rewrite <- E in Hm'.
    destruct (decode_header_right_size header now th l Hm' Hl) as (uid & Hd & Hw & Hb).
    rewrite Hd. cbn [fst is_Ok]. split; [|split].
    + split; [discriminate | intros H; contradiction].
    + split; auto.
    + intros _. exists uid. auto.
  - assert (Hm' := Hm). rewrite <- E in Hm'.
    rewrite (decode_header_mismatch header now th l Hm'). cbn [fst is_Ok]. split; [|split].
    + split; auto.
    + split; [discriminate | intros H; contradiction].
    + intros H. contradiction.
Qed.

Lemma decode_header_integrity_witness :
  let header := frame_header uid_1_5 "x" None flags_eom in
  (_decode_header header 0 th0 None
   = (Raise (AssertionError "Header checksum mismatch!"), None)
   <-> md5 (take HEADER_SIZE header) <> drop HEADER_SIZE header)
  /\ (is_Ok (fst (_decode_header header 0 th0 None)) = true
      <-> md5 (take HEADER_SIZE header) = drop HEADER_SIZE header)
  /\ (md5 (take HEADER_SIZE header) = drop HEADER_SIZE header ->
      exists uid,
        _decode_header header 0 th0 None
        = (Ok (uid,
               ChunkFlags_decode (unpack_be (take 8 (drop 32 header))),
               unpack_be (take 2 (drop 40 header)),
               unpack_be (take 4 (drop 42 header))), None)
        /\ Uid_bytes uid = take 32 header /\ Uid_wf uid).
Proof.
  apply (decode_header_integrity (frame_header uid_1_5 "x" None flags_eom) 0 th0 None).
  vm_compute. reflexivity.
Defined.

(** ** Chunker *)

Lemma split_data_from_spec (fuel : nat) (data : pybytes) (size start : nat) :
  (1 <= size)%nat -> (start <= length data)%nat -> (length data - start < fuel)%nat ->
  exists parts,
    split_data_from fuel data size start = Some parts
    /\ concat parts = drop start data
    /\ Forall (fun c => c <> [] /\ (length c <= size)%nat) parts.
Proof.
  revert start. induction fuel as [|fuel IH]; intros start Hs Hle Hf; [lia|].
  cbn [split_data_from].
  destruct (start <? length data)%nat eqn:E.
  - apply Nat.ltb_lt in E.
    set (end_ := Nat.min (start + size) (length data)).
    assert (He : (start < end_ <= length data)%nat) by (unfold end_; lia).
    destruct (IH end_) as (rest & -> & Hc & Hall); [lia | lia | lia |].
    eexists. split; [reflexivity|]. split.
    + cbn [concat]. rewrite Hc.
      replace end_ with (start + (end_ - start))%nat at 2 by lia.
      rewrite <- drop_drop. apply take_drop.
    + constructor; [|exact Hall]. split.
      * intros Hnil. apply (f_equal length) in Hnil.
        rewrite length_take, length_drop in Hnil. simpl in Hnil. lia.
      * rewrite length_take, length_drop. unfold end_. lia.
  - apply Nat.ltb_ge in E. exists []. split; [reflexivity|]. split; [|constructor].
    rewrite drop_ge by lia. reflexivity.
Qed.

(** For a size of at least one the generator ends, and its slices, none of
    them empty and none longer than the size, make up the data. *)
Lemma split_data_total (data : pybytes) (size : nat) :
  (1 <= size)%nat ->
  exists parts,
    split_data data size = Some parts
    /\ concat parts = data
    /\ Forall (fun c => c <> [] /\ (length c <= size)%nat) parts.
Proof.
  intros Hs. destruct (split_data_from_spec (S (length data)) data size 0)
    as (parts & H & Hc & Ha); try lia.
  exists parts. rewrite drop_0 in Hc. auto.
Qed.

Lemma split_data_empty (size : nat) : split_data [] size = Some [].
Proof. reflexivity. Qed.

(** With a size of zero the loop never ends on data that is not empty. *)
Lemma split_data_from_zero (fuel : nat) (data : pybytes) :
  data <> [] -> split_data_from fuel data 0 0 = None.
Proof.
  intros Hd. induction fuel as [|fuel IH]; [reflexivity|].
  cbn [split_data_from]. destruct data as [|b r]; [congruence|].
  cbn [length Nat.ltb Nat.leb Nat.add Nat.min]. rewrite IH. reflexivity.
Qed.

(** ** Dictionaries keyed by uids *)

Lemma Uid_eq_refl (u : Uid) : Uid_eq u u = negb (f64_is_nan (Uid_time u)).
Proof.
  unfold Uid_eq. rewrite f64_eqb_refl, !Z.eqb_refl, !andb_true_r. reflexivity.
Qed.

(** A uid whose timestamp is not a NaN matches itself. *)
Lemma Uid_key_eqb_refl (u : Uid) :
  f64_is_nan (Uid_time u) = false -> Uid_key_eqb u u = true.
Proof.
  intros H. unfold Uid_key_eqb. rewrite bool_decide_eq_true_2 by reflexivity.
  rewrite Uid_eq_refl, H. reflexivity.
Qed.

(** A uid whose timestamp is a NaN matches no uid. *)
Lemma Uid_key_eqb_nan (k u : Uid) :
  f64_is_nan (Uid_time u) = true -> Uid_key_eqb k u = false.
Proof.
  intros H. unfold Uid_key_eqb, Uid_eq, f64_eqb. rewrite H.
  rewrite andb_false_r. cbn [andb]. apply andb_false_r.
Qed.

Section UidDict.
Context {V : Type}.
Implicit Types (d : uid_dict V) (u : Uid) (v : V).

Lemma uid_dict_lookup_empty u : (∅ : uid_dict V) !! u = None.
Proof. reflexivity. Qed.

Lemma uid_dict_delete_empty u : delete u (∅ : uid_dict V) = ∅.
Proof. reflexivity. Qed.

Lemma uid_dict_lookup_nan u d : f64_is_nan (Uid_time u) = true -> d !! u = None.
Proof.
  intros H. induction d as [|[k v] d IH]; [reflexivity|].
  change (((k, v) :: d) !! u) with (if Uid_key_eqb k u then Some v else d !! u).
  rewrite (Uid_key_eqb_nan k u H). exact IH.
Qed.

Lemma uid_dict_insert_None u v d : d !! u = None -> <[u := v]> d = d ++ [(u, v)].
Proof.
  intros H. change (<[u := v]> d) with (uid_dict_set u v d). unfold uid_dict_set.
  change (uid_dict_get u d) with (d !! u). rewrite H. reflexivity.
Qed.

Lemma uid_dict_insert_Some u v w d :
  d !! u = Some w -> <[u := v]> d = uid_dict_alter (fun _ => v) u d.
Proof.
  intros H. change (<[u := v]> d) with (uid_dict_set u v d). unfold uid_dict_set.
  change (uid_dict_get u d) with (d !! u). rewrite H. reflexivity.
Qed.

Lemma uid_dict_alter_Some (f : V -> V) u w d :
  d !! u = Some w -> uid_dict_alter f u d = <[u := f w]> d.
Proof.
  intros H. rewrite (uid_dict_insert_Some _ _ w) by exact H.
  induction d as [|[k v] d IH]; [discriminate H|].
  change (((k, v) :: d) !! u) with (if Uid_key_eqb k u then Some v else d !! u) in H.
  cbn [uid_dict_alter]. destruct (Uid_key_eqb k u).
  - injection H as ->. reflexivity.
  - rewrite IH by exact H. reflexivity.
Qed.

Lemma uid_dict_lookup_app_None u v d :
  d !! u = None -> (d ++ [(u, v)]) !! u = if Uid_key_eqb u u then Some v else None.
Proof.
  induction d as [|[k w] d IH]; intros H; [reflexivity|].
  change (((k, w) :: d) !! u) with (if Uid_key_eqb k u then Some w else d !! u) in H.
  change ((((k, w) :: d) ++ [(u, v)]) !! u)
    with (if Uid_key_eqb k u then Some w else (d ++ [(u, v)]) !! u).
  destruct (Uid_key_eqb k u); [discriminate H | apply IH, H].
Qed.

Lemma uid_dict_lookup_alter (f : V -> V) u d : uid_dict_alter f u d !! u = f <$> d !! u.
Proof.
  induction d as [|[k w] d IH]; [reflexivity|].
  change (((k, w) :: d) !! u) with (if Uid_key_eqb k u then Some w else d !! u).
  cbn [uid_dict_alter]. destruct (Uid_key_eqb k u) eqn:E.
  - change (((k, f w) :: d) !! u) with (if Uid_key_eqb k u then Some (f w) else d !! u).
    rewrite E. reflexivity.
  - change (((k, w) :: uid_dict_alter f u d) !! u)
      with (if Uid_key_eqb k u then Some w else uid_dict_alter f u d !! u).
    rewrite E. exact IH.
Qed.

(** What was stored under a uid that matches itself is found under it. *)
Lemma uid_dict_lookup_insert_eq u v d :
  Uid_key_eqb u u = true -> <[u := v]> d !! u = Some v.
Proof.
  intros Hu. destruct (d !! u) as [w|] eqn:E.
  - rewrite (uid_dict_insert_Some _ _ w) by exact E.
    rewrite uid_dict_lookup_alter, E. reflexivity.
  - rewrite uid_dict_insert_None by exact E.
    rewrite uid_dict_lookup_app_None by exact E. rewrite Hu. reflexivity.
Qed.

Lemma uid_dict_alter_alter (f g : V -> V) u d :
  uid_dict_alter g u (uid_dict_alter f u d) = uid_dict_alter (fun x => g (f x)) u d.
Proof.
  induction d as [|[k w] d IH]; [reflexivity|].
  cbn [uid_dict_alter]. destruct (Uid_key_eqb k u) eqn:E; cbn [uid_dict_alter]; rewrite E.
  - reflexivity.
  - rewrite IH. reflexivity.
Qed.

Lemma uid_dict_alter_app_None (f : V -> V) u v d :
  d !! u = None -> Uid_key_eqb u u = true ->
  uid_dict_alter f u (d ++ [(u, v)]) = d ++ [(u, f v)].
Proof.
  intros H Hu. induction d as [|[k w] d IH].
  - cbn [app uid_dict_alter]. rewrite Hu. reflexivity.
  - change (((k, w) :: d) !! u) with (if Uid_key_eqb k u then Some w else d !! u) in H.
    cbn [app uid_dict_alter]. destruct (Uid_key_eqb k u); [discriminate H|].
    rewrite IH by exact H. reflexivity.
Qed.

Lemma uid_dict_insert_insert_eq u v v' d :
  Uid_key_eqb u u = true -> <[u := v']> (<[u := v]> d) = <[u := v']> d.
Proof.
  intros Hu.
  rewrite (uid_dict_insert_Some u v' v (<[u := v]> d))
    by (apply uid_dict_lookup_insert_eq, Hu).
  destruct (d !! u) as [w|] eqn:E.
  - rewrite !(uid_dict_insert_Some _ _ w) by exact E. apply uid_dict_alter_alter.
  - rewrite !uid_dict_insert_None by exact E. apply uid_dict_alter_app_None; assumption.
Qed.

Lemma uid_dict_delete_alter (f : V -> V) u d :
  delete u (uid_dict_alter f u d) = delete u d.
Proof.
  change (uid_dict_del u (uid_dict_alter f u d) = uid_dict_del u d).
  induction d as [|[k w] d IH]; [reflexivity|].
  cbn [uid_dict_alter uid_dict_del]. destruct (Uid_key_eqb k u) eqn:E;
    cbn [uid_dict_del]; rewrite E; [reflexivity | rewrite IH; reflexivity].
Qed.

Lemma uid_dict_delete_None u d : d !! u = None -> delete u d = d.
Proof.
  change (uid_dict_get u d = None -> uid_dict_del u d = d).
  induction d as [|[k w] d IH]; [reflexivity|].
  cbn [uid_dict_get uid_dict_del]. destruct (Uid_key_eqb k u); [discriminate|].
  intros H. rewrite IH by exact H. reflexivity.
Qed.

Lemma uid_dict_delete_app_None u v d :
  d !! u = None -> Uid_key_eqb u u = true -> delete u (d ++ [(u, v)]) = d.
Proof.
  change (uid_dict_get u d = None -> Uid_key_eqb u u = true ->
          uid_dict_del u (d ++ [(u, v)]) = d).
  intros H Hu. induction d as [|[k w] d IH].
  - cbn [app uid_dict_del]. rewrite Hu. reflexivity.
  - cbn [uid_dict_get] in H. cbn [app uid_dict_del].
    destruct (Uid_key_eqb k u); [discriminate H|]. rewrite IH by exact H. reflexivity.
Qed.

Lemma uid_dict_delete_insert_eq u v d :
  Uid_key_eqb u u = true -> delete u (<[u := v]> d) = delete u d.
Proof.
  intros Hu. destruct (d !! u) as [w|] eqn:E.
  - rewrite (uid_dict_insert_Some _ _ w) by exact E. apply uid_dict_delete_alter.
  - rewrite uid_dict_insert_None by exact E.
    rewrite uid_dict_delete_app_None by assumption.
    symmetry. apply uid_dict_delete_None, E.
Qed.

(** The items keep their keys and their order when a value is changed. *)
Lemma uid_dict_alter_keys (f : V -> V) u d : map fst (uid_dict_alter f u d) = map fst d.
Proof.
  induction d as [|[k w] d IH]; [reflexivity|].
  cbn [uid_dict_alter]. destruct (Uid_key_eqb k u); cbn [map fst]; [|rewrite IH]; reflexivity.
Qed.

End UidDict.

(** ** The endpoint: steps of the reader *)

Ltac norm_process :=
  cbv beta iota delta [set_io_send set_io_receive set_reader set_buffer
                       set_acknowledgements set_clock set_uid_counter];
  cbn [io_send io_receive reader reader_end buffer acknowledgements clock
       uid_counter current_thread].

Ltac run_M := norm_process.

Section ChannelFacts.
Context {Env : Environment}.

Lemma bind_Ok {A B} (c : M A) (k : A -> M B) (p p' : process) (a : A) :
  c p = (Ok a, p') -> bind c k p = k a p'.
Proof. unfold bind. intros ->. reflexivity. Qed.

Lemma bind_Raise {A B} (c : M A) (k : A -> M B) (p p' : process) (e : exn) :
  c p = (Raise e, p') -> bind c k p = (Raise e, p').
Proof. unfold bind. intros ->. reflexivity. Qed.

Lemma readexactly_app (a rest : pybytes) (n : nat) (p : process) :
  reader p = a ++ rest -> length a = n ->
  readexactly n p = (Ok a, set_reader rest p).
Proof.
  intros Hr Hn. unfold readexactly. rewrite Hr, length_app, Hn.
  replace (n <=? n + length rest)%nat with true by (symmetry; apply Nat.leb_le; lia).
  rewrite <- Hn, take_app_length, drop_app_length. reflexivity.
Qed.

Lemma readexactly_short (n : nat) (p : process) :
  (length (reader p) < n)%nat ->
  readexactly n p
  = (Raise match reader_end p with
           | EndOfFile => IncompleteReadError
           | Cancellation => CancelledError
           end, set_reader [] p).
Proof.
  intros H. unfold readexactly.
  replace (n <=? length (reader p))%nat with false by (symmetry; apply Nat.leb_gt; lia).
  reflexivity.
Qed.

(** What [readexactly(n)] returns has [n] bytes: the reader loop hands
    [HEADER_SIZE + 16] bytes to [_decode_header]. *)
Lemma readexactly_length (n : nat) (p p' : process) (a : pybytes) :
  readexactly n p = (Ok a, p') -> length a = n.
Proof.
  unfold readexactly. destruct (n <=? length (reader p))%nat eqn:E; [|discriminate].
  apply Nat.leb_le in E. intros H. injection H as <- _. rewrite length_take. lia.
Qed.

Lemma set_uid_counter_same (p : process) : set_uid_counter (uid_counter p) p = p.
Proof. destruct p; reflexivity. Qed.

Lemma decode_header_encoded (uid : Uid) (channel_name : option string)
    (data : option pybytes) (flags : ChunkFlags) (h : pybytes) (p : process) :
  Uid_wf uid ->
  _encode_header uid channel_name data flags = Ok h ->
  decode_header h p
  = (Ok (uid, flags, channel_name_length_of channel_name, data_length_of data), p).
Proof.
  intros Hwf He. unfold decode_header.
  rewrite (decode_encode_header _ _ _ _ _ _ _ _ Hwf He).
  rewrite set_uid_counter_same. reflexivity.
Qed.

Lemma bytes_decode_encode (s : string) :
  utf8_valid (str_encode s) = true -> bytes_decode (str_encode s) = Ok s.
Proof.
  intros H. unfold bytes_decode. rewrite H. unfold str_encode.
  rewrite String.string_of_list_byte_of_string. reflexivity.
Qed.

Lemma truthy_true {A} (l : list A) : l <> [] -> truthy l = true.
Proof. destruct l; [congruence | reflexivity]. Qed.

Lemma channel_name_length_of_Some (name : string) :
  str_encode name <> [] ->
  channel_name_length_of (Some name) = Z.of_nat (length (str_encode name))
  /\ (channel_name_length_of (Some name) =? 0) = false.
Proof.
  intros H. unfold channel_name_length_of. rewrite (truthy_true _ H). split; [reflexivity|].
  apply Z.eqb_neq. destruct (str_encode name); [congruence | simpl; lia].
Qed.

Lemma data_length_of_Some (d : pybytes) :
  d <> [] ->
  data_length_of (Some d) = Z.of_nat (length d) /\ (data_length_of (Some d) =? 0) = false.
Proof.
  intros H. unfold data_length_of. rewrite (truthy_true _ H). split; [reflexivity|].
  apply Z.eqb_neq. destruct d; [congruence | simpl; lia].
Qed.

(** The acknowledgement header can always be built. *)
Lemma encode_header_ack (uid : Uid) :
  exists h, _encode_header uid None None flags_ack = Ok h.
Proof. unfold _encode_header, pack_header. cbn. eauto. Qed.

Lemma readexactly_mk (a rest : pybytes) (n : nat) (s : list out_item)
    (r : gmap string (list value)) (e : stream_end) (buf : uid_dict pybytes)
    (acks : uid_dict (future (Uid * Z))) (k : nat) (l : option uid_local) (th : thread) :
  length a = n ->
  readexactly n (mkProcess s r (a ++ rest) e buf acks k l th)
  = (Ok a, mkProcess s r rest e buf acks k l th).
Proof. intros H. erewrite readexactly_app; [reflexivity | reflexivity | exact H]. Qed.

(** One frame that carries data: its payload (decompressed when the flag
    says so) is appended to the entry of the uid, which is made first when
    it is missing; nothing is delivered and nothing else changes. *)
Lemma receive_data_frame (uid : Uid) (name : string) (wire part rest header : pybytes)
    (c : bool) (s : list out_item) (r : gmap string (list value)) (e : stream_end)
    (buf : uid_dict pybytes) (acks : uid_dict (future (Uid * Z))) (k : nat)
    (l : option uid_local) (th : thread) :
  Uid_wf uid ->
  str_encode name <> [] -> utf8_valid (str_encode name) = true ->
  wire <> [] ->
  (if c then zlib_decompress wire else Ok wire) = Ok part ->
  _encode_header uid (Some name) (Some wire)
    {| eom := false; send_ack := false; recv_ack := false; compression := c |} = Ok header ->
  _receive_single_message
    (mkProcess s r (header ++ str_encode name ++ wire ++ rest) e buf acks k l th)
  = (Ok tt,
     mkProcess s r rest e (<[uid := default [] (buf !! uid) ++ part]> buf) acks k l th).
Proof.
  intros Hwf Hn Hu Hw Hz He.
  destruct (channel_name_length_of_Some name Hn) as [Hc Hc0].
  destruct (data_length_of_Some wire Hw) as [Hd Hd0].
  unfold _receive_single_message, bind.
  rewrite readexactly_mk by apply (length_encode_header _ _ _ _ _ He). run_M.
  rewrite (decode_header_encoded _ _ _ _ _ _ Hwf He). run_M.
  rewrite Hc0, Hd0. run_M.
  rewrite readexactly_mk by (rewrite Hc; lia). run_M.
  unfold lift, ret. rewrite (bytes_decode_encode _ Hu). run_M.
  cbn [eom send_ack recv_ack compression].
  assert (Hpart : (if c then zlib_decompress wire else Ok wire) = Ok part) by exact Hz.
  destruct (buf !! uid) as [d|] eqn:Eb; run_M.
  - rewrite readexactly_mk by (rewrite Hd; lia). run_M.
    destruct c; [rewrite Hz | injection Hz as ->]; run_M;
      cbn [own_alter default from_option]; unfold id;
      rewrite (uid_dict_alter_Some _ _ d) by exact Eb; reflexivity.
  - rewrite uid_dict_insert_None by exact Eb.
    rewrite readexactly_mk by (rewrite Hd; lia). run_M.
    destruct c; [rewrite Hz | injection Hz as ->]; run_M;
      cbn [own_alter default from_option]; unfold id;
      rewrite last_snoc, removelast_last, uid_dict_insert_None by exact Eb; reflexivity.
Qed.


Lemma data_length_of_None : data_length_of None = 0.
Proof. reflexivity. Qed.

(** The frame that ends a message on a channel: the accumulated bytes of
    the uid are decoded, the value is put on the queue of the channel and
    the entry is removed; when the sender asked for it, an acknowledgement
    is put on the outgoing queue first. *)
Lemma receive_eom_frame (uid : Uid) (name : string) (rest header ackh data : pybytes)
    (ack : bool) (msg : value) (s : list out_item) (r : gmap string (list value))
    (e : stream_end) (buf : uid_dict pybytes) (acks : uid_dict (future (Uid * Z)))
    (k : nat) (l : option uid_local) (th : thread) :
  Uid_wf uid ->
  str_encode name <> [] -> utf8_valid (str_encode name) = true ->
  _encode_header uid (Some name) None
    {| eom := true; send_ack := ack; recv_ack := false; compression := false |} = Ok header ->
  _encode_header uid None None flags_ack = Ok ackh ->
  buf !! uid = Some data ->
  decode data = Ok msg ->
  _receive_single_message (mkProcess s r (header ++ str_encode name ++ rest) e buf acks k l th)
  = (Ok tt,
     mkProcess (s ++ if ack then [Bytes ackh] else [])
       (<[name := default [] (r !! name) ++ [msg]]> r)
       rest e (delete uid buf) acks k l th).
Proof.
  intros Hwf Hn Hu He Ha Hb Hm.
  destruct (channel_name_length_of_Some name Hn) as [Hc Hc0].
  unfold _receive_single_message, bind.
  rewrite readexactly_mk by apply (length_encode_header _ _ _ _ _ He). run_M.
  rewrite (decode_header_encoded _ _ _ _ _ _ Hwf He). run_M.
  rewrite Hc0, data_length_of_None. run_M.
  rewrite readexactly_mk by (rewrite Hc; lia). run_M.
  unfold lift, ret. rewrite (bytes_decode_encode _ Hu). run_M.
  cbn [eom send_ack recv_ack compression Z.eqb].
  unfold _send_ack, bind, lift, put_outgoing, put_incoming.
  destruct ack; run_M.
  - rewrite Ha. run_M. cbn [own_get own_del]. rewrite Hb, Hm. run_M.
    destruct (acks !! uid); rewrite ?app_nil_r; reflexivity.
  - cbn [own_get own_del]. rewrite Hb, Hm. run_M.
    destruct (acks !! uid); rewrite ?app_nil_r; reflexivity.
Qed.

(** The same frame when no data came for the uid: nothing is delivered. *)
Lemma receive_eom_frame_alone (uid : Uid) (name : string) (rest header ackh : pybytes)
    (ack : bool) (s : list out_item) (r : gmap string (list value))
    (e : stream_end) (buf : uid_dict pybytes) (acks : uid_dict (future (Uid * Z)))
    (k : nat) (l : option uid_local) (th : thread) :
  Uid_wf uid ->
  str_encode name <> [] -> utf8_valid (str_encode name) = true ->
  _encode_header uid (Some name) None
    {| eom := true; send_ack := ack; recv_ack := false; compression := false |} = Ok header ->
  _encode_header uid None None flags_ack = Ok ackh ->
  buf !! uid = None ->
  _receive_single_message (mkProcess s r (header ++ str_encode name ++ rest) e buf acks k l th)
  = (Ok tt, mkProcess (s ++ if ack then [Bytes ackh] else []) r rest e buf acks k l th).
Proof.
  intros Hwf Hn Hu He Ha Hb.
  destruct (channel_name_length_of_Some name Hn) as [Hc Hc0].
  unfold _receive_single_message, bind.
  rewrite readexactly_mk by apply (length_encode_header _ _ _ _ _ He). run_M.
  rewrite (decode_header_encoded _ _ _ _ _ _ Hwf He). run_M.
  rewrite Hc0, data_length_of_None. run_M.
  rewrite readexactly_mk by (rewrite Hc; lia). run_M.
  unfold lift, ret. rewrite (bytes_decode_encode _ Hu). run_M.
  cbn [eom send_ack recv_ack compression Z.eqb].
  unfold _send_ack, bind, lift, put_outgoing, put_incoming.
  destruct ack; run_M.
  - rewrite Ha. run_M. cbn [own_get]. rewrite Hb. run_M.
    destruct (acks !! uid); rewrite ?app_nil_r; reflexivity.
  - cbn [own_get]. rewrite Hb. run_M.
    destruct (acks !! uid); rewrite ?app_nil_r; reflexivity.
Qed.


End ChannelFacts.

Section RoundTrip.
Context {Env : Environment} {Laws : EnvironmentLaws Env}.

Lemma send_parts_Ok (uid : Uid) (name : string) (compress : Z) (parts : list pybytes)
    (p p' : process) :
  send_parts uid name compress parts p = (Ok tt, p') ->
  exists items,
    Forall2 (data_item uid name compress) parts items
    /\ p' = set_io_send (io_send p ++ items) p.
Proof.
  revert p. induction parts as [|part parts IH]; intros p H.
  - cbn in H. inversion H; subst. exists []. split; [constructor|].
    rewrite app_nil_r. destruct p'; reflexivity.
  - cbn [send_parts] in H. unfold bind in H.
    destruct ((if compress =? 0 then ret part else lift (zlib_compress part compress)) p)
      as [[wire|e] p1] eqn:Ew; [|discriminate H].
    assert (Hw : (if compress =? 0 then Ok part else zlib_compress part compress) = Ok wire
                 /\ p1 = p).
    { destruct (compress =? 0); unfold ret, lift in Ew; inversion Ew; auto. }
    destruct Hw as [Hw ->].
    unfold lift at 1 in H.
    destruct (_encode_header uid (Some name) (Some wire) _) as [header|e] eqn:Eh;
      [|discriminate H].
    unfold put_outgoing at 1 in H.
    apply IH in H as (items & HF & ->).
    exists (Tuple [header; str_encode name; wire] :: items). split.
    + constructor; [|exact HF]. exists wire, header. auto.
    + destruct p; unfold set_io_send; cbn. rewrite <- app_assoc. reflexivity.
Qed.

Lemma receive_loop_Ok (fuel : nat) (p p' : process) :
  _receive_single_message p = (Ok tt, p') ->
  _receive_loop (S fuel) p = _receive_loop fuel p'.
Proof. intros H. cbn [_receive_loop]. rewrite H. reflexivity. Qed.

Lemma receive_loop_end (fuel : nat) (s : list out_item) (r : gmap string (list value))
    (rd : pybytes) (e : stream_end) (buf : uid_dict pybytes)
    (acks : uid_dict (future (Uid * Z))) (k : nat) (l : option uid_local) (th : thread) :
  (length rd < HEADER_SIZE + 16)%nat ->
  _receive_loop (S fuel) (mkProcess s r rd e buf acks k l th)
  = Some (Ok tt, mkProcess s r [] e buf acks k l th).
Proof.
  intros H. cbn [_receive_loop]. unfold _receive_single_message, bind.
  rewrite readexactly_short by exact H. run_M. destruct e; reflexivity.
Qed.

Lemma written_data_item (header name wire : pybytes) (items : list out_item) (rest : pybytes) :
  concat (map written (Tuple [header; name; wire] :: items)) ++ rest
  = header ++ name ++ wire ++ concat (map written items) ++ rest.
Proof. cbn. rewrite app_nil_r, <- !app_assoc. reflexivity. Qed.

(** The frames of the parts, read one after the other, leave the bytes of
    the parts, in order, in the entry of the uid. *)
Lemma receive_data_items (uid : Uid) (name : string) (compress : Z)
    (parts : list pybytes) (items : list out_item) :
  Uid_wf uid -> Uid_key_eqb uid uid = true ->
  str_encode name <> [] -> utf8_valid (str_encode name) = true ->
  Forall (fun c => c <> []) parts ->
  Forall2 (data_item uid name compress) parts items ->
  forall (fuel : nat) (rest : pybytes) (s : list out_item) (r : gmap string (list value))
         (e : stream_end) (buf : uid_dict pybytes) (acks : uid_dict (future (Uid * Z)))
         (k : nat) (l : option uid_local) (th : thread),
    _receive_loop (length items + fuel)
      (mkProcess s r (concat (map written items) ++ rest) e buf acks k l th)
    = _receive_loop fuel (mkProcess s r rest e (buffer_after buf uid parts) acks k l th).
Proof.
  intros Hwf Hk Hn Hu Hne HF. induction HF as [|part item parts items Hd HF IH];
    intros fuel rest s r e buf acks k l th.
  - reflexivity.
  - destruct Hd as (wire & header & Hw & Hh & ->).
    apply Forall_cons in Hne as [Hp Hne].
    rewrite written_data_item. cbn [length Nat.add].
    assert (Hwire : wire <> [] /\
              (if negb (compress =? 0) then zlib_decompress wire else Ok wire) = Ok part).
    { destruct (compress =? 0); cbn [negb].
      - inversion Hw; subst. auto.
      - split; [eapply zlib_not_empty, Hw | eapply zlib_roundtrip, Hw]. }
    destruct Hwire as [Hw0 Hz].
    erewrite receive_loop_Ok
      by (apply (receive_data_frame uid name wire part _ header (negb (compress =? 0)));
          assumption).
    rewrite IH by exact Hne.
    f_equal. f_equal.
    unfold buffer_after. destruct parts as [|part2 parts].
    + cbn [concat]. rewrite app_nil_r. reflexivity.
    + rewrite uid_dict_lookup_insert_eq, uid_dict_insert_insert_eq by exact Hk.
      cbn [default from_option concat]. unfold id.
      rewrite <- app_assoc. reflexivity.
Qed.

(** The same for any uid, a NaN as timestamp included: the frames of the
    parts are read and change the buffer only. *)
Lemma receive_data_items_any (uid : Uid) (name : string) (compress : Z)
    (parts : list pybytes) (items : list out_item) :
  Uid_wf uid ->
  str_encode name <> [] -> utf8_valid (str_encode name) = true ->
  Forall (fun c => c <> []) parts ->
  Forall2 (data_item uid name compress) parts items ->
  forall (fuel : nat) (rest : pybytes) (s : list out_item) (r : gmap string (list value))
         (e : stream_end) (buf : uid_dict pybytes) (acks : uid_dict (future (Uid * Z)))
         (k : nat) (l : option uid_local) (th : thread),
    exists buf',
      _receive_loop (length items + fuel)
        (mkProcess s r (concat (map written items) ++ rest) e buf acks k l th)
      = _receive_loop fuel (mkProcess s r rest e buf' acks k l th).
Proof.
  intros Hwf Hn Hu Hne HF. induction HF as [|part item parts items Hd HF IH];
    intros fuel rest s r e buf acks k l th.
  - exists buf. reflexivity.
  - destruct Hd as (wire & header & Hw & Hh & ->).
    apply Forall_cons in Hne as [Hp Hne].
    rewrite written_data_item. cbn [length Nat.add].
    assert (Hwire : wire <> [] /\
              (if negb (compress =? 0) then zlib_decompress wire else Ok wire) = Ok part).
    { destruct (compress =? 0); cbn [negb].
      - inversion Hw; subst. auto.
      - split; [eapply zlib_not_empty, Hw | eapply zlib_roundtrip, Hw]. }
    destruct Hwire as [Hw0 Hz].
    erewrite receive_loop_Ok
      by (apply (receive_data_frame uid name wire part _ header (negb (compress =? 0)));
          assumption).
    apply IH, Hne.
Qed.

Lemma length_written_data_items (uid : Uid) (name : string) (compress : Z)
    (parts : list pybytes) (items : list out_item) :
  Forall2 (data_item uid name compress) parts items ->
  (length items <= length (concat (map written items)))%nat.
Proof.
  induction 1 as [|part item parts items Hd HF IH]; [reflexivity|].
  destruct Hd as (wire & header & _ & Hh & ->).
  cbn [map concat written length]. rewrite !length_app.
  rewrite (length_encode_header _ _ _ _ _ Hh). cbn [length] in *. lia.
Qed.


Lemma Uid_new_Ok (p p1 : process) (uid : Uid) :
  Uid_new p = (Ok uid, p1) ->
  Uid_wf uid /\ Uid_time uid = time_time (clock p)
  /\ exists l, p1 = mkProcess (io_send p) (io_receive p) (reader p) (reader_end p)
                    (buffer p) (acknowledgements p) (S (clock p)) l (current_thread p).
Proof.
  unfold Uid_new.
  destruct (Uid_init None None None None None (time_time (clock p)) (current_thread p)
              (uid_counter p)) as [r l] eqn:E.
  intros H. inversion H; subst; clear H.
  apply Uid_init_create_wf in E as [Hwf Ht]; [|apply time_is_float].
  split; [exact Hwf|]. split; [exact Ht|]. exists l. destruct p; reflexivity.
Qed.

(** What a call of [Channel.send] that gets through has done: one item on
    the outgoing queue for every part, one more for the header that ends
    the message, and, when an acknowledgement is asked for, a pending
    future stored under the uid of the message. *)
Lemma Channel_send_Ok (name : string) (chunk_size : nat) (data : value) (ack : bool)
    (compress : Z) (p p' : process) (outcome : send_outcome) (payload : pybytes) :
  encode data = Ok payload ->
  Channel_send name chunk_size data ack compress p = Some (Ok outcome, p') ->
  exists uid parts items header l,
    Uid_wf uid /\ Uid_time uid = time_time (clock p)
    /\ split_data payload chunk_size = Some parts
    /\ Forall2 (data_item uid name compress) parts items
    /\ _encode_header uid (Some name) None
         {| eom := true; send_ack := ack; recv_ack := false; compression := false |}
       = Ok header
    /\ outcome = (if ack then AwaitingAck uid else Returned)
    /\ p' = mkProcess (io_send p ++ items ++ [Tuple [header; str_encode name]])
              (io_receive p) (reader p) (reader_end p) (buffer p)
              (if ack then <[uid := Pending]> (acknowledgements p) else acknowledgements p)
              (S (clock p)) l (current_thread p).
Proof.
  intros He. unfold Channel_send. rewrite He.
  destruct (Uid_new p) as [[uid|e] p1] eqn:EU; [|intros H; inversion H].
  apply Uid_new_Ok in EU as (Hwf & Ht & l & ->).
  destruct (split_data payload chunk_size) as [parts|] eqn:Es; [|discriminate].
  unfold bind at 1.
  destruct (send_parts uid name compress parts _) as [[[]|e] p2] eqn:Ep;
    [|intros H; inversion H].
  apply send_parts_Ok in Ep as (items & HF & ->).
  unfold bind, lift, put_outgoing. run_M.
  destruct (_encode_header uid (Some name) None _) as [header|e] eqn:Eh;
    [|intros H; inversion H].
  intros H. exists uid, parts, items, header, l.
  do 5 (split; [first [assumption | reflexivity]|]).
  destruct ack; unfold ret in H; revert H; run_M; intros H; inversion H; subst; clear H;
    rewrite <- app_assoc; split; reflexivity.
Qed.


(** C1, as the code has it.  A message sent with [Channel.send] on a named
    channel, with any chunk size of at least one, compressed or not, and
    read from the stream by the reader loop of the peer: when the encoded
    payload is not empty, the loop appends the parts to the entry of the
    uid, decodes the whole payload on the frame that ends the message, puts
    the value on the queue of the channel and removes the entry; when the
    payload is empty there is no part, and the frame that ends the message
    delivers nothing.  In both cases the acknowledgement is put on the
    outgoing queue when it was asked for. *)
Theorem chunk_roundtrip (name : string) (chunk_size : nat) (data : value) (ack : bool)
    (compress : Z) (p p' : process) (outcome : send_outcome) (payload : pybytes)
    (msg : value) :
  (1 <= chunk_size)%nat ->
  str_encode name <> [] -> utf8_valid (str_encode name) = true ->
  encode data = Ok payload ->
  (payload <> [] -> decode payload = Ok msg) ->
  Channel_send name chunk_size data ack compress p = Some (Ok outcome, p') ->
  exists uid items ackh,
    io_send p' = io_send p ++ items
    /\ _encode_header uid None None flags_ack = Ok ackh
    /\ forall q : process,
         reader q = concat (map written items) ->
         _receive_reader q
         = Some (Ok tt,
                 mkProcess (io_send q ++ if ack then [Bytes ackh] else [])
                   (if truthy payload
                    then <[name := default [] (io_receive q !! name) ++ [msg]]> (io_receive q)
                    else io_receive q)
                   [] (reader_end q) ∅ (acknowledgements q) (clock q)
                   (uid_counter q) (current_thread q)).
Proof.
  intros Hsize Hn Hu He Hdec Hsend.
  destruct (Channel_send_Ok _ _ _ _ _ _ _ _ _ He Hsend)
    as (uid & parts & items & header & l & Hwf & Ht & Es & HF & Hh & _ & ->).
  assert (Hk : Uid_key_eqb uid uid = true)
    by (apply Uid_key_eqb_refl; rewrite Ht; apply time_not_nan).
  destruct (split_data_total payload chunk_size Hsize) as (parts' & Es' & Hc & Hall).
  rewrite Es in Es'. injection Es' as <-.
  assert (Hne : Forall (fun c : pybytes => c <> []) parts)
    by (eapply Forall_impl; [exact Hall | intros c [Hc0 _]; exact Hc0]).
  destruct (encode_header_ack uid) as [ackh Ha].
  exists uid, (items ++ [Tuple [header; str_encode name]]), ackh.
  split; [reflexivity|]. split; [exact Ha|].
  intros [s r rd e buf acks k l' th] Hq. cbn [reader] in Hq. subst rd.
  unfold _receive_reader. run_M.
  rewrite map_app, concat_app. cbn [map written concat]. rewrite app_nil_r.
  pose proof (length_written_data_items _ _ _ _ _ HF) as Hlen.
  pose proof (length_encode_header _ _ _ _ _ Hh) as Hlh.
  set (rd := concat (map written items) ++ header ++ str_encode name ++ []).
  assert (Hfuel : exists m, S (length rd) = (length items + S (S m))%nat).
  { exists (length rd - length items - 1)%nat. unfold rd.
    rewrite HEADER_SIZE_eq in Hlh. rewrite !length_app, Hlh. cbn [length]. lia. }
  destruct Hfuel as [m ->]. unfold rd. clear rd.
  rewrite (receive_data_items uid name compress parts items Hwf Hk Hn Hu Hne HF).
  cbn [io_send io_receive reader_end acknowledgements clock uid_counter current_thread].
  destruct parts as [|part parts].
  - cbn [concat] in Hc. subst payload. cbn [truthy buffer_after].
    erewrite receive_loop_Ok.
    2:{ apply (receive_eom_frame_alone uid name [] header ackh ack);
          [exact Hwf | exact Hn | exact Hu | exact Hh | exact Ha | reflexivity]. }
    apply receive_loop_end. cbn. lia.
  - assert (Hp : payload <> []).
    { apply Forall_cons in Hne as [Hp _]. rewrite <- Hc. cbn [concat].
      destruct part; [congruence | discriminate]. }
    rewrite (truthy_true _ Hp).
    erewrite receive_loop_Ok.
    2:{ apply (receive_eom_frame uid name [] header ackh payload ack msg);
          [exact Hwf | exact Hn | exact Hu | exact Hh | exact Ha | | exact (Hdec Hp)].
        unfold buffer_after. rewrite uid_dict_lookup_insert_eq by exact Hk.
        rewrite uid_dict_lookup_empty.
        cbn [default from_option]. unfold id. cbn [app]. rewrite Hc. reflexivity. }
    unfold buffer_after. rewrite uid_dict_delete_insert_eq by exact Hk.
    rewrite uid_dict_delete_empty.
    apply receive_loop_end. cbn. lia.
Qed.

End RoundTrip.

Section PreservationFacts.
Context {Env : Environment}.

Lemma bind_inv {A B} (c : M A) (k : A -> M B) (p p' : process) (b : B) :
  bind c k p = (Ok b, p') -> exists a p1, c p = (Ok a, p1) /\ k a p1 = (Ok b, p').
Proof.
  unfold bind. destruct (c p) as [[a|e] p1]; [eauto | discriminate].
Qed.

Lemma preserves_ret {A F} (f : process -> F) (a : A) : preserves f (ret a).
Proof. intros p r p' H. inversion H. reflexivity. Qed.

Lemma preserves_lift {A F} (f : process -> F) (x : result A) : preserves f (lift x).
Proof. intros p r p' H. inversion H. reflexivity. Qed.

Lemma preserves_raise {A F} (f : process -> F) (e : exn) : preserves f (@raise _ A e).
Proof. intros p r p' H. inversion H. reflexivity. Qed.

Lemma preserves_bind {A B F} (f : process -> F) (c : M A) (k : A -> M B) :
  preserves f c -> (forall a, preserves f (k a)) -> preserves f (bind c k).
Proof.
  intros Hc Hk p r p' H. unfold bind in H.
  destruct (c p) as [[a|e] p1] eqn:E.
  - rewrite (Hk a _ _ _ H). apply (Hc _ _ _ E).
  - inversion H; subst. apply (Hc _ _ _ E).
Qed.

Lemma preserves_if {A F} (f : process -> F) (b : bool) (c1 c2 : M A) :
  preserves f c1 -> preserves f c2 -> preserves f (if b then c1 else c2).
Proof. destruct b; auto. Qed.

(** The reader of the stream touches the stream only. *)
Lemma readexactly_preserves {F} (f : process -> F) (n : nat) :
  (forall p v, f (set_reader v p) = f p) -> preserves f (readexactly n).
Proof.
  intros Hf p r p' H. unfold readexactly in H.
  destruct (n <=? length (reader p))%nat; inversion H; apply Hf.
Qed.

Lemma set_buffer_preserves {A F} (f : process -> F) (g : process -> uid_dict pybytes) (a : A) :
  (forall p v, f (set_buffer v p) = f p) ->
  preserves f (fun p => (Ok a, set_buffer (g p) p)).
Proof. intros Hf p r p' H. inversion H. apply Hf. Qed.


End PreservationFacts.

Ltac head_of t :=
  lazymatch t with
  | ?f _ => head_of f
  | _ => t
  end.

Ltac pres :=
  cbv beta;
  lazymatch goal with
  | |- preserves _ (ret _) => apply preserves_ret
  | |- preserves _ (lift _) => apply preserves_lift
  | |- preserves _ (bind _ _) => apply preserves_bind; [pres | intros ?; pres]
  | |- preserves _ (if _ then _ else _) => apply preserves_if; pres
  | |- preserves _ (readexactly _) => apply readexactly_preserves; intros [] ?; reflexivity
  | |- preserves ?f (fun _ => _) =>
      let p := fresh "p" in
      let r := fresh "r" in
      let p' := fresh "p'" in
      let H := fresh "H" in
      let X := fresh "X" in
      intros p r p' H; cbv beta in H;
      repeat match type of H with
             | context [match ?x with _ => _ end] => destruct x
             end;
      first [ injection H as <- <-; destruct p; reflexivity
            | match type of H with
              | ?C p = _ => cut (preserves f C); [intros X; exact (X _ _ _ H) | pres]
              end ]
  | |- preserves _ ?c => let h := head_of c in unfold h; pres
  end.

Section Acknowledge.
Context {Env : Environment}.

(** The header of an acknowledgement, byte by byte: the bytes of the uid,
    the flags [eom] and [recv_ack] (bits 0 and 2, the integer 5), a name
    length of zero, a payload length of zero, and the digest of these 46
    bytes. *)
Lemma send_ack_header (uid : Uid) :
  Uid_wf uid ->
  _encode_header uid None None
    {| eom := true; send_ack := false; recv_ack := true; compression := false |}
  = Ok ((Uid_bytes uid ++ pack_be 8 5 ++ pack_be 2 0 ++ pack_be 4 0)
          ++ md5 (Uid_bytes uid ++ pack_be 8 5 ++ pack_be 2 0 ++ pack_be 4 0)).
Proof.
  intros Hwf. unfold _encode_header.
  rewrite pack_header_fits by reflexivity.
  rewrite (pack_s_exact 32 _ (Uid_wf_length uid Hwf)). reflexivity.
Qed.

(** The uid that a header decodes to is well formed. *)
Lemma decode_header_wf (raw : pybytes) (now : Z) (th : thread) (l l' : option uid_local)
    (uid : Uid) (flags : ChunkFlags) (c d : Z) :
  _decode_header raw now th l = (Ok (uid, flags, c, d), l') -> Uid_wf uid.
Proof.
  unfold _decode_header. intros Hdec.
  destruct (bool_decide _); [|discriminate Hdec].
  destruct (unpack_header _) as [[[[ub fe] c0] d0]|] eqn:Eu; [|discriminate Hdec].
  assert (Hub : ub <> []).
  { unfold unpack_header in Eu. destruct (_ =? _)%nat eqn:El; [|discriminate Eu].
    apply Nat.eqb_eq in El.
    injection Eu as <- _ _ _. intros E. apply (f_equal length) in E.
    rewrite length_take, El in E. discriminate E. }
  destruct (Uid_init _ _ _ _ _ _ _ _) as [[u|] l0] eqn:EU; [|discriminate Hdec].
  injection Hdec as -> _ _ _ _. eapply Uid_init_decode_wf; eassumption.
Qed.

(** C9: a frame whose header carries [send_ack].  When the name and the
    payload that the header announces are read from the stream (the bytes
    are there, the name is UTF-8 and the payload decompresses), the reader
    puts exactly one item on the outgoing queue, whether or not what it
    does with the frame afterwards fails, and so does every frame that it
    gets through.  The item is a bare header, with no name and no payload
    after it: the bytes of the uid of the frame, the flags [eom] and
    [recv_ack] and no other, two lengths of zero, and the digest; it
    decodes to the uid of the frame and these flags. *)
Theorem receive_send_ack (p p' : process) (r : result unit) (uid : Uid) (flags : ChunkFlags)
    (channel_name_length data_length : Z) (l : option uid_local) :
  (HEADER_SIZE + 16 <= length (reader p))%nat ->
  _decode_header (take (HEADER_SIZE + 16) (reader p))
    (time_time (clock p)) (current_thread p) (uid_counter p)
  = (Ok (uid, flags, channel_name_length, data_length), l) ->
  send_ack flags = true ->
  _receive_single_message p = (r, p') ->
  r = Ok tt
  \/ ((Z.to_nat channel_name_length + Z.to_nat data_length
       <= length (drop (HEADER_SIZE + 16) (reader p)))%nat
      /\ (channel_name_length <> 0 ->
          utf8_valid (take (Z.to_nat channel_name_length)
                        (drop (HEADER_SIZE + 16) (reader p))) = true)
      /\ (data_length <> 0 -> compression flags = true ->
          is_Ok (zlib_decompress
                   (take (Z.to_nat data_length)
                      (drop (Z.to_nat channel_name_length)
                         (drop (HEADER_SIZE + 16) (reader p))))) = true)) ->
  let fields := Uid_bytes uid ++ pack_be 8 5 ++ pack_be 2 0 ++ pack_be 4 0 in
  let ackh := fields ++ md5 fields in
  io_send p' = io_send p ++ [Bytes ackh]
  /\ length ackh = (HEADER_SIZE + 16)%nat
  /\ forall now th l',
       _decode_header ackh now th l'
       = (Ok (uid,
              {| eom := true; send_ack := false; recv_ack := true; compression := false |},
              0, 0), l').
Proof.
  intros Hlen Hdec Hack H Hcase fields ackh.
  assert (Hwf : Uid_wf uid) by (eapply decode_header_wf, Hdec).
  pose proof (send_ack_header uid Hwf) as Ha. fold fields in Ha. fold ackh in Ha.
  split; [|split].
  2:{ apply (length_encode_header _ _ _ _ _ Ha). }
  2:{ intros now th l'. apply (decode_encode_header _ _ _ _ _ _ _ _ Hwf Ha). }
  change (_encode_header uid None None flags_ack = Ok ackh) in Ha.
  destruct Hcase as [-> | (Hbytes & Hname & Hdata)].
  - (* the frame is gone through *)
    unfold _receive_single_message in H.
    apply bind_inv in H as (raw & p1 & H1 & H).
    unfold readexactly in H1.
    replace (HEADER_SIZE + 16 <=? length (reader p))%nat with true in H1
      by (symmetry; apply Nat.leb_le; exact Hlen).
    injection H1 as <- <-.
    apply bind_inv in H as (fields' & p2 & H2 & H).
    unfold decode_header in H2. revert H2. run_M.
    change (HEADER_SIZE + 16)%nat with 62%nat in Hdec. rewrite Hdec. intros H2.
    injection H2 as <- <-. cbv beta iota in H.
    apply bind_inv in H as (cn & p3 & H3 & H).
    apply bind_inv in H as (u4 & p4 & H4 & H).
    apply bind_inv in H as (u5 & p5 & H5 & H).
    rewrite Hack in H5. unfold _send_ack, bind, lift, put_outgoing in H5.
    rewrite Ha in H5. injection H5 as _ <-.
    assert (E3 : io_send p3 = io_send p).
    { revert H3. match goal with |- ?C ?q = _ -> _ =>
        intros H3; change (io_send p) with (io_send q);
        cut (preserves io_send C); [intros X; exact (X _ _ _ H3) | pres] end. }
    assert (E4 : io_send p4 = io_send p3).
    { revert H4. match goal with |- ?C ?q = _ -> _ =>
        intros H4; cut (preserves io_send C); [intros X; exact (X _ _ _ H4) | pres] end. }
    assert (E5 : io_send p' = io_send p4 ++ [Bytes ackh]).
    { revert H. match goal with |- ?C ?q = _ -> _ =>
        intros H; change (io_send p4 ++ [Bytes ackh]) with (io_send q);
        cut (preserves io_send C); [intros X; exact (X _ _ _ H) | pres] end. }
    rewrite E5, E4, E3. reflexivity.
  - (* the name and the payload are read *)
    destruct p as [s rr rd e buf acks k l0 th].
    cbn [reader clock current_thread uid_counter io_send] in *.
    change (HEADER_SIZE + 16)%nat with 62%nat in *.
    revert H. unfold _receive_single_message, bind at 1.
    unfold readexactly at 1. run_M. change (HEADER_SIZE + 16)%nat with 62%nat.
    replace (62 <=? length rd)%nat with true by (symmetry; apply Nat.leb_le; exact Hlen).
    run_M. unfold bind at 1. unfold decode_header at 1. run_M. rewrite Hdec. run_M.
    set (rest := drop 62 rd) in *.
    (* the name *)
    assert (Hcn : exists cn,
      (if channel_name_length =? 0 then ret None
       else bind (readexactly (Z.to_nat channel_name_length))
              (fun raw => bind (lift (bytes_decode raw)) (fun name => ret (Some name))))
        (mkProcess s rr rest e buf acks k l th)
      = (Ok cn, mkProcess s rr (drop (Z.to_nat channel_name_length) rest) e buf acks k l th)).
    { destruct (channel_name_length =? 0) eqn:Ec.
      - apply Z.eqb_eq in Ec. subst channel_name_length. exists None. reflexivity.
      - apply Z.eqb_neq in Ec. unfold bind, readexactly. run_M.
        replace (Z.to_nat channel_name_length <=? length rest)%nat with true
          by (symmetry; apply Nat.leb_le; lia).
        run_M. unfold lift, bytes_decode. rewrite (Hname Ec). run_M.
        eexists. reflexivity. }
    destruct Hcn as [cn Hcn].
    unfold bind at 1. rewrite Hcn. clear Hcn.
    set (rest2 := drop (Z.to_nat channel_name_length) rest) in *.
    (* the payload *)
    assert (Hd : exists own buf',
      (if data_length =? 0 then ret false
       else
         bind (fun p => match buffer p !! uid with
                        | None => (Ok true, set_buffer (<[uid := []]> (buffer p)) p)
                        | Some _ => (Ok false, p)
                        end)
           (fun own =>
              bind (readexactly (Z.to_nat data_length))
                (fun part =>
                   bind (if compression flags then lift (zlib_decompress part) else ret part)
                     (fun part =>
                        bind (fun p => (Ok tt, set_buffer
                                (own_alter (fun data => data ++ part) own uid (buffer p)) p))
                          (fun _ => ret own)))))
        (mkProcess s rr rest2 e buf acks k l th)
      = (Ok own, mkProcess s rr (drop (Z.to_nat data_length) rest2) e buf' acks k l th)).
    { destruct (data_length =? 0) eqn:Ed.
      - apply Z.eqb_eq in Ed. subst data_length. exists false, buf. reflexivity.
      - apply Z.eqb_neq in Ed. unfold bind.
        assert (Hr : forall b,
          readexactly (Z.to_nat data_length) (mkProcess s rr rest2 e b acks k l th)
          = (Ok (take (Z.to_nat data_length) rest2),
             mkProcess s rr (drop (Z.to_nat data_length) rest2) e b acks k l th)).
        { intros b. unfold readexactly. run_M.
          replace (Z.to_nat data_length <=? length rest2)%nat with true; [reflexivity|].
          symmetry. apply Nat.leb_le. unfold rest2. rewrite length_drop. lia. }
        assert (Hz : exists part,
          (if compression flags then lift (zlib_decompress (take (Z.to_nat data_length) rest2))
           else ret (take (Z.to_nat data_length) rest2))
          = (fun q : process => (Ok part, q))).
        { destruct (compression flags) eqn:Ez.
          - specialize (Hdata Ed eq_refl). fold rest rest2 in Hdata.
            destruct (zlib_decompress _) as [part|]; [|discriminate Hdata].
            exists part. reflexivity.
          - eexists. reflexivity. }
        destruct Hz as [part Hz].
        run_M. destruct (buf !! uid); run_M; rewrite Hr, Hz; run_M;
          eexists; eexists; reflexivity. }
    destruct Hd as (own & buf' & Hd).
    revert Hd. run_M. intros Hd.
    unfold bind at 1. rewrite Hd. clear Hd.
    unfold bind at 1. rewrite Hack. unfold _send_ack, bind at 1, lift. rewrite Ha.
    unfold put_outgoing. run_M.
    intros H.
    match type of H with ?C ?q = _ =>
      change (s ++ [Bytes ackh]) with (io_send q);
      cut (preserves io_send C); [intros X; exact (X _ _ _ H) | pres] end.
Qed.

End Acknowledge.

Lemma env0_laws : EnvironmentLaws env0.
Proof.
  split.
  - intros b level c H. cbn in H. injection H as <-. reflexivity.
  - intros b level c H. cbn in H. injection H as <-. discriminate.
  - intros k. vm_compute. split; [discriminate | reflexivity].
  - intros k. reflexivity.
Qed.

Lemma sent_ok_eq {Env : Environment} (x : option (result send_outcome * process))
    (d : process) :
  sent_ok x = true -> x = Some (Ok (sent_outcome x), sent_process x d).
Proof. destruct x as [[[o|e] p]|]; try discriminate. reflexivity. Qed.

Lemma chunk_roundtrip_witness :
  exists uid items ackh,
    io_send (sent_process sent_123 (process0 env0 [])) = io_send (process0 env0 []) ++ items
    /\ _encode_header uid None None flags_ack = Ok ackh
    /\ forall q : @process env0,
         reader q = concat (map written items) ->
         _receive_reader q
         = Some (Ok tt,
                 mkProcess (io_send q ++ if true then [Bytes ackh] else [])
                   (if truthy payload_123
                    then <["x"%string := default [] (io_receive q !! "x"%string)
                                         ++ [payload_123]]> (io_receive q)
                    else io_receive q)
                   [] (reader_end q) ∅ (acknowledgements q) (clock q)
                   (uid_counter q) (current_thread q)).
Proof.
  apply (@chunk_roundtrip env0 env0_laws "x" 2 payload_123 true 6
           (process0 env0 []) (sent_process sent_123 (process0 env0 []))
           (sent_outcome sent_123) payload_123 payload_123).
  - lia.
  - discriminate.
  - reflexivity.
  - reflexivity.
  - reflexivity.
  - apply sent_ok_eq. vm_compute. reflexivity.
Defined.

(** C1 as stated fails for the empty payload: it is split into no part,
    and the frame that ends the message, read alone by the reader loop,
    names the channel but puts nothing on its queue. *)
Lemma eom_frame_alone_delivers_nothing :
  split_data [] 1 = Some []
  /\ length frame_x_eom = (HEADER_SIZE + 16 + 1)%nat
  /\ delivered (@_receive_reader env0 (process0 env0 frame_x_eom)) "x" = Some [].
Proof. split; [reflexivity|]. split; vm_compute; reflexivity. Qed.

(** The same through [Channel.send]: an object that the codec encodes to
    the empty string puts one item, the frame that ends the message, on
    the outgoing queue, and the peer that reads it has nothing delivered. *)
Example send_empty_payload_delivers_nothing :
  let sent := @Channel_send env0 "x" 1 [] false 0 (process0 env0 []) in
  let stream := concat (map written (io_send (sent_process sent (process0 env0 [])))) in
  sent_ok sent = true
  /\ length (io_send (sent_process sent (process0 env0 []))) = 1%nat
  /\ delivered (@_receive_reader env0 (process0 env0 stream)) "x" = Some [].
Proof. split; [|split]; vm_compute; reflexivity. Qed.

Lemma surjective_pairing_Ok {B} (x : result unit * B) :
  is_Ok (fst x) = true -> x = (Ok tt, snd x).
Proof. destruct x as [[[]|e] b]; [reflexivity | discriminate]. Qed.

Lemma receive_send_ack_witness :
  let p := process_ack_done in
  let fields := Uid_bytes uid_1_5 ++ pack_be 8 5 ++ pack_be 2 0 ++ pack_be 4 0 in
  let ackh := fields ++ md5 fields in
  fst (_receive_single_message p) = Raise InvalidStateError
  /\ io_send (snd (_receive_single_message p)) = io_send p ++ [Bytes ackh]
  /\ length ackh = (HEADER_SIZE + 16)%nat
  /\ forall now th l',
       _decode_header ackh now th l'
       = (Ok (uid_1_5,
              {| eom := true; send_ack := false; recv_ack := true; compression := false |},
              0, 0), l').
Proof.
  split; [vm_compute; reflexivity|].
  apply (@receive_send_ack env0 process_ack_done
           (snd (_receive_single_message process_ack_done))
           (fst (_receive_single_message process_ack_done))
           uid_1_5 flags_send_recv_ack 0 0 None).
  - vm_compute. lia.
  - vm_compute. reflexivity.
  - reflexivity.
  - apply surjective_pairing.
  - right. split; [vm_compute; lia|]. split; intros H; [contradiction|]. contradiction.
Defined.

Section AckFuture.
Context {Env : Environment} {Laws : EnvironmentLaws Env}.


End AckFuture.


(** ** The registry of commands *)

(** C5, as the code has it: the definition of a command class under a
    name that is registered already is not refused.  It returns the new
    class and the table maps the name to it, in the place of the class
    that was there; the other names keep their classes. *)
Theorem register_replaces (name module_name : string) (ex : execute_method)
    (mcs : CommandMeta) (old : class_object) :
  is_Some (base mcs) ->
  commands mcs !! (module_name ++ ":" ++ name)%string = Some old ->
  (class_serial old < classes_defined mcs)%nat ->
  exists cls mcs',
    _CommandMeta___new__ name module_name ex mcs = (cls, mcs')
    /\ cls <> old
    /\ command_name cls = (module_name ++ ":" ++ name)%string
    /\ commands mcs' !! (module_name ++ ":" ++ name)%string = Some cls
    /\ forall k, k <> (module_name ++ ":" ++ name)%string ->
                 commands mcs' !! k = commands mcs !! k.
Proof.
  intros [b Hb] Hold Hser. unfold _CommandMeta___new__. rewrite Hb.
  eexists. eexists. split; [reflexivity|]. split; [|split; [reflexivity|split]].
  - intros E. rewrite <- E in Hser. cbn in Hser. lia.
  - cbn. apply lookup_insert_eq.
  - intros k Hk. cbn. apply lookup_insert_ne. congruence.
Qed.

(** The numbers of the registered classes stay below the count of the
    definitions, which is what tells a new class from the registered ones. *)
Lemma register_serials (name module_name : string) (ex : execute_method)
    (mcs : CommandMeta) :
  (forall k c, commands mcs !! k = Some c -> (class_serial c < classes_defined mcs)%nat) ->
  forall k c,
    commands (snd (_CommandMeta___new__ name module_name ex mcs)) !! k = Some c ->
    (class_serial c < classes_defined (snd (_CommandMeta___new__ name module_name ex mcs)))%nat.
Proof.
  intros H k c. unfold _CommandMeta___new__. destruct (base mcs); cbn.
  - rewrite lookup_insert. case_decide.
    + intros E. injection E as <-. cbn. lia.
    + intros E. apply H in E. lia.
  - intros E. apply H in E. lia.
Qed.

Lemma register_replaces_witness :
  exists cls mcs',
    _CommandMeta___new__ "Echo" "plugin" Command_execute_method
      (snd (_CommandMeta___new__ "Echo" "plugin" Command_execute_method meta_core))
    = (cls, mcs')
    /\ cls <> echo_class
    /\ command_name cls = ("plugin" ++ ":" ++ "Echo")%string
    /\ commands mcs' !! ("plugin" ++ ":" ++ "Echo")%string = Some cls
    /\ forall k, k <> ("plugin" ++ ":" ++ "Echo")%string ->
                 commands mcs' !! k
                 = commands (snd (_CommandMeta___new__ "Echo" "plugin" Command_execute_method
                                    meta_core)) !! k.
Proof.
  apply (register_replaces "Echo" "plugin" Command_execute_method
           (snd (_CommandMeta___new__ "Echo" "plugin" Command_execute_method meta_core))
           echo_class).
  - vm_compute. eauto.
  - vm_compute. reflexivity.
  - vm_compute. lia.
Defined.

(** C5 as stated fails: a class [Echo] of the module [plugin] is defined
    twice; both definitions return a class, and after the second one the
    table holds the second class under ["plugin:Echo"] and the first one
    under no name. *)
Lemma duplicate_registration_accepted :
  let first := _CommandMeta___new__ "Echo" "plugin" Command_execute_method meta_core in
  let second := _CommandMeta___new__ "Echo" "plugin" Command_execute_method (snd first) in
  command_name (fst first) = command_name (fst second)
  /\ fst first <> fst second
  /\ commands (snd first) !! "plugin:Echo"%string = Some (fst first)
  /\ commands (snd second) !! "plugin:Echo"%string = Some (fst second)
  /\ size (commands (snd second)) = size (commands (snd first)).
Proof.
  repeat split; try (vm_compute; reflexivity).
  vm_compute. discriminate.
Qed.

(** ** [execute] *)

Section ExecuteFacts.
Context {Env : Environment} {Msg : Messages Env}.

(** C10: [execute()] on an instance of [Execute] raises [RuntimeError] and
    does nothing else: no instance is made, nothing is put on a queue.  On
    an instance of a class that has the [execute] of [Command] it makes an
    instance of [Execute] around the command and runs its [local()]. *)
Theorem execute_of_Execute_raises (e : Command) (rt : runtime) :
  class_execute (Command_cls e) = Execute_execute_method ->
  execute e rt
  = Some (Raise (RuntimeError
       "Do not invoke `await Execute()` directly, instead use `await Command(**params)`)"),
          rt)
  /\ forall c : Command,
       class_execute (Command_cls c) = Command_execute_method ->
       execute c rt
       = match Command___init__ Execute_class None [] (Some c) rt with
         | (Ok ex, rt') => Execute_local ex rt'
         | (Raise err, rt') => Some (Raise err, rt')
         end.
Proof.
  intros He. split.
  - unfold execute. rewrite He. reflexivity.
  - intros c Hc. unfold execute, Command_execute. rewrite Hc.
    destruct (Command___init__ _ _ _ _ _) as [[ex|err] rt']; reflexivity.
Qed.

End ExecuteFacts.

Lemma execute_of_Execute_raises_witness :
  @execute env0 msg0 execute_0 (runtime0 [] ∅)
  = Some (Raise (RuntimeError
       "Do not invoke `await Execute()` directly, instead use `await Command(**params)`)"),
          runtime0 [] ∅)
  /\ forall c : @Command env0,
       class_execute (Command_cls c) = Command_execute_method ->
       @execute env0 msg0 c (runtime0 [] ∅)
       = match @Command___init__ env0 Execute_class None [] (Some c) (runtime0 [] ∅) with
         | (Ok ex, rt') => @Execute_local env0 msg0 ex rt'
         | (Raise err, rt') => Some (Raise err, rt')
         end.
Proof. apply (@execute_of_Execute_raises env0 msg0 execute_0 (runtime0 [] ∅)). reflexivity. Defined.

(** ** Teardown of the pending commands *)

Section TeardownFacts.
Context {Env : Environment}.

Lemma dict_del_head {V} (key : string) (v : V) (rest : list (string * V)) :
  key ∉ map fst rest -> dict_del key ((key, v) :: rest) = rest.
Proof.
  intros Hk. unfold dict_del. cbn [List.filter fst]. rewrite String.eqb_refl. cbn [negb].
  induction rest as [|[k w] rest IH]; [reflexivity|].
  cbn [List.filter fst]. cbn [map fst] in Hk. apply not_elem_of_cons in Hk as [Hne Hk].
  destruct (String.eqb k key) eqn:E.
  - apply String.eqb_eq in E. congruence.
  - cbn [negb]. f_equal. apply IH, Hk.
Qed.

(** With no command in flight the loop ends at once. *)
Lemma teardown_no_pending (rt : runtime) :
  pending_commands rt = [] -> execute_io_queues_teardown rt = (Ok tt, rt).
Proof. intros H. unfold execute_io_queues_teardown. rewrite H. cbn. rewrite H. reflexivity. Qed.

(** With commands in flight the loop cancels the future of the first
    entry, removes this entry and raises when it asks the iterator for the
    next one: the other entries stay in the table and their futures are
    not touched. *)
Lemma teardown_first_only (rt : runtime) (fqin : string) (fut : nat)
    (rest : list (string * nat)) :
  pending_commands rt = (fqin, fut) :: rest ->
  fqin ∉ map fst rest ->
  execute_io_queues_teardown rt
  = (Raise (RuntimeError "dictionary changed size during iteration"),
     mkRuntime (rt_process rt) (command_instances rt) rest
       (alter future_cancel fut (futures rt)) (import_lock rt)).
Proof.
  intros H Hk. unfold execute_io_queues_teardown. rewrite H.
  cbn [teardown_loop]. rewrite H, Nat.eqb_refl. cbn [negb].
  unfold set_pending_commands, set_futures. cbn [pending_commands futures rt_process
    command_instances import_lock]. rewrite H, dict_del_head by exact Hk.
  destruct rest as [|[k2 f2] rest']; cbn [teardown_loop pending_commands].
  - reflexivity.
  - replace (length ((k2, f2) :: rest') =? length ((fqin, fut) :: (k2, f2) :: rest'))%nat
      with false; [reflexivity|].
    symmetry. apply Nat.eqb_neq. cbn [length]. lia.
Qed.

End TeardownFacts.

(** C4 fails on the code with two commands in flight: the loop cancels
    the future of ["a"], removes its entry and raises [RuntimeError]; the
    entry of ["b"] is still in the table and its future is still pending. *)
Lemma teardown_two_pending :
  let r := @execute_io_queues_teardown env0 two_pending in
  fst r = Raise (RuntimeError "dictionary changed size during iteration")
  /\ pending_commands (snd r) = [("b"%string, 1%nat)]
  /\ futures (snd r) !! 0%nat = Some Cancelled
  /\ futures (snd r) !! 1%nat = Some Pending.
Proof. repeat split; vm_compute; reflexivity. Qed.

(** ** Further properties: the chunker *)

Lemma split_data_from_sizes (fuel : nat) (data : pybytes) (size start : nat) :
  (1 <= size)%nat -> (start <= length data)%nat -> (length data - start < fuel)%nat ->
  exists parts,
    split_data_from fuel data size start = Some parts
    /\ map length parts
       = repeat size ((length data - start) / size)
           ++ (if ((length data - start) mod size =? 0)%nat then []
               else [((length data - start) mod size)%nat]).
Proof.
  revert start. induction fuel as [|fuel IH]; intros start Hs Hle Hf; [lia|].
  cbn [split_data_from].
  destruct (start <? length data)%nat eqn:E.
  - apply Nat.ltb_lt in E.
    set (end_ := Nat.min (start + size) (length data)).
    destruct (IH end_) as (rest & -> & Hl); [lia | unfold end_; lia | unfold end_; lia |].
    eexists. split; [reflexivity|]. cbn [map]. rewrite Hl, length_take, length_drop.
    destruct (Nat.le_gt_cases (start + size) (length data)) as [Hfull|Hlast].
    + replace end_ with (start + size)%nat by (unfold end_; lia).
      assert (Hn : (length data - start = (length data - (start + size)) + 1 * size)%nat)
        by lia.
      set (n' := (length data - (start + size))%nat) in *. rewrite Hn.
      rewrite Nat.div_add, Nat.Div0.mod_add by lia.
      rewrite (Nat.add_comm _ 1). cbn [repeat Nat.add app]. f_equal. lia.
    + replace end_ with (length data) by (unfold end_; lia).
      rewrite Nat.sub_diag, Nat.Div0.div_0_l, Nat.Div0.mod_0_l. cbn [repeat app Nat.eqb].
      rewrite Nat.div_small, Nat.mod_small by lia. cbn [repeat app].
      replace (length data - start =? 0)%nat with false by (symmetry; apply Nat.eqb_neq; lia).
      f_equal. lia.
  - apply Nat.ltb_ge in E. exists []. split; [reflexivity|].
    replace (length data - start)%nat with 0%nat by lia.
    rewrite Nat.Div0.div_0_l, Nat.Div0.mod_0_l. reflexivity.
Qed.

(** [split_data] with a size of at least one: the generator ends; its
    slices put together are the data; each slice but the last one has
    exactly the size, the last one holds what is left and is not empty; so
    there are [len / size] slices, and one more when the size does not
    divide the length. *)
Theorem split_data_slices (data : pybytes) (size : nat) :
  (1 <= size)%nat ->
  exists parts,
    split_data data size = Some parts
    /\ concat parts = data
    /\ Forall (fun c => c <> []) parts
    /\ map length parts
       = repeat size (length data / size)
           ++ (if (length data mod size =? 0)%nat then [] else [(length data mod size)%nat]).
Proof.
  intros Hs.
  destruct (split_data_total data size Hs) as (parts & Hp & Hc & Ha).
  destruct (split_data_from_sizes (S (length data)) data size 0) as (parts' & Hp' & Hl);
    try lia.
  fold (split_data data size) in Hp'. rewrite Hp in Hp'. injection Hp' as <-.
  rewrite Nat.sub_0_r in Hl.
  exists parts. repeat split; auto.
  eapply Forall_impl; [exact Ha | intros c [Hc0 _]; exact Hc0].
Qed.

Lemma split_data_slices_witness :
  exists parts,
    split_data payload_123 2 = Some parts
    /\ concat parts = payload_123
    /\ Forall (fun c => c <> []) parts
    /\ map length parts
       = repeat 2%nat (length payload_123 / 2)
           ++ (if (length payload_123 mod 2 =? 0)%nat then []
               else [(length payload_123 mod 2)%nat]).
Proof. apply (split_data_slices payload_123 2). lia. Defined.

(** With a size of zero the generator never ends on data that is not
    empty: whatever the number of steps it is given, it has not finished. *)
Theorem split_data_size_zero_diverges (fuel : nat) (data : pybytes) :
  data <> [] -> split_data_from fuel data 0 0 = None.
Proof. apply split_data_from_zero. Qed.

Lemma split_data_size_zero_diverges_witness : split_data_from 1000 payload_123 0 0 = None.
Proof. apply (split_data_size_zero_diverges 1000 payload_123). discriminate. Defined.

(** ** Further properties: the flags *)

Lemma testbit_b2z (v k : Z) :
  0 <= k -> Z.b2z (negb (Z.land (Z.shiftr v k) 1 =? 0)) = (v / 2 ^ k) mod 2.
Proof.
  intros Hk. rewrite Z.shiftr_div_pow2 by lia.
  change 1 with (Z.ones 1). rewrite Z.land_ones by lia. change (2 ^ 1) with 2.
  pose proof (Z.mod_pos_bound (v / 2 ^ k) 2 ltac:(lia)) as B.
  destruct (Z.eqb_spec ((v / 2 ^ k) mod 2) 0) as [E|E]; cbn [negb Z.b2z]; lia.
Qed.

(** Decoding reads the four low bits of the packed integer and nothing
    else: packing the decoded flags again gives the integer modulo 16,
    for every integer, negative ones included. *)
Theorem ChunkFlags_encode_decode (value : Z) :
  ChunkFlags_encode (ChunkFlags_decode value) = value mod 16.
Proof.
  rewrite ChunkFlags_encode_bits. unfold ChunkFlags_decode. cbn [eom send_ack recv_ack compression].
  change (_masks_get "eom") with (1, 0). change (_masks_get "send_ack") with (1, 1).
  change (_masks_get "recv_ack") with (1, 2). change (_masks_get "compression") with (1, 3).
  unfold _unmask_value. rewrite !testbit_b2z by lia.
  change (2 ^ 0) with 1. change (2 ^ 1) with 2. change (2 ^ 2) with 4. change (2 ^ 3) with 8.
  rewrite Z.div_1_r.
  pose proof (Z.div_mod value 2 ltac:(lia)).
  pose proof (Z.div_mod value 4 ltac:(lia)).
  pose proof (Z.div_mod value 8 ltac:(lia)).
  pose proof (Z.div_mod value 16 ltac:(lia)).
  Z.div_mod_to_equations. lia.
Qed.

(** ** Further properties: headers and uids *)

(** A header that is encoded decodes to what it was made from: the uid,
    the flags, the length of the encoded channel name and the length of
    the payload. *)
Theorem header_roundtrip (uid : Uid) (name : string) (data : pybytes) (flags : ChunkFlags)
    (now : Z) (th : thread) (l : option uid_local) :
  Uid_wf uid ->
  Z.of_nat (length (str_encode name)) < 2 ^ 16 ->
  (Z.of_nat (length data) < 2 ^ 32) ->
  exists h,
    _encode_header uid (Some name) (Some data) flags = Ok h
    /\ _decode_header h now th l
       = (Ok (uid, flags, Z.of_nat (length (str_encode name)), Z.of_nat (length data)), l).
Proof.
  intros Hwf Hn Hd.
  assert (Hcn : channel_name_length_of (Some name) = Z.of_nat (length (str_encode name))).
  { unfold channel_name_length_of. destruct (str_encode name); reflexivity. }
  assert (Hdl : data_length_of (Some data) = Z.of_nat (length data)).
  { unfold data_length_of. destruct data; reflexivity. }
  assert (He : exists h, _encode_header uid (Some name) (Some data) flags = Ok h).
  { unfold _encode_header. rewrite pack_header_fits; [eauto | apply ChunkFlags_encode_fits | |].
    - rewrite Hcn. apply fits_range. split; [lia|]. exact Hn.
    - rewrite Hdl. apply fits_range. split; [lia|]. exact Hd. }
  destruct He as [h He]. exists h. split; [exact He|].
  rewrite (decode_encode_header _ _ _ _ _ now th l Hwf He), Hcn, Hdl. reflexivity.
Qed.

Lemma header_roundtrip_witness :
  exists h,
    _encode_header uid_1_5 (Some "x"%string) (Some payload_123) flags_eom = Ok h
    /\ _decode_header h 0 th0 None
       = (Ok (uid_1_5, flags_eom, Z.of_nat (length (str_encode "x")),
              Z.of_nat (length payload_123)), None).
Proof.
  apply (header_roundtrip uid_1_5 "x" payload_123 flags_eom 0 th0 None).
  - exact uid_1_5_wf.
  - vm_compute. reflexivity.
  - vm_compute. reflexivity.
Defined.

(** [_encode_header] fails, with [struct.error], exactly when the encoded
    name takes 65536 bytes or more or the payload [2 ^ 32] bytes or more. *)
Theorem encode_header_fails_iff (uid : Uid) (name : string) (data : pybytes)
    (flags : ChunkFlags) :
  (_encode_header uid (Some name) (Some data) flags = Raise struct_error
   <-> 2 ^ 16 <= Z.of_nat (length (str_encode name)) \/ 2 ^ 32 <= Z.of_nat (length data))
  /\ (is_Ok (_encode_header uid (Some name) (Some data) flags) = true
      <-> Z.of_nat (length (str_encode name)) < 2 ^ 16 /\ Z.of_nat (length data) < 2 ^ 32).
Proof.
  assert (Hcn : channel_name_length_of (Some name) = Z.of_nat (length (str_encode name))).
  { unfold channel_name_length_of. destruct (str_encode name); reflexivity. }
  assert (Hdl : data_length_of (Some data) = Z.of_nat (length data)).
  { unfold data_length_of. destruct data; reflexivity. }
  unfold _encode_header, pack_header. rewrite ChunkFlags_encode_fits, Hcn, Hdl.
  cbn [andb].
  destruct (fits 2 (Z.of_nat (length (str_encode name)))) eqn:E1;
    destruct (fits 4 (Z.of_nat (length data))) eqn:E2; cbn [andb is_Ok];
    try apply fits_range in E1; try apply fits_range in E2;
    try (apply not_true_iff_false in E1; rewrite fits_range in E1);
    try (apply not_true_iff_false in E2; rewrite fits_range in E2);
    change (2 ^ (8 * Z.of_nat 2)) with (2 ^ 16) in *;
    change (2 ^ (8 * Z.of_nat 4)) with (2 ^ 32) in *;
    (split; split; intros H; try discriminate H; try reflexivity; lia).
Qed.

(** [Uid()] called twice in a row in one thread: the second uid has the
    process and thread identities of the first one and the next sequence
    number, so the two differ, also for [==]. *)
Theorem Uid_successive {Env : Environment} (p p1 p2 : process) (u1 u2 : Uid) :
  Uid_new p = (Ok u1, p1) ->
  Uid_new p1 = (Ok u2, p2) ->
  Uid_id u2 = Uid_id u1 /\ Uid_tid u2 = Uid_tid u1
  /\ Uid_seq u2 = Uid_seq u1 + 1
  /\ u1 <> u2 /\ Uid_eq u1 u2 = false.
Proof.
  unfold Uid_new, Uid_init, _create_uid. intros H1 H2.
  destruct (pack_dQQQ _ _ _ _) as [b1|] eqn:E1 in H1; [|discriminate H1].
  injection H1 as <- <-. cbn [uid_counter set_uid_counter set_clock] in H2.
  cbn [ul_id ul_tid ul_uid] in H2.
  destruct (pack_dQQQ _ _ _ _) as [b2|] eqn:E2 in H2; [|discriminate H2].
  injection H2 as <- _. cbn [Uid_id Uid_tid Uid_seq].
  repeat split.
  - intros E. apply (f_equal Uid_seq) in E. cbn in E. lia.
  - unfold Uid_eq. cbn [Uid_seq].
    match goal with |- context [(?a =? ?a + 1)] =>
      replace (a =? a + 1) with false by (symmetry; apply Z.eqb_neq; lia) end.
    apply andb_false_r.
Qed.

Lemma Uid_successive_witness :
  let p := process0 env0 [] in
  let u1 := uid_1_5 in
  let u2 := mkUid (pack_be 8 t_1_5 ++ pack_be 8 94 ++ pack_be 8 140 ++ pack_be 8 2)
              t_1_5 94 140 2 in
  Uid_id u2 = Uid_id u1 /\ Uid_tid u2 = Uid_tid u1
  /\ Uid_seq u2 = Uid_seq u1 + 1
  /\ u1 <> u2 /\ Uid_eq u1 u2 = false.
Proof.
  intros p u1 u2.
  apply (@Uid_successive env0 p (snd (Uid_new p)) (snd (Uid_new (snd (Uid_new p)))) u1 u2);
    vm_compute; reflexivity.
Defined.

(** ** Further properties: uids from bytes *)

(** Any 32 bytes are the bytes of a uid: [Uid(bytes=b)] returns a uid that
    holds them, and the four fields it reads pack to the same bytes. *)
Theorem Uid_of_32_bytes (b : pybytes) (now : Z) (th : thread) (l : option uid_local) :
  length b = 32%nat ->
  exists u,
    Uid_init None None None None (Some b) now th l = (Ok u, l)
    /\ Uid_bytes u = b
    /\ pack_dQQQ (Uid_time u) (Uid_id u) (Uid_tid u) (Uid_seq u) = Ok b
    /\ is_float64 (Uid_time u).
Proof.
  intros Hl.
  assert (Hb : b <> []) by (intros ->; discriminate Hl).
  rewrite Uid_init_bytes by exact Hb.
  destruct (unpack_dQQQ b) as [[[[t i] d] s]|e] eqn:E.
  - apply pack_unpack_dQQQ in E as [Hf Hp]. eexists. split; [reflexivity|].
    cbn [Uid_bytes Uid_time Uid_id Uid_tid Uid_seq]. auto.
  - unfold unpack_dQQQ in E. rewrite Hl in E. discriminate E.
Qed.

Lemma Uid_of_32_bytes_witness :
  exists u,
    Uid_init None None None None (Some (repeat Byte.xff 32)) 0 th0 None = (Ok u, None)
    /\ Uid_bytes u = repeat Byte.xff 32
    /\ pack_dQQQ (Uid_time u) (Uid_id u) (Uid_tid u) (Uid_seq u) = Ok (repeat Byte.xff 32)
    /\ is_float64 (Uid_time u).
Proof. apply (Uid_of_32_bytes (repeat Byte.xff 32) 0 th0 None). reflexivity. Defined.

(** Bytes of another length: when there are none, [Uid(bytes=b'')] is
    [Uid()], a new uid from the clock and the counter; otherwise
    [struct.unpack] fails and the counter is not touched. *)
Theorem Uid_of_other_bytes (b : pybytes) (now : Z) (th : thread) (l : option uid_local) :
  length b <> 32%nat ->
  Uid_init None None None None (Some b) now th l
  = match b with
    | [] => Uid_init None None None None None now th l
    | _ :: _ => (Raise struct_error, l)
    end.
Proof.
  intros Hl. destruct b as [|x r]; [reflexivity|].
  rewrite Uid_init_bytes by discriminate. unfold unpack_dQQQ.
  replace (length (x :: r) =? 32)%nat with false by (symmetry; apply Nat.eqb_neq; exact Hl).
  reflexivity.
Qed.

Lemma Uid_of_other_bytes_witness :
  Uid_init None None None None (Some payload_123) 0 th0 None
  = match payload_123 with
    | [] => Uid_init None None None None None 0 th0 None
    | _ :: _ => (Raise struct_error, None)
    end.
Proof. apply (Uid_of_other_bytes payload_123 0 th0 None). vm_compute. discriminate. Defined.

(** ** Further properties: the reader loop *)

Section RespectFacts.
Context {Env : Environment}.
Variable R : process -> process -> Prop.
Hypothesis R_refl : forall p, R p p.
Hypothesis R_trans : forall p q r, R p q -> R q r -> R p r.





End RespectFacts.


Section ReaderLoop.
Context {Env : Environment}.







End ReaderLoop.

(** ** The futures of the acknowledgements *)

Section KeptFacts.
Context {A : Type}.







End KeptFacts.


Section ReaderKeeps.
Context {Env : Environment}.








End ReaderKeeps.

Section AckWait.
Context {Env : Environment} {Laws : EnvironmentLaws Env}.


End AckWait.


Section ReaderEdges.
Context {Env : Environment}.

(** A header whose digest does not match stops the reader loop for good:
    the assertion error is raised again by [_receive_reader], nothing is
    delivered, nothing is put on the outgoing queue and no future is
    touched. *)
Theorem receive_reader_bad_checksum (p : process) :
  (HEADER_SIZE + 16 <= length (reader p))%nat ->
  md5 (take HEADER_SIZE (reader p)) <> take 16 (drop HEADER_SIZE (reader p)) ->
  exists p',
    _receive_reader p = Some (Raise (AssertionError "Header checksum mismatch!"), p')
    /\ io_send p' = io_send p /\ io_receive p' = io_receive p
    /\ acknowledgements p' = acknowledgements p.
Proof.
  intros Hlen Hbad. destruct p as [s r rd e buf acks k l th]. cbn [reader] in *.
  change (HEADER_SIZE + 16)%nat with 62%nat in *. rewrite HEADER_SIZE_eq in Hbad.
  unfold _receive_reader. cbn [_receive_loop]. unfold _receive_single_message, bind.
  unfold readexactly. run_M. change (HEADER_SIZE + 16)%nat with 62%nat.
  replace (62 <=? length rd)%nat with true by (symmetry; apply Nat.leb_le; exact Hlen).
  run_M. unfold decode_header. run_M.
  rewrite decode_header_mismatch.
  - eexists. split; [reflexivity|]. cbn. auto.
  - rewrite length_take. replace (62 `min` length rd - 16)%nat with 46%nat by lia.
    rewrite take_take. replace (46 `min` 62)%nat with 46%nat by lia.
    rewrite skipn_firstn_comm. change (62 - 46)%nat with 16%nat. exact Hbad.
Qed.

(** A header alone, without channel name and payload and without a request
    for an acknowledgement.  Only when it carries both [eom] and [recv_ack]
    does the reader look at the table of acknowledgements, with the uid
    object it made from the header: a pending future under a key that
    matches gets its result, a future that is done already makes
    [set_result] fail, and when no key matches the frame is passed over.
    No key matches a uid whose timestamp is a NaN, so such a frame is
    always passed over, whatever the table holds. *)
Theorem receive_bare_header (uid : Uid) (flags : ChunkFlags) (h rest : pybytes)
    (s : list out_item) (r : gmap string (list value)) (e : stream_end)
    (buf : uid_dict pybytes) (acks : uid_dict (future (Uid * Z))) (k : nat)
    (l : option uid_local) (th : thread) :
  Uid_wf uid ->
  send_ack flags = false ->
  _encode_header uid None None flags = Ok h ->
  _receive_single_message (mkProcess s r (h ++ rest) e buf acks k l th)
  = match (if eom flags && recv_ack flags then acks !! uid else None) with
    | Some Pending =>
        (Ok tt,
         mkProcess s r rest e buf
           (<[uid := Done (uid, float_sub (time_time k) (Uid_time uid))]> acks) (S k) l th)
    | Some _ => (Raise InvalidStateError, mkProcess s r rest e buf acks (S k) l th)
    | None => (Ok tt, mkProcess s r rest e buf acks k l th)
    end
  /\ (f64_is_nan (Uid_time uid) = true ->
      _receive_single_message (mkProcess s r (h ++ rest) e buf acks k l th)
      = (Ok tt, mkProcess s r rest e buf acks k l th)).
Proof.
  intros Hwf Hs Ha.
  assert (E : _receive_single_message (mkProcess s r (h ++ rest) e buf acks k l th)
    = match (if eom flags && recv_ack flags then acks !! uid else None) with
      | Some Pending =>
          (Ok tt,
           mkProcess s r rest e buf
             (<[uid := Done (uid, float_sub (time_time k) (Uid_time uid))]> acks) (S k) l th)
      | Some _ => (Raise InvalidStateError, mkProcess s r rest e buf acks (S k) l th)
      | None => (Ok tt, mkProcess s r rest e buf acks k l th)
      end).
  { unfold _receive_single_message, bind.
    rewrite readexactly_mk by apply (length_encode_header _ _ _ _ _ Ha). run_M.
    rewrite (decode_header_encoded _ _ _ _ _ _ Hwf Ha). run_M.
    cbn [channel_name_length_of data_length_of Z.eqb]. unfold ret. run_M.
    rewrite Hs. cbn [own_get].
    destruct (eom flags), (recv_ack flags); cbn [andb]; run_M; try reflexivity;
      destruct (buf !! uid); run_M;
      (destruct (acks !! uid) as [f|]; [|reflexivity]); try reflexivity;
      unfold time_now, lift, future_set_result; run_M; destruct f; reflexivity. }
  split; [exact E|].
  intros Hnan. rewrite E, (uid_dict_lookup_nan uid acks Hnan).
  destruct (eom flags && recv_ack flags); reflexivity.
Qed.

End ReaderEdges.

Lemma receive_reader_bad_checksum_witness :
  exists p',
    @_receive_reader env0 (process0 env0 stream_zeros)
    = Some (Raise (AssertionError "Header checksum mismatch!"), p')
    /\ io_send p' = io_send (process0 env0 stream_zeros)
    /\ io_receive p' = io_receive (process0 env0 stream_zeros)
    /\ acknowledgements p' = acknowledgements (process0 env0 stream_zeros).
Proof.
  apply (@receive_reader_bad_checksum env0 (process0 env0 stream_zeros)).
  - vm_compute. lia.
  - vm_compute. discriminate.
Defined.

Lemma receive_bare_header_witness :
  @_receive_single_message env0
    (mkProcess [] ∅ (bare_header uid_1_5 flags_ack ++ []) EndOfFile ∅
       [(uid_1_5, Pending)] 0%nat None th0)
  = match (if eom flags_ack && recv_ack flags_ack
           then ([(uid_1_5, Pending)] : uid_dict (future (Uid * Z))) !! uid_1_5
           else None) with
    | Some Pending =>
        (Ok tt,
         mkProcess [] ∅ [] EndOfFile ∅
           (<[uid_1_5 := Done (uid_1_5, @float_sub env0 (@time_time env0 0%nat)
                                          (Uid_time uid_1_5))]>
              [(uid_1_5, Pending)]) 1%nat None th0)
    | Some _ =>
        (Raise InvalidStateError,
         mkProcess [] ∅ [] EndOfFile ∅ [(uid_1_5, Pending)] 1%nat None th0)
    | None =>
        (Ok tt, mkProcess [] ∅ [] EndOfFile ∅ [(uid_1_5, Pending)] 0%nat None th0)
    end
  /\ (f64_is_nan (Uid_time uid_1_5) = true ->
      @_receive_single_message env0
        (mkProcess [] ∅ (bare_header uid_1_5 flags_ack ++ []) EndOfFile ∅
           [(uid_1_5, Pending)] 0%nat None th0)
      = (Ok tt, mkProcess [] ∅ [] EndOfFile ∅ [(uid_1_5, Pending)] 0%nat None th0)).
Proof.
  apply (@receive_bare_header env0 uid_1_5 flags_ack (bare_header uid_1_5 flags_ack) []).
  - exact uid_1_5_wf.
  - reflexivity.
  - vm_compute. reflexivity.
Defined.

(** The same header with a NaN as timestamp: the future that is stored
    under a uid with the very bytes of the header is not found and stays
    pending. *)
Example receive_bare_header_nan :
  Uid_wf uid_nan
  /\ @_receive_single_message env0
       (mkProcess [] ∅ (bare_header uid_nan flags_ack) EndOfFile ∅
          [(uid_nan, Pending)] 0%nat None th0)
     = (Ok tt, mkProcess [] ∅ [] EndOfFile ∅ [(uid_nan, Pending)] 0%nat None th0).
Proof.
  split.
  - split; [vm_compute; split; [discriminate | reflexivity] | reflexivity].
  - vm_compute. reflexivity.
Qed.

Section SendFacts.
Context {Env : Environment} {Laws : EnvironmentLaws Env}.

(** The frames of the parts of a message, without the frame that ends it:
    the reader loop takes them in and, at the end of the stream, returns
    with nothing delivered on any channel and nothing put on the outgoing
    queue. *)
Theorem receive_without_end_frame (uid : Uid) (name : string) (compress : Z)
    (parts : list pybytes) (items : list out_item) (q : process) :
  Uid_wf uid ->
  str_encode name <> [] -> utf8_valid (str_encode name) = true ->
  Forall (fun c => c <> []) parts ->
  Forall2 (data_item uid name compress) parts items ->
  reader q = concat (map written items) ->
  exists q',
    _receive_reader q = Some (Ok tt, q')
    /\ io_receive q' = io_receive q /\ io_send q' = io_send q
    /\ reader q' = [].
Proof.
  intros Hwf Hn Hu Hne HF Hq. destruct q as [s r rd e buf acks k l th].
  cbn [reader] in Hq. subst rd. unfold _receive_reader. run_M.
  pose proof (length_written_data_items _ _ _ _ _ HF) as Hlen.
  set (rd := concat (map written items)) in *.
  assert (Hfuel : exists m, S (length rd) = (length items + S m)%nat)
    by (exists (length rd - length items)%nat; lia).
  destruct Hfuel as [m ->]. unfold rd.
  rewrite <- (app_nil_r (concat (map written items))).
  destruct (receive_data_items_any uid name compress parts items Hwf Hn Hu Hne HF
              (S m) [] s r e ∅ acks k l th) as [buf' ->].
  rewrite receive_loop_end by (cbn; lia).
  eexists. split; [reflexivity|]. cbn. auto.
Qed.

(** [Channel.send] puts on the outgoing queue one item for each slice of
    the encoded payload, in order, and then one for the frame that ends the
    message; the headers of all of them carry the one uid that the call
    made, from one reading of the clock.  It leaves the incoming queues
    alone, and stores a future, pending and under that same uid, exactly
    when an acknowledgement is asked for. *)
Theorem Channel_send_queue (name : string) (chunk_size : nat) (data : value) (ack : bool)
    (compress : Z) (p p' : process) (outcome : send_outcome) (payload : pybytes) :
  (1 <= chunk_size)%nat ->
  encode data = Ok payload ->
  Channel_send name chunk_size data ack compress p = Some (Ok outcome, p') ->
  exists uid parts items header,
    Uid_time uid = time_time (clock p) /\ clock p' = S (clock p)
    /\ split_data payload chunk_size = Some parts
    /\ concat parts = payload
    /\ Forall2 (data_item uid name compress) parts items
    /\ length items
       = (length payload / chunk_size
          + if (length payload mod chunk_size =? 0)%nat then 0 else 1)%nat
    /\ _encode_header uid (Some name) None
         {| eom := true; send_ack := ack; recv_ack := false; compression := false |}
       = Ok header
    /\ (forall now th l,
          _decode_header header now th l
          = (Ok (uid,
                 {| eom := true; send_ack := ack; recv_ack := false; compression := false |},
                 channel_name_length_of (Some name), 0), l))
    /\ io_send p' = io_send p ++ items ++ [Tuple [header; str_encode name]]
    /\ io_receive p' = io_receive p
    /\ outcome = (if ack then AwaitingAck uid else Returned)
    /\ acknowledgements p'
       = (if ack then <[uid := Pending]> (acknowledgements p) else acknowledgements p).
Proof.
  intros Hs He Hsend.
  destruct (Channel_send_Ok _ _ _ _ _ _ _ _ _ He Hsend)
    as (uid & parts & items & header & l & Hwf & Ht & Es & HF & Hh & -> & ->).
  destruct (split_data_total payload chunk_size Hs) as (parts0 & Es0 & Hc & _).
  rewrite Es in Es0. injection Es0 as <-.
  destruct (split_data_from_sizes (S (length payload)) payload chunk_size 0)
    as (parts' & Es' & Hl); try lia.
  fold (split_data payload chunk_size) in Es'. rewrite Es in Es'. injection Es' as <-.
  rewrite Nat.sub_0_r in Hl.
  exists uid, parts, items, header.
  cbn [io_send clock io_receive acknowledgements].
  split; [exact Ht|]. split; [reflexivity|]. split; [exact Es|]. split; [exact Hc|].
  split; [exact HF|]. split.
  { rewrite <- (Forall2_length _ _ _ HF), <- (length_map length parts), Hl.
    rewrite length_app, repeat_length.
    destruct (length payload mod chunk_size =? 0)%nat; reflexivity. }
  split; [exact Hh|].
  split; [intros now th l0; apply (decode_encode_header _ _ _ _ _ _ _ _ Hwf Hh)|].
  repeat split; destruct ack; reflexivity.
Qed.

End SendFacts.

Lemma Channel_send_queue_witness :
  exists uid parts items header,
    Uid_time uid = @time_time env0 (clock (process0 env0 []))
    /\ clock (sent_process sent_123 (process0 env0 [])) = S (clock (process0 env0 []))
    /\ split_data payload_123 2 = Some parts
    /\ concat parts = payload_123
    /\ Forall2 (@data_item env0 uid "x" 6) parts items
    /\ length items
       = (length payload_123 / 2 + if (length payload_123 mod 2 =? 0)%nat then 0 else 1)%nat
    /\ _encode_header uid (Some "x"%string) None
         {| eom := true; send_ack := true; recv_ack := false; compression := false |}
       = Ok header
    /\ (forall now th l,
          _decode_header header now th l
          = (Ok (uid,
                 {| eom := true; send_ack := true; recv_ack := false; compression := false |},
                 channel_name_length_of (Some "x"%string), 0), l))
    /\ io_send (sent_process sent_123 (process0 env0 []))
       = io_send (process0 env0 []) ++ items ++ [Tuple [header; str_encode "x"]]
    /\ io_receive (sent_process sent_123 (process0 env0 [])) = io_receive (process0 env0 [])
    /\ sent_outcome sent_123 = (if true then AwaitingAck uid else Returned)
    /\ acknowledgements (sent_process sent_123 (process0 env0 []))
       = (if true then <[uid := Pending]> (acknowledgements (process0 env0 []))
          else acknowledgements (process0 env0 [])).
Proof.
  apply (@Channel_send_queue env0 env0_laws "x" 2 payload_123 true 6 (process0 env0 [])
           (sent_process sent_123 (process0 env0 [])) (sent_outcome sent_123) payload_123).
  - lia.
  - reflexivity.
  - apply sent_ok_eq. vm_compute. reflexivity.
Defined.

Lemma receive_without_end_frame_witness :
  exists q',
    @_receive_reader env0 (process0 env0 (concat (map written [item_123])))
    = Some (Ok tt, q')
    /\ io_receive q' = io_receive (process0 env0 (concat (map written [item_123])))
    /\ io_send q' = io_send (process0 env0 (concat (map written [item_123])))
    /\ reader q' = [].
Proof.
  apply (@receive_without_end_frame env0 env0_laws uid_1_5 "x" 0 [payload_123] [item_123]).
  - exact uid_1_5_wf.
  - discriminate.
  - reflexivity.
  - repeat constructor. discriminate.
  - constructor; [|constructor]. exists payload_123, header_123.
    split; [reflexivity|]. split; [vm_compute; reflexivity | reflexivity].
  - reflexivity.
Defined.

(** ** Further properties: the registry and the dispatch of commands *)

(** The first class made through the metaclass becomes [base] and is not
    put in the table; [base] is then never changed, and every later class
    is put in the table under its [command_name]. *)
Theorem base_class_not_registered (name module_name : string) (ex : execute_method)
    (mcs : CommandMeta) :
  let cls := fst (_CommandMeta___new__ name module_name ex mcs) in
  let mcs' := snd (_CommandMeta___new__ name module_name ex mcs) in
  command_name cls = (module_name ++ ":" ++ name)%string
  /\ match base mcs with
     | None => base mcs' = Some cls /\ commands mcs' = commands mcs
     | Some b =>
         base mcs' = Some b
         /\ commands mcs' = <[(module_name ++ ":" ++ name)%string := cls]> (commands mcs)
     end.
Proof.
  unfold _CommandMeta___new__. destruct (base mcs) as [b|] eqn:E; cbn; rewrite ?E; auto.
Qed.

Ltac norm_runtime :=
  cbv beta iota delta [set_rt_process set_command_instances set_pending_commands
                       set_futures set_import_lock];
  cbn [rt_process command_instances pending_commands futures import_lock].

Section DispatchFacts.
Context {Env : Environment}.


(** A result for a command whose future is pending resolves this future
    and leaves the table as it is; a second result for the same command
    makes [set_result] fail with [InvalidStateError]. *)
Theorem ExecuteResult_resolves (key : string) (v w : value) (fut : nat) (rt : runtime) :
  dict_get key (pending_commands rt) = Some fut ->
  futures rt !! fut = Some Pending ->
  exists rt',
    ExecuteResult___call__ key v rt = (Ok tt, rt')
    /\ futures rt' = <[fut := Done v]> (futures rt)
    /\ pending_commands rt' = pending_commands rt
    /\ ExecuteResult___call__ key w rt' = (Raise InvalidStateError, rt').
Proof.
  intros Hk Hf. unfold ExecuteResult___call__, pending_commands_getitem. rewrite Hk, Hf.
  cbn [default from_option future_set_result]. eexists. split; [reflexivity|].
  norm_runtime. do 2 (split; [reflexivity|]).
  unfold ExecuteResult___call__, pending_commands_getitem.
  norm_runtime. rewrite Hk. norm_runtime. rewrite lookup_insert_eq.
  reflexivity.
Qed.

(** A result for a channel name that is not in the table is not refused:
    the table makes a new future for the name, which gets the result, and
    keeps the entry. *)
Theorem ExecuteResult_unknown (key : string) (v : value) (rt : runtime) :
  dict_get key (pending_commands rt) = None ->
  exists fut rt',
    ExecuteResult___call__ key v rt = (Ok tt, rt')
    /\ futures rt !! fut = None
    /\ futures rt' = <[fut := Done v]> (futures rt)
    /\ pending_commands rt' = pending_commands rt ++ [(key, fut)].
Proof.
  intros Hk. unfold ExecuteResult___call__, pending_commands_getitem. rewrite Hk.
  norm_runtime.
  rewrite lookup_insert_eq. cbn [default from_option future_set_result].
  exists (fresh (dom (futures rt))). eexists. split; [reflexivity|].
  norm_runtime. rewrite insert_insert_eq.
  split; [|split; reflexivity].
  apply not_elem_of_dom. apply is_fresh.
Qed.

End DispatchFacts.


Lemma ExecuteResult_resolves_witness :
  exists rt',
    @ExecuteResult___call__ env0 "a" payload_123 two_pending = (Ok tt, rt')
    /\ futures rt' = <[0%nat := Done payload_123]> (futures two_pending)
    /\ pending_commands rt' = pending_commands two_pending
    /\ @ExecuteResult___call__ env0 "a" [] rt' = (Raise InvalidStateError, rt').
Proof.
  apply (@ExecuteResult_resolves env0 "a" payload_123 [] 0%nat two_pending).
  - reflexivity.
  - vm_compute. reflexivity.
Defined.

Lemma ExecuteResult_unknown_witness :
  exists fut rt',
    @ExecuteResult___call__ env0 "c" payload_123 two_pending = (Ok tt, rt')
    /\ futures two_pending !! fut = None
    /\ futures rt' = <[fut := Done payload_123]> (futures two_pending)
    /\ pending_commands rt' = pending_commands two_pending ++ [("c"%string, fut)].
Proof. apply (@ExecuteResult_unknown env0 "c" payload_123 two_pending). reflexivity. Defined.

Lemma teardown_first_only_witness :
  @execute_io_queues_teardown env0 two_pending
  = (Raise (RuntimeError "dictionary changed size during iteration"),
     mkRuntime (rt_process two_pending) (command_instances two_pending)
       [("b"%string, 1%nat)]
       (alter future_cancel 0%nat (futures two_pending)) (import_lock two_pending)).
Proof.
  apply (@teardown_first_only env0 two_pending "a" 0%nat [("b"%string, 1%nat)]).
  - reflexivity.
  - cbn. intros H. apply list_elem_of_singleton in H. discriminate H.
Defined.

Section ExecuteDispatch.
Context {Env : Environment} {Laws : EnvironmentLaws Env} {Msg : Messages Env}.


End ExecuteDispatch.



(** ** Further properties: messages whose frames alternate *)

(** Two different uids, as the module makes them, have different bytes:
    neither finds the item of the other. *)
Lemma Uid_key_eqb_ne (u v : Uid) :
  Uid_wf u -> Uid_wf v -> u <> v -> Uid_key_eqb u v = false.
Proof.
  intros [Hfu Hpu] [Hfv Hpv] Hne. unfold Uid_key_eqb.
  destruct (bool_decide (Uid_bytes u = Uid_bytes v)) eqn:E; [|reflexivity].
  apply bool_decide_eq_true_1 in E. exfalso. apply Hne.
  apply (unpack_pack_dQQQ _ _ _ _ _ Hfu) in Hpu.
  apply (unpack_pack_dQQQ _ _ _ _ _ Hfv) in Hpv.
  rewrite E, Hpv in Hpu. injection Hpu as E1 E2 E3 E4.
  destruct u, v. cbn in *. congruence.
Qed.

Section Interleaving.
Context {Env : Environment}.

(** Frames of two messages that alternate on the stream: a part of the
    first, a part of the second, another part of the first, then the frame
    that ends the second and the one that ends the first.  When the
    timestamps of the two uids are not NaNs, the reader loop keeps the
    payloads apart by uid: the second message is delivered first, with its
    own part only, the first one after it, with its two parts in the order
    they came, each on the queue of its channel; no entry is left in the
    buffer. *)
Theorem receive_interleaved (u1 u2 : Uid) (n1 n2 : string)
    (w1 w2 w3 h1 h2 h3 e1 e2 : pybytes) (m1 m2 : value) (q : process) :
  Uid_wf u1 -> Uid_wf u2 -> u1 <> u2 ->
  f64_is_nan (Uid_time u1) = false -> f64_is_nan (Uid_time u2) = false ->
  str_encode n1 <> [] -> utf8_valid (str_encode n1) = true ->
  str_encode n2 <> [] -> utf8_valid (str_encode n2) = true ->
  w1 <> [] -> w2 <> [] -> w3 <> [] ->
  _encode_header u1 (Some n1) (Some w1) ChunkFlags_default = Ok h1 ->
  _encode_header u2 (Some n2) (Some w2) ChunkFlags_default = Ok h2 ->
  _encode_header u1 (Some n1) (Some w3) ChunkFlags_default = Ok h3 ->
  _encode_header u2 (Some n2) None flags_eom = Ok e2 ->
  _encode_header u1 (Some n1) None flags_eom = Ok e1 ->
  decode (w1 ++ w3) = Ok m1 -> decode w2 = Ok m2 ->
  reader q
  = h1 ++ str_encode n1 ++ w1 ++ h2 ++ str_encode n2 ++ w2
    ++ h3 ++ str_encode n1 ++ w3 ++ e2 ++ str_encode n2 ++ e1 ++ str_encode n1 ->
  let r2 := <[n2 := default [] (io_receive q !! n2) ++ [m2]]> (io_receive q) in
  _receive_reader q
  = Some (Ok tt,
          mkProcess (io_send q) (<[n1 := default [] (r2 !! n1) ++ [m1]]> r2)
            [] (reader_end q) ∅ (acknowledgements q) (clock q)
            (uid_counter q) (current_thread q)).
Proof.
  intros Hwf1 Hwf2 Hne Hnan1 Hnan2 Hn1 Hu1 Hn2 Hu2 Hw1 Hw2 Hw3 Hh1 Hh2 Hh3 He2 He1
    Hd1 Hd2 Hq r2.
  pose proof (Uid_key_eqb_refl u1 Hnan1) as K11.
  pose proof (Uid_key_eqb_refl u2 Hnan2) as K22.
  pose proof (Uid_key_eqb_ne u1 u2 Hwf1 Hwf2 Hne) as K12.
  assert (K21 : Uid_key_eqb u2 u1 = false)
    by (apply Uid_key_eqb_ne; [assumption | assumption | congruence]).
  destruct q as [s r rd e buf acks k l th]. cbn [reader] in Hq. subst rd.
  cbn [io_send io_receive reader_end acknowledgements clock uid_counter current_thread] in *.
  destruct (encode_header_ack u1) as [a1 Ha1]. destruct (encode_header_ack u2) as [a2 Ha2].
  pose proof (length_encode_header _ _ _ _ _ Hh1) as L1.
  pose proof (length_encode_header _ _ _ _ _ Hh2) as L2.
  pose proof (length_encode_header _ _ _ _ _ Hh3) as L3.
  pose proof (length_encode_header _ _ _ _ _ He2) as L4.
  pose proof (length_encode_header _ _ _ _ _ He1) as L5.
  rewrite HEADER_SIZE_eq in L1, L2, L3, L4, L5.
  unfold _receive_reader. run_M.
  match goal with |- _receive_loop (S (length ?rd)) _ = _ =>
    assert (Hfuel : exists m, S (length rd) = S (S (S (S (S (S m))))))
      by (exists (length rd - 5)%nat; rewrite !length_app, L1, L2, L3, L4, L5; lia)
  end.
  destruct Hfuel as [m ->].
  (* the buffer after each frame *)
  assert (B1 : <[u1 := default [] ((∅ : uid_dict pybytes) !! u1) ++ w1]> (∅ : uid_dict pybytes)
               = [(u1, w1)]) by reflexivity.
  assert (B2 : <[u2 := default [] (([(u1, w1)] : uid_dict pybytes) !! u2) ++ w2]>
                 ([(u1, w1)] : uid_dict pybytes)
               = [(u1, w1); (u2, w2)]).
  { unfold insert, lookup, uid_dict_insert, uid_dict_lookup, uid_dict_set.
    cbn [uid_dict_get]. rewrite K12. reflexivity. }
  assert (B3 : <[u1 := default [] (([(u1, w1); (u2, w2)] : uid_dict pybytes) !! u1) ++ w3]>
                 ([(u1, w1); (u2, w2)] : uid_dict pybytes)
               = [(u1, w1 ++ w3); (u2, w2)]).
  { unfold insert, lookup, uid_dict_insert, uid_dict_lookup, uid_dict_set.
    cbn [uid_dict_get uid_dict_alter]. rewrite ?K11. cbn [uid_dict_alter]. rewrite ?K11.
    reflexivity. }
  assert (G2 : ([(u1, w1 ++ w3); (u2, w2)] : uid_dict pybytes) !! u2 = Some w2).
  { unfold lookup, uid_dict_lookup. cbn [uid_dict_get]. rewrite K12, K22. reflexivity. }
  assert (D2 : delete u2 ([(u1, w1 ++ w3); (u2, w2)] : uid_dict pybytes)
               = [(u1, w1 ++ w3)]).
  { unfold delete, uid_dict_delete. cbn [uid_dict_del]. rewrite K12, K22. reflexivity. }
  assert (G1 : ([(u1, w1 ++ w3)] : uid_dict pybytes) !! u1 = Some (w1 ++ w3)).
  { unfold lookup, uid_dict_lookup. cbn [uid_dict_get]. rewrite K11. reflexivity. }
  assert (D1 : delete u1 ([(u1, w1 ++ w3)] : uid_dict pybytes) = ∅).
  { unfold delete, uid_dict_delete. cbn [uid_dict_del]. rewrite K11. reflexivity. }
  erewrite receive_loop_Ok
    by (apply (receive_data_frame u1 n1 w1 w1 _ h1 false); auto).
  rewrite B1.
  erewrite receive_loop_Ok
    by (apply (receive_data_frame u2 n2 w2 w2 _ h2 false); auto).
  rewrite B2.
  erewrite receive_loop_Ok
    by (apply (receive_data_frame u1 n1 w3 w3 _ h3 false); auto).
  rewrite B3.
  erewrite receive_loop_Ok
    by (apply (receive_eom_frame u2 n2 _ e2 a2 w2 false m2); auto).
  rewrite app_nil_r, D2.
  rewrite <- (app_nil_r (str_encode n1)) at 1.
  erewrite receive_loop_Ok
    by (apply (receive_eom_frame u1 n1 [] e1 a1 (w1 ++ w3) false m1); auto).
  rewrite app_nil_r, D1.
  rewrite receive_loop_end by (cbn; lia).
  reflexivity.
Qed.


End Interleaving.

Lemma uid_1_5_next_wf : Uid_wf uid_1_5_next.
Proof. split; [vm_compute; split; [discriminate | reflexivity] | reflexivity]. Qed.

Lemma receive_interleaved_witness :
  let q := process0 env0 stream_interleaved in
  let r2 := <["y"%string := default [] (io_receive q !! "y"%string) ++ [payload_45]]>
              (io_receive q) in
  @_receive_reader env0 q
  = Some (Ok tt,
          mkProcess (io_send q)
            (<["x"%string := default [] (r2 !! "x"%string) ++ [payload_123 ++ payload_6]]> r2)
            [] (reader_end q) ∅ (acknowledgements q) (clock q)
            (uid_counter q) (current_thread q)).
Proof.
  apply (@receive_interleaved env0 uid_1_5 uid_1_5_next "x" "y"
           payload_123 payload_45 payload_6
           (frame_header uid_1_5 "x" (Some payload_123) ChunkFlags_default)
           (frame_header uid_1_5_next "y" (Some payload_45) ChunkFlags_default)
           (frame_header uid_1_5 "x" (Some payload_6) ChunkFlags_default)
           (frame_header uid_1_5 "x" None flags_eom)
           (frame_header uid_1_5_next "y" None flags_eom)
           (payload_123 ++ payload_6) payload_45 (process0 env0 stream_interleaved)).
  - exact uid_1_5_wf.
  - exact uid_1_5_next_wf.
  - discriminate.
  - reflexivity.
  - reflexivity.
  - discriminate.
  - reflexivity.
  - discriminate.
  - reflexivity.
  - discriminate.
  - discriminate.
  - discriminate.
  - vm_compute. reflexivity.
  - vm_compute. reflexivity.
  - vm_compute. reflexivity.
  - vm_compute. reflexivity.
  - vm_compute. reflexivity.
  - reflexivity.
  - reflexivity.
  - reflexivity.
Defined.



Section ExceptionFacts.
Context {Env : Environment}.

(** An exception for a command whose future is pending makes this future
    fail with it and leaves the table as it is; a result for the same
    command that comes afterwards is refused: [set_result] raises
    [InvalidStateError] and the future keeps the exception. *)
Theorem ExecuteException_then_result (key : string) (exc : exn) (v : value) (fut : nat)
    (rt : runtime) :
  dict_get key (pending_commands rt) = Some fut ->
  futures rt !! fut = Some Pending ->
  exists rt',
    ExecuteException___call__ key exc rt = (Ok tt, rt')
    /\ futures rt' = <[fut := Failed exc]> (futures rt)
    /\ pending_commands rt' = pending_commands rt
    /\ rt_process rt' = rt_process rt
    /\ ExecuteResult___call__ key v rt' = (Raise InvalidStateError, rt').
Proof.
  intros Hk Hf. unfold ExecuteException___call__, pending_commands_getitem. rewrite Hk, Hf.
  cbn [default from_option future_set_exception]. eexists. split; [reflexivity|].
  norm_runtime. do 3 (split; [reflexivity|]).
  unfold ExecuteResult___call__, pending_commands_getitem.
  norm_runtime. rewrite Hk. norm_runtime. rewrite lookup_insert_eq.
  reflexivity.
Qed.

End ExceptionFacts.

Lemma ExecuteException_then_result_witness :
  exists rt',
    @ExecuteException___call__ env0 "b" (KeyError "boom") two_pending = (Ok tt, rt')
    /\ futures rt' = <[1%nat := Failed (KeyError "boom")]> (futures two_pending)
    /\ pending_commands rt' = pending_commands two_pending
    /\ rt_process rt' = rt_process two_pending
    /\ @ExecuteResult___call__ env0 "b" payload_123 rt' = (Raise InvalidStateError, rt').
Proof.
  apply (@ExecuteException_then_result env0 "b" (KeyError "boom") payload_123 1%nat
           two_pending).
  - reflexivity.
  - vm_compute. reflexivity.
Defined.

(** ** Further properties: the registry over a program *)

Lemma define_classes_cons (d : string * string * execute_method)
    (defs : list (string * string * execute_method)) (mcs : CommandMeta) :
  define_classes (d :: defs) mcs
  = define_classes defs (snd (_CommandMeta___new__ d.1.1 d.1.2 d.2 mcs)).
Proof. destruct d as [[n m] e]. reflexivity. Qed.

Lemma define_classes_based (defs : list (string * string * execute_method))
    (mcs : CommandMeta) (b : class_object) :
  base mcs = Some b ->
  let mcs' := define_classes defs mcs in
  base mcs' = Some b
  /\ classes_defined mcs' = (classes_defined mcs + length defs)%nat
  /\ (forall k, is_Some (commands mcs' !! k)
                <-> is_Some (commands mcs !! k) \/ k ∈ map defined_name defs)
  /\ (forall k c, commands mcs' !! k = Some c ->
        commands mcs !! k = Some c
        \/ (command_name c = k
            /\ (classes_defined mcs <= class_serial c < classes_defined mcs + length defs)%nat)).
Proof.
  revert mcs. induction defs as [|[[n m] e] defs IH]; intros mcs Hb; cbn zeta.
  - cbn. rewrite Nat.add_0_r. repeat split; auto.
    + intros [H|H]; [exact H | inversion H].
  - rewrite define_classes_cons. cbn [fst snd].
    set (mcs1 := snd (_CommandMeta___new__ n m e mcs)).
    assert (H1 : base mcs1 = Some b
                 /\ classes_defined mcs1 = S (classes_defined mcs)
                 /\ commands mcs1
                    = <[(m ++ ":" ++ n)%string :=
                          mkClass (m ++ ":" ++ n) e (classes_defined mcs)]> (commands mcs)).
    { unfold mcs1, _CommandMeta___new__. rewrite Hb. cbn. auto. }
    destruct H1 as (Hb1 & Hn1 & Hc1).
    destruct (IH mcs1 Hb1) as (Gb & Gn & Gk & Gc). cbn zeta in *.
    split; [exact Gb|]. split; [rewrite Gn, Hn1; cbn [length]; lia|]. split.
    + intros k. rewrite Gk, Hc1. cbn [map defined_name]. rewrite elem_of_cons.
      destruct (decide (k = (m ++ ":" ++ n)%string)) as [->|Hne].
      * rewrite lookup_insert_eq. split; [auto | intros _; left; eauto].
      * rewrite lookup_insert_ne by congruence. tauto.
    + intros k c Hk. destruct (Gc k c Hk) as [Hold|[Hcn Hs]].
      * rewrite Hc1 in Hold.
        destruct (decide (k = (m ++ ":" ++ n)%string)) as [->|Hne].
        -- rewrite lookup_insert_eq in Hold. injection Hold as <-. right.
           cbn [command_name class_serial length]. split; [reflexivity | lia].
        -- rewrite lookup_insert_ne in Hold by congruence. left. exact Hold.
      * right. split; [exact Hcn|]. cbn [length]. lia.
Qed.

(** Whatever classes a program defines after the first one: [base] stays
    the first class, which is put in the table only when a later class
    takes its name; the names of the table are the names of the later
    classes, and the table maps each of them to a class that bears it. *)
Theorem registry_of_program (d0 : string * string * execute_method)
    (defs : list (string * string * execute_method)) :
  let mcs := define_classes (d0 :: defs) CommandMeta_empty in
  base mcs = Some (mkClass (defined_name d0) d0.2 0)
  /\ (forall k, is_Some (commands mcs !! k) <-> k ∈ map defined_name defs)
  /\ (forall k c, commands mcs !! k = Some c ->
        command_name c = k /\ (1 <= class_serial c <= length defs)%nat)
  /\ (defined_name d0 ∉ map defined_name defs -> commands mcs !! defined_name d0 = None).
Proof.
  destruct d0 as [[n m] e]. cbn zeta. rewrite define_classes_cons. cbn [fst snd].
  set (mcs1 := snd (_CommandMeta___new__ n m e CommandMeta_empty)).
  assert (H1 : base mcs1 = Some (mkClass (m ++ ":" ++ n) e 0)
               /\ classes_defined mcs1 = 1%nat /\ commands mcs1 = ∅)
    by (repeat split; reflexivity).
  destruct H1 as (Hb1 & Hn1 & Hc1).
  destruct (define_classes_based defs mcs1 _ Hb1) as (Gb & Gn & Gk & Gc). cbn zeta in *.
  split; [exact Gb|].
  assert (Hk : forall k, is_Some (commands (define_classes defs mcs1) !! k)
                         <-> k ∈ map defined_name defs).
  { intros k. rewrite Gk, Hc1, lookup_empty. split; [intros [[x Hx]|H]; [discriminate|exact H]|auto]. }
  split; [exact Hk|]. split.
  - intros k c Hc. destruct (Gc k c Hc) as [Hold|[Hcn Hs]].
    + rewrite Hc1, lookup_empty in Hold. discriminate.
    + split; [exact Hcn|]. rewrite Hn1 in Hs. lia.
  - intros Hnot. apply eq_None_not_Some. rewrite Hk. exact Hnot.
Qed.
